(** * Courseaway backend: enrollment and progress lifecycle

    A shallow embedding of [api/models.py], [api/permissions.py],
    [api/serializers.py] and [api/views.py].  The relational store is a
    record of tables, each table a list of rows in primary-key order; a
    view is a function from the store, the authenticated user and the
    request payload to a result, with the new store returned explicitly
    where the view writes.  Python floats are IEEE binary64 values
    ([PrimFloat.float]), so that [float('nan')] and the comparisons of the
    views behave as they do in the interpreter. *)

From Stdlib Require Import ZArith List String Ascii Bool Lia PrimFloat Uint63.
From Stdlib Require Import Permutation.
Import ListNotations.

Local Open Scope string_scope.
Local Open Scope Z_scope.

(** ** Results of a request *)

(** The error taxonomy of the API.  [ValidationError] and [Conflict] are
    both sent as HTTP 400; [ServerError] stands for an exception that no
    handler catches. *)
Inductive error :=
| ValidationError
| Conflict
| Forbidden
| NotFound
| Unauthenticated
| ServerError.

Definition http_status (e : error) : Z :=
  match e with
  | ValidationError | Conflict => 400
  | Unauthenticated => 401
  | Forbidden => 403
  | NotFound => 404
  | ServerError => 500
  end.

Inductive result (A : Type) :=
| Ok (a : A)
| Err (e : error).

Arguments Ok {A} a.
Arguments Err {A} e.

Definition bind {A B : Type} (m : result A) (k : A -> result B) : result B :=
  match m with
  | Ok a => k a
  | Err e => Err e
  end.

Notation "'do' x <- m ; k" := (bind m (fun x => k))
  (at level 10, x name, m at level 100, k at level 200).

(** ** models.py *)

Module User.
Record t := mk { id : Z; email : string; role : string }.
End User.

Module Course.
Record t := mk { id : Z; instructor : Z; is_active : bool }.
End Course.

Module Enrollment.
Record t := mk {
  id : Z;
  student : Z;
  course : Z;
  status : string;
  completion_percentage : float;
  grade : option float
}.

(** [ENROLLMENT_STATUS] *)
Definition ENROLLMENT_STATUS : list string :=
  ["pending"; "approved"; "rejected"; "completed"].
End Enrollment.

Module CourseContent.
Record t := mk { id : Z; course : Z; order : Z; is_active : bool }.
End CourseContent.

Module StudentProgress.
Record t := mk {
  id : Z;
  enrollment : Z;
  content : Z;
  is_completed : bool;
  score : option float
}.
End StudentProgress.

(** The database: one list of rows per model. *)
Record DB := mkDB {
  users : list User.t;
  courses : list Course.t;
  enrollments : list Enrollment.t;
  contents : list CourseContent.t;
  progress : list StudentProgress.t
}.


(** Primary key given to a new row.  The database takes it from the
    sequence of the table; here it is one more than the largest key in
    use, which is the value of the sequence as long as the row with the
    largest key has not been deleted.  The properties below use of the
    key only that no row of the table has it. *)
Definition next_pk (pks : list Z) : Z := 1 + fold_right Z.max 0 pks.

Definition set_enrollments (db : DB) (l : list Enrollment.t) : DB :=
  mkDB (users db) (courses db) l (contents db) (progress db).

Definition set_progress (db : DB) (l : list StudentProgress.t) : DB :=
  mkDB (users db) (courses db) (enrollments db) (contents db) l.

Definition set_courses (db : DB) (l : list Course.t) : DB :=
  mkDB (users db) l (enrollments db) (contents db) (progress db).

Definition set_contents (db : DB) (l : list CourseContent.t) : DB :=
  mkDB (users db) (courses db) (enrollments db) l (progress db).

Definition set_users (db : DB) (l : list User.t) : DB :=
  mkDB l (courses db) (enrollments db) (contents db) (progress db).

(** [Enrollment.objects.get(id=pk)]: the row, or [DoesNotExist] ([None]).
    A missing key ([None]) matches no row. *)
Definition get_enrollment (db : DB) (pk : option Z) : option Enrollment.t :=
  match pk with
  | None => None
  | Some k => find (fun e => Enrollment.id e =? k) (enrollments db)
  end.

(** [instance.save()] of a fetched enrollment: an UPDATE of the rows with
    its primary key. *)
Definition save_enrollment (db : DB) (e : Enrollment.t) : DB :=
  set_enrollments db
    (map (fun r => if Enrollment.id r =? Enrollment.id e then e else r)
         (enrollments db)).

(** [instance.save()] of a fetched row of the other models. *)
Definition save_course (db : DB) (c : Course.t) : DB :=
  set_courses db
    (map (fun r => if Course.id r =? Course.id c then c else r) (courses db)).

Definition save_content (db : DB) (c : CourseContent.t) : DB :=
  set_contents db
    (map (fun r => if CourseContent.id r =? CourseContent.id c then c else r)
         (contents db)).

Definition save_progress (db : DB) (p : StudentProgress.t) : DB :=
  set_progress db
    (map (fun r => if StudentProgress.id r =? StudentProgress.id p
                   then p else r)
         (progress db)).

(** [delete()]: with the rows to delete go the rows whose foreign key
    points to one of them, and the rows pointing to those in turn (every
    foreign key of the models has [on_delete=CASCADE]).  [points_to] says
    whether [k] is the key of a row to delete. *)
Definition points_to {A : Type} (id : A -> Z) (gone : A -> bool)
           (rows : list A) (k : Z) : bool :=
  existsb (fun r => gone r && (id r =? k)) rows.

Definition delete_progress (db : DB) (gone : StudentProgress.t -> bool) : DB :=
  set_progress db (filter (fun p => negb (gone p)) (progress db)).

Definition delete_contents (db : DB) (gone : CourseContent.t -> bool) : DB :=
  let db1 :=
    delete_progress db
      (fun p => points_to CourseContent.id gone (contents db)
                          (StudentProgress.content p)) in
  set_contents db1 (filter (fun x => negb (gone x)) (contents db1)).

Definition delete_enrollments (db : DB) (gone : Enrollment.t -> bool) : DB :=
  let db1 :=
    delete_progress db
      (fun p => points_to Enrollment.id gone (enrollments db)
                          (StudentProgress.enrollment p)) in
  set_enrollments db1 (filter (fun e => negb (gone e)) (enrollments db1)).

Definition delete_courses (db : DB) (gone : Course.t -> bool) : DB :=
  let of_gone := points_to Course.id gone (courses db) in
  let db1 := delete_contents db (fun x => of_gone (CourseContent.course x)) in
  let db2 := delete_enrollments db1 (fun e => of_gone (Enrollment.course e)) in
  set_courses db2 (filter (fun c => negb (gone c)) (courses db2)).

Definition delete_users (db : DB) (gone : User.t -> bool) : DB :=
  let of_gone := points_to User.id gone (users db) in
  let db1 := delete_courses db (fun c => of_gone (Course.instructor c)) in
  let db2 := delete_enrollments db1 (fun e => of_gone (Enrollment.student e)) in
  set_users db2 (filter (fun u => negb (gone u)) (users db2)).

(** [request.user.role == 'admin'] *)
Definition is_admin (user : User.t) : bool :=
  String.eqb (User.role user) "admin".

(** ** Python numbers as they reach the views *)

(** What the builtin [float(v)] does with a submitted value [v]: it returns
    a float (a JSON number, or a string such as ['42.5'], ['inf'] or
    ['nan']), or raises [ValueError] (a string that is no number),
    [TypeError] (a list or an object) or [OverflowError] (an integer too
    large for a double). *)
Inductive exc := ValueError | TypeError | OverflowError.

Inductive float_result :=
| Float (x : float)
| Raise (e : exc).

(** [x < 0 or x > 100] *)
Definition out_of_range (x : float) : bool :=
  PrimFloat.ltb x 0%float || PrimFloat.ltb 100%float x.

(** A JSON number in a response: the integer [0] or a float. *)
Inductive number :=
| NInt (z : Z)
| NFloat (x : float).

(** [a / b] on two counts: true division, [ZeroDivisionError] ([None])
    when [b] is zero.  Counts are below 2^53, where the conversion to a
    double is exact. *)
Definition float_of_nat (n : nat) : float :=
  PrimFloat.of_uint63 (Uint63.of_Z (Z.of_nat n)).

Definition truediv (a b : nat) : option float :=
  match b with
  | O => None
  | S _ => Some (PrimFloat.div (float_of_nat a) (float_of_nat b))
  end.

(** ** permissions.py *)

(** [IsOwnerOrAdmin.has_object_permission] on an enrollment, which has a
    [student] attribute. *)
Definition IsOwnerOrAdmin_enrollment (user : User.t) (obj : Enrollment.t) : bool :=
  if is_admin user then true
  else Enrollment.student obj =? User.id user.

(** ** serializers.py: EnrollmentSerializer *)

(** A key as it stands in the payload: a JSON number, or a piece of text
    (as is every value of a form or multipart body) that the related
    field reads as the key [z].  Text that is no key, and a null, behave
    as text for a key that is not on file. *)
Inductive key_value :=
| NumberKey (z : Z)
| TextKey (z : Z).

(** The key that a [PrimaryKeyRelatedField] looks up. *)
Definition key_of (k : key_value) : Z :=
  match k with
  | NumberKey z | TextKey z => z
  end.

(** [value != request.user.id] on the raw payload value: text never
    equals a number. *)
Definition differs (k : key_value) (pk : Z) : bool :=
  match k with
  | NumberKey z => negb (z =? pk)
  | TextKey _ => true
  end.

(** The writable fields of [EnrollmentSerializer] ([fields = '__all__'],
    read-only [id] and [enrolled_at]); [None] is a field left out of the
    payload.  For [grade], [Some None] is an explicit null. *)
Record EnrollmentData := mkEnrollmentData {
  d_student : option key_value;
  d_course : option Z;
  d_status : option string;
  d_completion_percentage : option float;
  d_grade : option (option float)
}.

(** A related-field key resolves to a [User] row with role [student]
    ([limit_choices_to]) or to a [Course] row. *)
Definition student_exists (db : DB) (k : Z) : bool :=
  existsb (fun u => (User.id u =? k) && String.eqb (User.role u) "student")
          (users db).

Definition course_exists (db : DB) (k : Z) : bool :=
  existsb (fun c => Course.id c =? k) (courses db).

Definition valid_choice (s : string) : bool :=
  existsb (String.eqb s) Enrollment.ENROLLMENT_STATUS.

(** A percentage as a serializer [FloatField] with
    [MinValueValidator(0)] and [MaxValueValidator(100)] takes it: a float
    from 0 to 100; NaN is turned down like a value outside the bounds. *)
Definition valid_percent (x : float) : bool :=
  PrimFloat.leb 0%float x && PrimFloat.leb x 100%float.

(** A required related field: present (or taken from the instance of a
    partial update) and resolvable. *)
Definition field_ok (supplied : option Z) (has_instance partial : bool)
           (resolves : Z -> bool) : bool :=
  match supplied with
  | Some k => resolves k
  | None => has_instance && partial
  end.

Definition opt_ok {A : Type} (p : A -> bool) (o : option A) : bool :=
  match o with
  | Some a => p a
  | None => true
  end.

Definition fields_valid (db : DB) (instance : option Enrollment.t)
           (partial : bool) (data : EnrollmentData) : bool :=
  let has := match instance with Some _ => true | None => false end in
  field_ok (option_map key_of (d_student data)) has partial (student_exists db)
  && field_ok (d_course data) has partial (course_exists db)
  && opt_ok valid_choice (d_status data)
  && opt_ok valid_percent (d_completion_percentage data)
  && opt_ok (opt_ok valid_percent) (d_grade data).

(** [UniqueTogetherValidator] on [(student, course)]: another row with the
    pair exists; on an update the instance itself is excluded. *)
Definition pair_taken (db : DB) (instance : option Enrollment.t)
           (s c : Z) : bool :=
  existsb (fun e =>
             (Enrollment.student e =? s) && (Enrollment.course e =? c)
             && match instance with
                | Some i => negb (Enrollment.id e =? Enrollment.id i)
                | None => true
                end)
          (enrollments db).

Definition or_default {A : Type} (o : option A) (d : A) : A :=
  match o with
  | Some a => a
  | None => d
  end.

(** [serializer.is_valid(raise_exception=True)]: field validation, then the
    uniqueness validator.  The validated row carries the model defaults
    ([status='pending'], [completion_percentage=0], [grade=None]) on a
    create and the instance's values on an update. *)
Definition is_valid (db : DB) (instance : option Enrollment.t)
           (partial : bool) (data : EnrollmentData) : result Enrollment.t :=
  if negb (fields_valid db instance partial data) then Err ValidationError
  else
    let base :=
      match instance with
      | Some i => i
      | None => Enrollment.mk (next_pk (map Enrollment.id (enrollments db)))
                              0 0 "pending" 0%float None
      end in
    let s := or_default (option_map key_of (d_student data))
                        (Enrollment.student base) in
    let c := or_default (d_course data) (Enrollment.course base) in
    if pair_taken db instance s c then Err Conflict
    else Ok (Enrollment.mk (Enrollment.id base) s c
               (or_default (d_status data) (Enrollment.status base))
               (or_default (d_completion_percentage data)
                           (Enrollment.completion_percentage base))
               (or_default (d_grade data) (Enrollment.grade base))).

(** ** views.py: EnrollmentViewSet *)

Module EnrollmentViewSet.

(** [get_queryset]: admins see every enrollment, other users their own. *)
Definition get_queryset (db : DB) (user : User.t) : list Enrollment.t :=
  if is_admin user then enrollments db
  else filter (fun e => Enrollment.student e =? User.id user) (enrollments db).

(** [self.get_object()]: look the key up in the queryset (404 when it is
    not there), then check the object permissions (403).  Requests carry
    no filter parameters. *)
Definition get_object (db : DB) (user : User.t) (pk : Z) : result Enrollment.t :=
  match find (fun e => Enrollment.id e =? pk) (get_queryset db user) with
  | None => Err NotFound
  | Some obj =>
      if IsOwnerOrAdmin_enrollment user obj then Ok obj else Err Forbidden
  end.

Definition create (db : DB) (user : User.t) (data : EnrollmentData)
  : result (DB * Enrollment.t) :=
  if match d_student data with
     | Some s => differs s (User.id user)
     | None => false
     end && negb (is_admin user)
  then Err Forbidden
  else
    do row <- is_valid db None false data;
    if existsb (fun e => (Enrollment.student e =? Enrollment.student row)
                         && (Enrollment.course e =? Enrollment.course row))
               (enrollments db)
    then Err Conflict
    else Ok (set_enrollments db (enrollments db ++ [row]), row).

(** [UpdateModelMixin.update], with [partial=True] for a PATCH. *)
Definition update (partial : bool) (db : DB) (user : User.t) (pk : Z)
           (data : EnrollmentData) : result (DB * Enrollment.t) :=
  do instance <- get_object db user pk;
  do row <- is_valid db (Some instance) partial data;
  Ok (save_enrollment db row, row).

Definition partial_update := update true.

(** [DestroyModelMixin.destroy]; the progress rows go with the
    enrollment ([on_delete=CASCADE]). *)
Definition destroy (db : DB) (user : User.t) (pk : Z) : result DB :=
  do instance <- get_object db user pk;
  Ok (mkDB (users db) (courses db)
           (filter (fun e => negb (Enrollment.id e =? Enrollment.id instance))
                   (enrollments db))
           (contents db)
           (filter (fun p => negb (StudentProgress.enrollment p
                                   =? Enrollment.id instance))
                   (progress db))).

(** The body of [update_progress]: [request.data.get(key)] is [None]
    for a missing or null key, and otherwise what [float] makes of the
    value. *)
Record ProgressData := mkProgressData {
  p_completion_percentage : option float_result;
  p_grade : option float_result
}.

(** One [try: float(v); range check; assign / except (ValueError,
    TypeError)] block.  [assign] writes the attribute of the in-memory
    instance. *)
Definition checked_assign (v : option float_result)
           (assign : float -> Enrollment.t) (enrollment : Enrollment.t)
  : result Enrollment.t :=
  match v with
  | None => Ok enrollment
  | Some (Float x) =>
      if out_of_range x then Err ValidationError else Ok (assign x)
  | Some (Raise ValueError) | Some (Raise TypeError) => Err ValidationError
  | Some (Raise OverflowError) => Err ServerError
  end.

Definition set_completion_percentage (e : Enrollment.t) (x : float) :=
  Enrollment.mk (Enrollment.id e) (Enrollment.student e) (Enrollment.course e)
                (Enrollment.status e) x (Enrollment.grade e).

Definition set_grade (e : Enrollment.t) (x : float) :=
  Enrollment.mk (Enrollment.id e) (Enrollment.student e) (Enrollment.course e)
                (Enrollment.status e) (Enrollment.completion_percentage e)
                (Some x).

Definition set_status (e : Enrollment.t) (s : string) :=
  Enrollment.mk (Enrollment.id e) (Enrollment.student e) (Enrollment.course e)
                s (Enrollment.completion_percentage e) (Enrollment.grade e).

(** [update_progress].  A float that passes the range test is assigned
    and saved; what becomes of a NaN after that test (SQLite stores a
    null, the JSON renderer refuses the number) lies behind the view and
    is not part of this function. *)
Definition update_progress (db : DB) (user : User.t) (pk : Z)
           (data : ProgressData) : result (DB * Enrollment.t) :=
  do enrollment <- get_object db user pk;
  if negb (is_admin user || (Enrollment.student enrollment =? User.id user))
  then Err Forbidden
  else
    do enrollment <- checked_assign (p_completion_percentage data)
                       (set_completion_percentage enrollment) enrollment;
    do enrollment <- checked_assign (p_grade data)
                       (set_grade enrollment) enrollment;
    Ok (save_enrollment db enrollment, enrollment).

(** [enrollment.course.instructor == request.user] *)
Definition instructs (db : DB) (user : User.t) (enrollment : Enrollment.t) : bool :=
  match find (fun c => Course.id c =? Enrollment.course enrollment) (courses db) with
  | Some c => Course.instructor c =? User.id user
  | None => false
  end.

Definition set_status_action (new_status : string) (db : DB) (user : User.t)
           (pk : Z) : result (DB * Enrollment.t) :=
  do enrollment <- get_object db user pk;
  if negb (is_admin user || instructs db user enrollment)
  then Err Forbidden
  else
    let enrollment := set_status enrollment new_status in
    Ok (save_enrollment db enrollment, enrollment).

Definition approve := set_status_action "approved".
Definition reject := set_status_action "rejected".

Definition pending_approvals (db : DB) (user : User.t)
  : result (list Enrollment.t) :=
  if negb (is_admin user) then Err Forbidden
  else
    let taught := filter (fun c => Course.instructor c =? User.id user)
                         (courses db) in
    Ok (filter (fun e =>
                  existsb (fun c => Course.id c =? Enrollment.course e) taught
                  && String.eqb (Enrollment.status e) "pending")
               (enrollments db)).

End EnrollmentViewSet.

(** ** views.py: StudentProgressViewSet *)

Module StudentProgressViewSet.

(** The payload of a progress creation or update; the two keys are
    integers, sent as JSON numbers or as text that reads as one. *)
Record ProgressData := mkProgressData {
  d_enrollment : option Z;
  d_content : option Z;
  d_is_completed : option bool;
  d_score : option float
}.

Definition content_exists (db : DB) (k : Z) : bool :=
  existsb (fun c => CourseContent.id c =? k) (contents db).

(** [StudentProgress.objects.filter(enrollment_id=e, content_id=c).exists()] *)
Definition progress_exists (db : DB) (e : Z) (c : option Z) : bool :=
  match c with
  | None => false
  | Some c =>
      existsb (fun p => (StudentProgress.enrollment p =? e)
                        && (StudentProgress.content p =? c))
              (progress db)
  end.

(** [StudentProgressSerializer.is_valid]: both related fields are
    required and must resolve, the score passes the model's validators,
    then the uniqueness validator on [(enrollment, content)]. *)
Definition is_valid (db : DB) (data : ProgressData) : result StudentProgress.t :=
  match d_enrollment data, d_content data with
  | Some e, Some c =>
      if negb (existsb (fun r => Enrollment.id r =? e) (enrollments db)
               && content_exists db c
               && opt_ok valid_percent (d_score data))
      then Err ValidationError
      else if progress_exists db e (Some c) then Err Conflict
      else Ok (StudentProgress.mk
                 (next_pk (map StudentProgress.id (progress db)))
                 e c (or_default (d_is_completed data) false) (d_score data))
  | _, _ => Err ValidationError
  end.

(** [CreateModelMixin.create] *)
Definition super_create (db : DB) (data : ProgressData)
  : result (DB * StudentProgress.t) :=
  do row <- is_valid db data;
  Ok (set_progress db (progress db ++ [row]), row).

Definition create (db : DB) (user : User.t) (data : ProgressData)
  : result (DB * StudentProgress.t) :=
  match get_enrollment db (d_enrollment data) with
  | None => Err NotFound
  | Some enrollment =>
      if negb (String.eqb (Enrollment.status enrollment) "approved")
      then Err Forbidden
      else if progress_exists db (Enrollment.id enrollment) (d_content data)
      then Err Conflict
      else super_create db data
  end.

Record OverallProgress := mkOverall {
  total_contents : nat;
  completed_contents : nat;
  completion_percentage : number
}.

Record CourseProgress := mkCourseProgress {
  overall_progress : OverallProgress;
  detailed_progress : list StudentProgress.t
}.

(** [(completed / total * 100) if total > 0 else 0]; a
    [ZeroDivisionError] would surface as a server error. *)
Definition percentage (completed total : nat) : result number :=
  if (0 <? total)%nat then
    match truediv completed total with
    | Some q => Ok (NFloat (PrimFloat.mul q 100%float))
    | None => Err ServerError
    end
  else Ok (NInt 0).

(** The enrollments [course_progress] looks at: those of the course for
    [student_id] when an admin passes one, otherwise the caller's. *)
Definition resolve (db : DB) (user : User.t) (course_id : Z)
           (student_id : option Z) : list Enrollment.t :=
  let who := match student_id with
             | Some s => if is_admin user then s else User.id user
             | None => User.id user
             end in
  filter (fun e => (Enrollment.course e =? course_id)
                   && (Enrollment.student e =? who))
         (enrollments db).

Definition active_contents (db : DB) (course_id : Z) : list CourseContent.t :=
  filter (fun c => (CourseContent.course c =? course_id)
                   && CourseContent.is_active c)
         (contents db).

Definition course_progress (db : DB) (user : User.t)
           (course_id student_id : option Z) : result CourseProgress :=
  match course_id with
  | None => Err ValidationError
  | Some course_id =>
      match resolve db user course_id student_id with
      | [] => Err NotFound
      | enrollment :: _ =>
          let progress :=
            filter (fun p => StudentProgress.enrollment p
                             =? Enrollment.id enrollment)
                   (progress db) in
          let total_contents := List.length (active_contents db course_id) in
          let completed_contents :=
            List.length (filter StudentProgress.is_completed progress) in
          do pct <- percentage completed_contents total_contents;
          Ok (mkCourseProgress
                (mkOverall total_contents completed_contents pct)
                progress)
      end
  end.

End StudentProgressViewSet.

(** ** views.py: CourseViewSet and CourseContentViewSet (creation) *)

Module CourseViewSet.

(** The payload of a course creation or update, for the fields that the
    store keeps; its other fields (title, description, dates, thumbnail)
    are taken to pass their validators. *)
Record CourseData := mkCourseData {
  d_instructor : option Z;
  d_is_active : option bool
}.

(** [IsAdminOrReadOnly]: a POST needs the admin role.  The instructor is
    required and is a user with role [admin] ([limit_choices_to]). *)
Definition create (db : DB) (user : User.t) (data : CourseData)
  : result (DB * Course.t) :=
  if negb (is_admin user) then Err Forbidden
  else
    match d_instructor data with
    | None => Err ValidationError
    | Some i =>
        if existsb (fun u => (User.id u =? i) && String.eqb (User.role u) "admin")
                   (users db)
        then
          let row := Course.mk (next_pk (map Course.id (courses db))) i
                               (or_default (d_is_active data) true) in
          Ok (set_courses db (courses db ++ [row]), row)
        else Err ValidationError
    end.

End CourseViewSet.

Module CourseContentViewSet.

(** The payload of a content creation or update, for the fields that the
    store keeps; its other fields (title, type, file, description) are
    taken to pass their validators. *)
Record ContentData := mkContentData {
  d_course : option Z;
  d_order : option Z;
  d_is_active : option bool
}.

(** [permission_classes = [IsAuthenticated]]: any authenticated user may
    post a content item for an existing course. *)
Definition create (db : DB) (user : User.t) (data : ContentData)
  : result (DB * CourseContent.t) :=
  match d_course data with
  | None => Err ValidationError
  | Some c =>
      if course_exists db c && (0 <=? or_default (d_order data) 0)
      then
        let row := CourseContent.mk
                     (next_pk (map CourseContent.id (contents db))) c
                     (or_default (d_order data) 0)
                     (or_default (d_is_active data) true) in
        Ok (set_contents db (contents db ++ [row]), row)
      else Err ValidationError
  end.

End CourseContentViewSet.

(** ** serializers.py and views.py: registration *)

(** [str.strip()] on the text fields of a serializer
    ([trim_whitespace=True]).  A text is the sequence of the bytes of its
    UTF-8 encoding; the white space of Python is the ASCII characters 9 to
    13, 28 to 31 and 32, the two-byte characters U+0085 and U+00A0, and
    the three-byte characters U+1680, U+2000 to U+200A, U+2028, U+2029,
    U+202F, U+205F and U+3000. *)
Definition is_space (c : ascii) : bool :=
  let n := nat_of_ascii c in
  (((9 <=? n) && (n <=? 13)) || ((28 <=? n) && (n <=? 32)))%nat.

Definition is_space2 (a b : ascii) : bool :=
  let (m, n) := (nat_of_ascii a, nat_of_ascii b) in
  ((m =? 194) && ((n =? 133) || (n =? 160)))%nat.

Definition is_space3 (a b c : ascii) : bool :=
  let (m, n) := (nat_of_ascii a, nat_of_ascii b) in
  let k := nat_of_ascii c in
  (((m =? 225) && (n =? 154) && (k =? 128))
   || ((m =? 226) && (n =? 128)
       && (((128 <=? k) && (k <=? 138)) || (k =? 168) || (k =? 169)
           || (k =? 175)))
   || ((m =? 226) && (n =? 129) && (k =? 159))
   || ((m =? 227) && (n =? 128) && (k =? 128)))%nat.

(** Dropping the white space at the front, given how to tell a character
    of two and of three bytes. *)
Fixpoint strip_front (two : ascii -> ascii -> bool)
         (three : ascii -> ascii -> ascii -> bool) (s : string) : string :=
  match s with
  | EmptyString => EmptyString
  | String a r1 =>
      if is_space a then strip_front two three r1
      else
        match r1 with
        | EmptyString => s
        | String b r2 =>
            if two a b then strip_front two three r2
            else
              match r2 with
              | EmptyString => s
              | String c r3 =>
                  if three a b c then strip_front two three r3 else s
              end
        end
  end.

Fixpoint reverse_onto (s acc : string) : string :=
  match s with
  | EmptyString => acc
  | String c s' => reverse_onto s' (String c acc)
  end.

Definition reverse (s : string) : string := reverse_onto s EmptyString.

Definition lstrip (s : string) : string := strip_front is_space2 is_space3 s.

(** At the back the bytes of a character are met last byte first. *)
Definition rstrip (s : string) : string :=
  reverse (strip_front (fun b a => is_space2 a b)
                       (fun c b a => is_space3 a b c) (reverse s)).

Definition strip (s : string) : string := lstrip (rstrip s).

(** [len(text)]: the characters of a text, that is the bytes that do not
    continue a character. *)
Fixpoint utf8_length (s : string) : nat :=
  match s with
  | EmptyString => O
  | String c s' =>
      let n := nat_of_ascii c in
      if ((128 <=? n) && (n <? 192))%nat then utf8_length s'
      else S (utf8_length s')
  end.

(** [ProhibitNullCharactersValidator] *)
Fixpoint no_nul (s : string) : bool :=
  match s with
  | EmptyString => true
  | String c s' => negb (nat_of_ascii c =? 0)%nat && no_nul s'
  end.

(** [user.save()] of a new account: the unique constraint on the email
    raises [IntegrityError], which nothing catches, for an email on
    file. *)
Definition insert_account (db : DB) (email role : string)
  : result (DB * User.t) :=
  if existsb (fun u => String.eqb (User.email u) email) (users db)
  then Err ServerError
  else
    let user := User.mk (next_pk (map User.id (users db))) email role in
    Ok (set_users db (users db ++ [user]), user).

Module AuthViewSet.
Section WithSettings.

(** [settings.ADMIN_REGISTRATION_SECRET], read from the environment. *)
Variable ADMIN_REGISTRATION_SECRET : string.

(** Django's [EmailValidator] and [BaseUserManager.normalize_email]. *)
Variable validate_email : string -> bool.
Variable normalize_email : string -> string.

(** The registration payload, its fields sent as text (a form body, or
    JSON strings).  [None] is a key that is not in [request.data]; of the
    optional profile fields (names, date of birth, phone number, address)
    the payload records whether those sent pass their validators. *)
Record RegistrationData := mkRegistrationData {
  r_email : option string;
  r_password : option string;
  r_admin_secret : option string;
  r_profile_ok : bool
}.

(** Field validation of [UserRegistrationSerializer]: a non-blank,
    well-formed and unused email of at most 254 characters, a password of
    six characters or more, and no null character in a text field. *)
Definition fields_ok (db : DB) (data : RegistrationData) : bool :=
  match r_email data, r_password data with
  | Some e, Some p =>
      negb (String.eqb (strip e) "")
      && (utf8_length (strip e) <=? 254)%nat
      && no_nul (strip e)
      && validate_email (strip e)
      && negb (existsb (fun u => String.eqb (User.email u) (strip e)) (users db))
      && (6 <=? utf8_length (strip p))%nat
      && no_nul (strip p)
      && opt_ok no_nul (r_admin_secret data)
      && r_profile_ok data
  | _, _ => false
  end.

(** [UserRegistrationSerializer.validate]: the result is the [is_admin]
    mark put in the validated data. *)
Definition validate (data : RegistrationData) : result bool :=
  match r_admin_secret data with
  | None => Ok false
  | Some s =>
      let admin_secret := strip s in
      if String.eqb admin_secret "" then Ok false
      else if String.eqb admin_secret ADMIN_REGISTRATION_SECRET then Ok true
      else Err ValidationError
  end.

(** [UserRegistrationSerializer.create] followed by
    [CustomUserManager.create_user]: [ValueError] for an empty email, then
    the normalised email is saved. *)
Definition create (db : DB) (data : RegistrationData) (marked_admin : bool)
  : result (DB * User.t) :=
  let email := strip (or_default (r_email data) "") in
  if String.eqb email "" then Err ServerError
  else insert_account db (normalize_email email)
                      (if marked_admin then "admin" else "student").

Definition register (db : DB) (data : RegistrationData)
  : result (DB * User.t) :=
  if negb (fields_ok db data) then Err ValidationError
  else
    do marked_admin <- validate data;
    match r_admin_secret data with
    | Some s =>
        if negb (String.eqb s "")
           && negb (String.eqb s ADMIN_REGISTRATION_SECRET)
        then Err ValidationError
        else create db data marked_admin
    | None => create db data marked_admin
    end.

End WithSettings.
End AuthViewSet.

(** ** The operations of the spec and the outcome of a request *)

(** The spec's [requestEnrollment(studentId, courseId)]: an enrollment
    creation whose payload names the pair, as two JSON numbers, and
    nothing else. *)
Definition requestEnrollment (db : DB) (user : User.t) (student course : Z)
  : result (DB * Enrollment.t) :=
  EnrollmentViewSet.create db user
    (mkEnrollmentData (Some (NumberKey student)) (Some course) None None None).

(** JWT authentication: the token names a user row. *)
Definition authenticate (db : DB) (uid : Z) : option User.t :=
  find (fun u => User.id u =? uid) (users db).

(** The store after a request: a failed request leaves it as it was. *)
Definition new_state {A : Type} (db : DB) (r : result (DB * A)) : DB :=
  match r with
  | Ok (db', _) => db'
  | Err _ => db
  end.

Definition after_delete (db : DB) (r : result DB) : DB :=
  match r with
  | Ok db' => db'
  | Err _ => db
  end.

(** ** permissions.py: the permission classes *)

Module Permissions.

Inductive method := GET | HEAD | OPTIONS | POST | PUT | PATCH | DELETE.

(** [permissions.SAFE_METHODS] *)
Definition safe (m : method) : bool :=
  match m with
  | GET | HEAD | OPTIONS => true
  | _ => false
  end.

(** [request.user] is [None] for a request without credentials
    ([is_authenticated] is false). *)
Definition IsAdmin (user : option User.t) : bool :=
  match user with
  | Some u => String.eqb (User.role u) "admin"
  | None => false
  end.

Definition IsStudent (user : option User.t) : bool :=
  match user with
  | Some u => String.eqb (User.role u) "student"
  | None => false
  end.

Definition IsAdminOrReadOnly (m : method) (user : option User.t) : bool :=
  if safe m then true else IsAdmin user.

(** The objects the view sets hand to [has_object_permission]. *)
Inductive model_obj :=
| UserObj (u : User.t)
| CourseObj (c : Course.t)
| EnrollmentObj (e : Enrollment.t)
| ContentObj (c : CourseContent.t)
| ProgressObj (p : StudentProgress.t).

(** [IsOwnerOrAdmin.has_object_permission].  Of the five models only
    [Enrollment] has an attribute [student], none has an attribute [user],
    and only [StudentProgress] has an attribute [enrollment] (the reverse
    accessors of [User] and [Course] are [enrollment_set]); so for a user,
    a course or a content item the three [hasattr] tests fail and the
    answer is [False]. *)
Definition IsOwnerOrAdmin (db : DB) (user : User.t) (obj : model_obj) : bool :=
  if is_admin user then true
  else
    match obj with
    | EnrollmentObj e => Enrollment.student e =? User.id user
    | ProgressObj p =>
        match get_enrollment db (Some (StudentProgress.enrollment p)) with
        | Some e => Enrollment.student e =? User.id user
        | None => false
        end
    | UserObj _ | CourseObj _ | ContentObj _ => false
    end.

End Permissions.

(** ** models.py: CustomUserManager *)

Module CustomUserManager.





Section WithNormalize.

Variable normalize_email : string -> string.





End WithNormalize.
End CustomUserManager.

(** ** views.py: the remaining querysets and actions *)

Module UserViewSet.

(** [get_queryset]; reading [role] off an anonymous user raises
    [AttributeError]. *)
Definition get_queryset (db : DB) (user : option User.t) : result (list User.t) :=
  match user with
  | None => Err ServerError
  | Some u =>
      if is_admin u then Ok (users db)
      else Ok (filter (fun r => User.id r =? User.id u) (users db))
  end.

Inductive action :=
| act_list | act_create | act_retrieve | act_update | act_partial_update
| act_destroy.

(** [get_permissions]: [true] stands for [[IsOwnerOrAdmin()]], [false]
    for [[IsAdmin()]]. *)
Definition owner_or_admin_action (a : action) : bool :=
  match a with
  | act_retrieve | act_update | act_partial_update => true
  | act_list | act_create | act_destroy => false
  end.

(** [check_permissions] of the action: [IsOwnerOrAdmin] has no
    [has_permission] of its own and lets everybody in, [IsAdmin] answers
    401 without credentials and 403 to other roles. *)
Definition check_permissions (a : action) (user : option User.t) : result unit :=
  if owner_or_admin_action a then Ok tt
  else if Permissions.IsAdmin user then Ok tt
  else match user with
       | None => Err Unauthenticated
       | Some _ => Err Forbidden
       end.

(** [get_object] of a detail action. *)
Definition get_object (a : action) (db : DB) (user : option User.t) (pk : Z)
  : result User.t :=
  do _ <- check_permissions a user;
  do queryset <- get_queryset db user;
  match find (fun r => User.id r =? pk) queryset, user with
  | None, _ => Err NotFound
  | Some obj, Some u =>
      if owner_or_admin_action a
      then if Permissions.IsOwnerOrAdmin db u (Permissions.UserObj obj)
           then Ok obj else Err Forbidden
      else Ok obj
  | Some obj, None => Err Unauthenticated
  end.

(** [ListModelMixin.list] *)
Definition list_users (db : DB) (user : option User.t) : result (list User.t) :=
  do _ <- check_permissions act_list user;
  get_queryset db user.

(** [CreateModelMixin.create] with [UserSerializer], in which [email] and
    [role] are read-only: the row gets the defaults of the model, an empty
    email and the role [student].  [profile_ok] says whether the profile
    fields of the payload pass their validators. *)
Definition create (db : DB) (user : option User.t) (profile_ok : bool)
  : result (DB * User.t) :=
  do _ <- check_permissions act_create user;
  if negb profile_ok then Err ValidationError
  else insert_account db "" "student".

(** [UpdateModelMixin.update]: the profile fields are written, the key,
    the email and the role stay. *)
Definition update (partial : bool) (db : DB) (user : option User.t) (pk : Z)
           (profile_ok : bool) : result (DB * User.t) :=
  do obj <- get_object (if partial then act_partial_update else act_update)
                       db user pk;
  if negb profile_ok then Err ValidationError
  else Ok (db, obj).

(** [DestroyModelMixin.destroy] *)
Definition destroy (db : DB) (user : option User.t) (pk : Z) : result DB :=
  do obj <- get_object act_destroy db user pk;
  Ok (delete_users db (fun u => User.id u =? User.id obj)).

End UserViewSet.

(** [CourseViewSet.enrollments]: a GET under [IsAdminOrReadOnly], which
    lets every caller in; the course is looked up among all courses. *)
Definition CourseViewSet_enrollments (db : DB) (user : option User.t) (pk : Z)
  : result (list Enrollment.t) :=
  if negb (Permissions.IsAdminOrReadOnly Permissions.GET user) then Err Forbidden
  else
    match find (fun c => Course.id c =? pk) (courses db) with
    | None => Err NotFound
    | Some course =>
        Ok (filter (fun e => Enrollment.course e =? Course.id course)
                   (enrollments db))
    end.

(** [EnrollmentWithProgressSerializer]: an enrollment with its
    [progress_details], the rows of the reverse relation [progress]. *)
Definition with_progress (db : DB) (e : Enrollment.t)
  : Enrollment.t * list StudentProgress.t :=
  (e, filter (fun p => StudentProgress.enrollment p =? Enrollment.id e)
             (progress db)).

(** [EnrollmentViewSet.student_enrollments] *)
Definition EnrollmentViewSet_student_enrollments (db : DB) (user : User.t)
           (student_id : option Z)
  : list (Enrollment.t * list StudentProgress.t) :=
  let enrollments :=
    match student_id with
    | Some s =>
        if is_admin user
        then filter (fun e => Enrollment.student e =? s) (enrollments db)
        else filter (fun e => Enrollment.student e =? User.id user)
                    (enrollments db)
    | None => filter (fun e => Enrollment.student e =? User.id user)
                     (enrollments db)
    end in
  map (with_progress db) enrollments.

(** [Meta.ordering = ['order']]: the rows by ascending [order]; rows of
    the same [order] stay in store order. *)
Fixpoint insert_by_order (c : CourseContent.t) (sorted : list CourseContent.t)
  : list CourseContent.t :=
  match sorted with
  | [] => [c]
  | x :: rest =>
      if CourseContent.order c <=? CourseContent.order x then c :: sorted
      else x :: insert_by_order c rest
  end.

Definition order_by_order (rows : list CourseContent.t)
  : list CourseContent.t :=
  fold_right insert_by_order [] rows.

(** [CourseContentViewSet.get_queryset].  The filter of the last branch is
    a join through [course__enrollment]: a content item comes once for
    every enrollment of its course that is the user's and approved. *)
Definition CourseContentViewSet_get_queryset (db : DB) (user : User.t)
  : list CourseContent.t :=
  let queryset := order_by_order (contents db) in
  if is_admin user then queryset
  else if is_admin user
  then filter (fun c =>
                 match find (fun k => Course.id k =? CourseContent.course c)
                            (courses db) with
                 | Some k => Course.instructor k =? User.id user
                 | None => false
                 end)
              queryset
  else
    flat_map
      (fun c =>
         map (fun _ => c)
             (filter (fun e => (Enrollment.course e =? CourseContent.course c)
                               && (Enrollment.student e =? User.id user)
                               && String.eqb (Enrollment.status e) "approved")
                     (enrollments db)))
      (filter CourseContent.is_active queryset).

(** [StudentProgressViewSet.get_queryset]; [enrollment__student] and
    [enrollment__status] go through the foreign key of the row. *)
Definition StudentProgressViewSet_get_queryset (db : DB) (user : User.t)
  : list StudentProgress.t :=
  if is_admin user then progress db
  else
    filter (fun p =>
              match get_enrollment db (Some (StudentProgress.enrollment p)) with
              | Some e => (Enrollment.student e =? User.id user)
                          && String.eqb (Enrollment.status e) "approved"
              | None => false
              end)
           (progress db).

(** [get_object] of [StudentProgressViewSet] (retrieve, update, destroy). *)
Definition StudentProgressViewSet_get_object (db : DB) (user : User.t) (pk : Z)
  : result StudentProgress.t :=
  match find (fun p => StudentProgress.id p =? pk)
             (StudentProgressViewSet_get_queryset db user) with
  | None => Err NotFound
  | Some obj =>
      if Permissions.IsOwnerOrAdmin db user (Permissions.ProgressObj obj)
      then Ok obj else Err Forbidden
  end.

(** [get_object] of [CourseContentViewSet]: [queryset.get(pk=pk)] on the
    queryset of the user, which for a user who is no admin holds a row
    once per approved enrollment; more than one row is
    [MultipleObjectsReturned].  The view set has no object permission. *)
Definition CourseContentViewSet_get_object (db : DB) (user : User.t) (pk : Z)
  : result CourseContent.t :=
  match filter (fun x => CourseContent.id x =? pk)
               (CourseContentViewSet_get_queryset db user) with
  | [] => Err NotFound
  | [obj] => Ok obj
  | _ => Err ServerError
  end.

(** The generic update of a content item, open to every user who gets the
    item from the queryset. *)
Definition CourseContentViewSet_update (partial : bool) (db : DB)
           (user : User.t) (pk : Z) (data : CourseContentViewSet.ContentData)
  : result (DB * CourseContent.t) :=
  do instance <- CourseContentViewSet_get_object db user pk;
  if negb (field_ok (CourseContentViewSet.d_course data) true partial
                    (course_exists db)
           && opt_ok (fun n => 0 <=? n) (CourseContentViewSet.d_order data))
  then Err ValidationError
  else
    let row :=
      CourseContent.mk
        (CourseContent.id instance)
        (or_default (CourseContentViewSet.d_course data)
                    (CourseContent.course instance))
        (or_default (CourseContentViewSet.d_order data)
                    (CourseContent.order instance))
        (or_default (CourseContentViewSet.d_is_active data)
                    (CourseContent.is_active instance)) in
    Ok (save_content db row, row).

Definition CourseContentViewSet_destroy (db : DB) (user : User.t) (pk : Z)
  : result DB :=
  do instance <- CourseContentViewSet_get_object db user pk;
  Ok (delete_contents db
        (fun x => CourseContent.id x =? CourseContent.id instance)).

(** [get_object] of [CourseViewSet] for a request of method [m]:
    [IsAdminOrReadOnly] first, then the lookup among all courses. *)
Definition CourseViewSet_get_object (m : Permissions.method) (db : DB)
           (user : User.t) (pk : Z) : result Course.t :=
  if negb (Permissions.IsAdminOrReadOnly m (Some user)) then Err Forbidden
  else
    match find (fun c => Course.id c =? pk) (courses db) with
    | None => Err NotFound
    | Some obj => Ok obj
    end.

(** The generic update of a course; the instructor, when sent, is a user
    with role [admin]. *)
Definition CourseViewSet_update (partial : bool) (db : DB) (user : User.t)
           (pk : Z) (data : CourseViewSet.CourseData)
  : result (DB * Course.t) :=
  do instance <- CourseViewSet_get_object
                   (if partial then Permissions.PATCH else Permissions.PUT)
                   db user pk;
  if negb (field_ok (CourseViewSet.d_instructor data) true partial
             (fun i => existsb (fun u => (User.id u =? i)
                                         && String.eqb (User.role u) "admin")
                               (users db)))
  then Err ValidationError
  else
    let row :=
      Course.mk (Course.id instance)
                (or_default (CourseViewSet.d_instructor data)
                            (Course.instructor instance))
                (or_default (CourseViewSet.d_is_active data)
                            (Course.is_active instance)) in
    Ok (save_course db row, row).

Definition CourseViewSet_destroy (db : DB) (user : User.t) (pk : Z)
  : result DB :=
  do instance <- CourseViewSet_get_object Permissions.DELETE db user pk;
  Ok (delete_courses db (fun c => Course.id c =? Course.id instance)).

(** The generic update of a progress row: the fields of
    [StudentProgressSerializer] are validated as on a creation, and the
    uniqueness validator leaves the row itself out.  The view's own
    checks of [create] are not repeated here. *)
Definition StudentProgressViewSet_update (partial : bool) (db : DB)
           (user : User.t) (pk : Z)
           (data : StudentProgressViewSet.ProgressData)
  : result (DB * StudentProgress.t) :=
  do instance <- StudentProgressViewSet_get_object db user pk;
  if negb (field_ok (StudentProgressViewSet.d_enrollment data) true partial
             (fun k => existsb (fun r => Enrollment.id r =? k)
                               (enrollments db))
           && field_ok (StudentProgressViewSet.d_content data) true partial
                (StudentProgressViewSet.content_exists db)
           && opt_ok valid_percent (StudentProgressViewSet.d_score data))
  then Err ValidationError
  else
    let e := or_default (StudentProgressViewSet.d_enrollment data)
                        (StudentProgress.enrollment instance) in
    let c := or_default (StudentProgressViewSet.d_content data)
                        (StudentProgress.content instance) in
    if existsb (fun p => (StudentProgress.enrollment p =? e)
                         && (StudentProgress.content p =? c)
                         && negb (StudentProgress.id p
                                  =? StudentProgress.id instance))
               (progress db)
    then Err Conflict
    else
      let row :=
        StudentProgress.mk
          (StudentProgress.id instance) e c
          (or_default (StudentProgressViewSet.d_is_completed data)
                      (StudentProgress.is_completed instance))
          (match StudentProgressViewSet.d_score data with
           | Some x => Some x
           | None => StudentProgress.score instance
           end) in
      Ok (save_progress db row, row).

Definition StudentProgressViewSet_destroy (db : DB) (user : User.t) (pk : Z)
  : result DB :=
  do instance <- StudentProgressViewSet_get_object db user pk;
  Ok (delete_progress db
        (fun p => StudentProgress.id p =? StudentProgress.id instance)).

(** ** The API as a transition system *)

(** What the deployment configures: the registration secret of
    [settings.py], and Django's [EmailValidator] and [normalize_email]. *)
Record Config := mkConfig {
  admin_secret : string;
  email_valid : string -> bool;
  email_normal : string -> string
}.

(** The state-changing requests that [urls.py] routes: the registration,
    and creation, update and deletion of the five view sets with the
    extra actions of the enrollments. *)
Inductive request :=
| Register (data : AuthViewSet.RegistrationData)
| UserCreate (profile_ok : bool)
| UserUpdate (partial : bool) (pk : Z) (profile_ok : bool)
| UserDestroy (pk : Z)
| CourseCreate (data : CourseViewSet.CourseData)
| CourseUpdate (partial : bool) (pk : Z) (data : CourseViewSet.CourseData)
| CourseDestroy (pk : Z)
| ContentCreate (data : CourseContentViewSet.ContentData)
| ContentUpdate (partial : bool) (pk : Z)
                (data : CourseContentViewSet.ContentData)
| ContentDestroy (pk : Z)
| EnrollmentCreate (data : EnrollmentData)
| EnrollmentUpdate (partial : bool) (pk : Z) (data : EnrollmentData)
| EnrollmentDestroy (pk : Z)
| EnrollmentUpdateProgress (pk : Z) (data : EnrollmentViewSet.ProgressData)
| EnrollmentApprove (pk : Z)
| EnrollmentReject (pk : Z)
| ProgressCreate (data : StudentProgressViewSet.ProgressData)
| ProgressUpdate (partial : bool) (pk : Z)
                 (data : StudentProgressViewSet.ProgressData)
| ProgressDestroy (pk : Z).

(** The store after a request of an authenticated user (the
    registration is served by [handle], whoever sends it). *)
Definition serve (db : DB) (user : User.t) (req : request) : DB :=
  match req with
  | Register _ => db
  | UserCreate ok => new_state db (UserViewSet.create db (Some user) ok)
  | UserUpdate partial pk ok =>
      new_state db (UserViewSet.update partial db (Some user) pk ok)
  | UserDestroy pk => after_delete db (UserViewSet.destroy db (Some user) pk)
  | CourseCreate data => new_state db (CourseViewSet.create db user data)
  | CourseUpdate partial pk data =>
      new_state db (CourseViewSet_update partial db user pk data)
  | CourseDestroy pk => after_delete db (CourseViewSet_destroy db user pk)
  | ContentCreate data =>
      new_state db (CourseContentViewSet.create db user data)
  | ContentUpdate partial pk data =>
      new_state db (CourseContentViewSet_update partial db user pk data)
  | ContentDestroy pk =>
      after_delete db (CourseContentViewSet_destroy db user pk)
  | EnrollmentCreate data =>
      new_state db (EnrollmentViewSet.create db user data)
  | EnrollmentUpdate partial pk data =>
      new_state db (EnrollmentViewSet.update partial db user pk data)
  | EnrollmentDestroy pk =>
      after_delete db (EnrollmentViewSet.destroy db user pk)
  | EnrollmentUpdateProgress pk data =>
      new_state db (EnrollmentViewSet.update_progress db user pk data)
  | EnrollmentApprove pk => new_state db (EnrollmentViewSet.approve db user pk)
  | EnrollmentReject pk => new_state db (EnrollmentViewSet.reject db user pk)
  | ProgressCreate data =>
      new_state db (StudentProgressViewSet.create db user data)
  | ProgressUpdate partial pk data =>
      new_state db (StudentProgressViewSet_update partial db user pk data)
  | ProgressDestroy pk =>
      after_delete db (StudentProgressViewSet_destroy db user pk)
  end.

(** The store after a request sent with the token of user [uid].  The
    registration is open to everybody ([AllowAny]); every other request of
    a caller whom the token does not name is turned away (the view sets
    that do not demand authentication fail on the anonymous user before
    they write).  A failed request leaves the store as it was. *)
Definition handle (cfg : Config) (db : DB) (uid : Z) (req : request) : DB :=
  match req with
  | Register data =>
      new_state db (AuthViewSet.register (admin_secret cfg) (email_valid cfg)
                                         (email_normal cfg) db data)
  | _ =>
      match authenticate db uid with
      | None => db
      | Some user => serve db user req
      end
  end.

Fixpoint run (cfg : Config) (db : DB) (reqs : list (Z * request)) : DB :=
  match reqs with
  | [] => db
  | (uid, req) :: rest => run cfg (handle cfg db uid req) rest
  end.

(** A store is reachable when, under some configuration, a run of
    requests leads to it from a store that holds user accounts and
    nothing else. *)
Definition reachable (db : DB) : Prop :=
  exists cfg accounts reqs, db = run cfg (mkDB accounts [] [] [] []) reqs.

(** ** Vocabulary of the statements and sample data *)

(** The default of [settings.py] for the secret, and a configuration with
    it that takes every email as it comes. *)
Definition default_secret : string := "my-admin-secret-12345".

Definition default_config : Config :=
  mkConfig default_secret (fun _ => true) (fun e => e).

Definition alice : User.t := User.mk 1 "alice@example.org" "admin".
Definition bob : User.t := User.mk 2 "bob@example.org" "student".
Definition carol : User.t := User.mk 3 "carol@example.org" "student".
Definition dave : User.t := User.mk 4 "dave@example.org" "admin".

Definition accounts : list User.t := [alice; bob; carol; dave].

(** Bob's enrollment in Alice's course 1, in a given status. *)
Definition bobs_enrollment (status : string) : Enrollment.t :=
  Enrollment.mk 1 2 1 status 0%float None.

(** One course taught by Alice with one active content item, and Bob's
    enrollment in it. *)
Definition campus (status : string) : DB :=
  mkDB accounts
       [Course.mk 1 1 true]
       [bobs_enrollment status]
       [CourseContent.mk 1 1 0 true]
       [].

Definition first_record : StudentProgressViewSet.ProgressData :=
  StudentProgressViewSet.mkProgressData (Some 1) (Some 1) (Some true) None.

(** The caller may name [student] in the payload: it is the caller, or the
    caller is an admin. *)
Definition may_enroll (user : User.t) (student : Z) : bool :=
  (student =? User.id user) || is_admin user.

(** The same for the key as it stands in the payload: the caller is an
    admin, or names the own key and sends it as a number. *)
Definition may_name (user : User.t) (k : key_value) : bool :=
  negb (differs k (User.id user)) || is_admin user.

(** An enrollment of the pair is on file. *)
Definition enrolled (db : DB) (student course : Z) : bool :=
  existsb (fun e => (Enrollment.student e =? student)
                    && (Enrollment.course e =? course))
          (enrollments db).

Definition pending_row (db : DB) (s c : Z) : Enrollment.t :=
  Enrollment.mk (next_pk (map Enrollment.id (enrollments db))) s c
                "pending" 0%float None.

(** The campus before anybody has enrolled. *)
Definition open_campus : DB :=
  mkDB accounts [Course.mk 1 1 true] [] [CourseContent.mk 1 1 0 true] [].

(** The student whose enrollment [course_progress] resolves. *)
Definition resolved_student (user : User.t) (student_id : option Z) : Z :=
  match student_id with
  | Some s => if is_admin user then s else User.id user
  | None => User.id user
  end.

(** The words of the spec for the course progress, to be compared with
    what the view computes: [totalActiveContents] counts, one by one, the
    content items of the course that are active; [completedContents] the
    records of the enrollment that are marked completed; and the
    percentage is [completed / total * 100] on doubles, the integer 0 when
    the total is zero. *)
Fixpoint count_if {A : Type} (p : A -> bool) (rows : list A) : nat :=
  match rows with
  | [] => O
  | r :: rest => if p r then S (count_if p rest) else count_if p rest
  end.

Definition totalActiveContents (db : DB) (course_id : Z) : nat :=
  count_if (fun x => (CourseContent.course x =? course_id)
                     && CourseContent.is_active x)
           (contents db).

Definition completedContents (db : DB) (e : Enrollment.t) : nat :=
  count_if (fun p => (StudentProgress.enrollment p =? Enrollment.id e)
                     && StudentProgress.is_completed p)
           (progress db).

Definition spec_percentage (completed total : nat) : number :=
  match total with
  | O => NInt 0
  | S _ =>
      NFloat (PrimFloat.mul
                (PrimFloat.div
                   (PrimFloat.of_uint63 (Uint63.of_Z (Z.of_nat completed)))
                   (PrimFloat.of_uint63 (Uint63.of_Z (Z.of_nat total))))
                100%float)
  end.

(** The progress rows of an enrollment and those of them that are marked
    completed, whatever content item they point to. *)
Definition records_of (db : DB) (e : Enrollment.t) : list StudentProgress.t :=
  filter (fun p => StudentProgress.enrollment p =? Enrollment.id e) (progress db).

Definition completed_of (db : DB) (e : Enrollment.t) : nat :=
  List.length (filter StudentProgress.is_completed (records_of db e)).

(** A run that leads from the bare accounts to a store in which Bob, whose
    course 1 has a single active content item, has completed three items:
    that one, an inactive item of the course and an item of course 2. *)
Definition overshoot_run : list (Z * request) :=
  let record c :=
    ProgressCreate (StudentProgressViewSet.mkProgressData
                      (Some 1) (Some c) (Some true) None) in
  [ (1, CourseCreate (CourseViewSet.mkCourseData (Some 1) None));
    (1, CourseCreate (CourseViewSet.mkCourseData (Some 1) None));
    (1, ContentCreate (CourseContentViewSet.mkContentData (Some 1) None None));
    (1, ContentCreate (CourseContentViewSet.mkContentData (Some 1) (Some 1)
                                                          (Some false)));
    (1, ContentCreate (CourseContentViewSet.mkContentData (Some 2) None None));
    (2, EnrollmentCreate (mkEnrollmentData (Some (NumberKey 2)) (Some 1)
                                           None None None));
    (1, EnrollmentApprove 1);
    (2, record 1); (2, record 2); (2, record 3) ].

Definition overshoot_db : DB :=
  run default_config (mkDB accounts [] [] [] []) overshoot_run.

(** Two courses; the only item of course 2 is inactive. *)
Definition two_courses : DB :=
  mkDB accounts
       [Course.mk 1 1 true; Course.mk 2 1 true]
       [bobs_enrollment "approved"]
       [CourseContent.mk 1 1 0 true; CourseContent.mk 2 2 0 false]
       [].

(** What [update_progress] does with one submitted value. *)
Definition rejected (v : option float_result) : bool :=
  match v with
  | Some (Float x) => out_of_range x
  | Some (Raise ValueError) | Some (Raise TypeError) => true
  | Some (Raise OverflowError) | None => false
  end.

Definition overflows (v : option float_result) : bool :=
  match v with
  | Some (Raise OverflowError) => true
  | _ => false
  end.

Definition accepted (v : option float_result) : option float :=
  match v with
  | Some (Float x) => Some x
  | _ => None
  end.

(** The user is the instructor of the course of the enrollment. *)
Definition taught_by (db : DB) (user : User.t) (e : Enrollment.t) : Prop :=
  exists c, In c (courses db)
            /\ Course.id c = Enrollment.course e
            /\ Course.instructor c = User.id user.

(** The requests whose payload goes through [EnrollmentSerializer] and
    names the status [completed]. *)
Definition names_completed (req : request) : bool :=
  match req with
  | EnrollmentCreate data | EnrollmentUpdate _ _ data =>
      match d_status data with
      | Some s => String.eqb s "completed"
      | None => false
      end
  | _ => false
  end.

(** No row with key [pk] is in status [completed]. *)
Definition not_completed (pk : Z) (db : DB) : Prop :=
  forall e, In e (enrollments db) -> Enrollment.id e = pk ->
            Enrollment.status e <> "completed".

(** Approve, a progress update to 100, a PATCH by the student that names
    the status [approved], and a rejection of enrollment 1. *)
Definition lifecycle_run : list (Z * request) :=
  [ (1, EnrollmentApprove 1);
    (2, EnrollmentUpdateProgress 1
          (EnrollmentViewSet.mkProgressData (Some (Float 100%float)) None));
    (2, EnrollmentUpdate true 1
          (mkEnrollmentData None None (Some "approved") None None));
    (1, EnrollmentReject 1) ].

(** A registration that sends the default secret. *)
Definition admin_signup : AuthViewSet.RegistrationData :=
  AuthViewSet.mkRegistrationData (Some "erin@example.org") (Some "correct horse")
                                 (Some default_secret) true.




(** After the run that leads to [overshoot_db]: Erin registers, Alice
    marks Bob's first progress row as not completed, deletes the second
    content item and then Carol's account. *)
Definition cascade_run : list (Z * request) :=
  (overshoot_run
   ++ [ (0, Register admin_signup);
        (1, ProgressUpdate true 1
              (StudentProgressViewSet.mkProgressData None None (Some false)
                                                     None));
        (1, ContentDestroy 2);
        (1, UserDestroy 3) ])%list.

Definition cascade_db : DB :=
  run default_config (mkDB accounts [] [] [] []) cascade_run.

(** The rows come by ascending [order]. *)
Fixpoint ascending (rows : list CourseContent.t) : Prop :=
  match rows with
  | [] => True
  | x :: rest =>
      (forall y, In y rest -> CourseContent.order x <= CourseContent.order y)
      /\ ascending rest
  end.

(** The primary keys of the enrollments are pairwise distinct. *)
Definition unique_keys (db : DB) : Prop :=
  NoDup (map Enrollment.id (enrollments db)).

(** The key pairs that [unique_together] speaks of. *)
Definition pair_of (e : Enrollment.t) : Z * Z :=
  (Enrollment.student e, Enrollment.course e).

Definition record_of (p : StudentProgress.t) : Z * Z :=
  (StudentProgress.enrollment p, StudentProgress.content p).

(** At most one enrollment per (student, course) and one progress row per
    (enrollment, content). *)
Definition unique_pairs (db : DB) : Prop :=
  NoDup (map pair_of (enrollments db)).

Definition unique_records (db : DB) : Prop :=
  NoDup (map record_of (progress db)).

(** Every foreign key points to a row: the instructor of a course to an
    admin account, a content item to a course, an enrollment to a student
    account and a course, a progress row to an enrollment and a content
    item. *)
Definition references_resolve (db : DB) : Prop :=
  (forall c, In c (courses db) ->
             existsb (fun u => (User.id u =? Course.instructor c)
                               && String.eqb (User.role u) "admin")
                     (users db) = true)
  /\ (forall x, In x (contents db) ->
                course_exists db (CourseContent.course x) = true)
  /\ (forall e, In e (enrollments db) ->
                student_exists db (Enrollment.student e) = true
                /\ course_exists db (Enrollment.course e) = true)
  /\ (forall p, In p (progress db) ->
                In (StudentProgress.enrollment p)
                   (map Enrollment.id (enrollments db))
                /\ StudentProgressViewSet.content_exists db
                     (StudentProgress.content p) = true).

(** The writes that the requests are made of.  A row is appended under a
    new key, written over the row of its key, or dropped, and a row is
    dropped only when no row is left that points to it. *)
Inductive step (db : DB) : DB -> Prop :=
| step_stay : step db db
| step_course (row : Course.t) :
    Course.id row = next_pk (map Course.id (courses db)) ->
    existsb (fun u => (User.id u =? Course.instructor row)
                      && String.eqb (User.role u) "admin")
            (users db) = true ->
    step db (set_courses db (courses db ++ [row]))
| step_content (row : CourseContent.t) :
    CourseContent.id row = next_pk (map CourseContent.id (contents db)) ->
    course_exists db (CourseContent.course row) = true ->
    step db (set_contents db (contents db ++ [row]))
| step_enroll (row : Enrollment.t) :
    Enrollment.id row = next_pk (map Enrollment.id (enrollments db)) ->
    student_exists db (Enrollment.student row) = true ->
    course_exists db (Enrollment.course row) = true ->
    enrolled db (Enrollment.student row) (Enrollment.course row) = false ->
    step db (set_enrollments db (enrollments db ++ [row]))
| step_write (instance row : Enrollment.t) :
    In instance (enrollments db) ->
    Enrollment.id row = Enrollment.id instance ->
    pair_of row = pair_of instance ->
    step db (save_enrollment db row)
| step_move (instance row : Enrollment.t) :
    In instance (enrollments db) ->
    Enrollment.id row = Enrollment.id instance ->
    (student_exists db (Enrollment.student row) = true
     \/ Enrollment.student row = Enrollment.student instance) ->
    (course_exists db (Enrollment.course row) = true
     \/ Enrollment.course row = Enrollment.course instance) ->
    pair_taken db (Some instance) (Enrollment.student row)
               (Enrollment.course row) = false ->
    step db (save_enrollment db row)
| step_destroy (instance : Enrollment.t) :
    In instance (enrollments db) ->
    step db (mkDB (users db) (courses db)
                  (filter (fun e => negb (Enrollment.id e =? Enrollment.id instance))
                          (enrollments db))
                  (contents db)
                  (filter (fun p => negb (StudentProgress.enrollment p
                                          =? Enrollment.id instance))
                          (progress db)))
| step_record (row : StudentProgress.t) :
    StudentProgress.id row = next_pk (map StudentProgress.id (progress db)) ->
    In (StudentProgress.enrollment row) (map Enrollment.id (enrollments db)) ->
    StudentProgressViewSet.content_exists db (StudentProgress.content row) = true ->
    ~ In (record_of row) (map record_of (progress db)) ->
    step db (set_progress db (progress db ++ [row]))
| step_account (row : User.t) :
    step db (set_users db (users db ++ [row]))
| step_course_write (instance row : Course.t) :
    In instance (courses db) ->
    Course.id row = Course.id instance ->
    (existsb (fun u => (User.id u =? Course.instructor row)
                       && String.eqb (User.role u) "admin")
             (users db) = true
     \/ Course.instructor row = Course.instructor instance) ->
    step db (save_course db row)
| step_content_write (instance row : CourseContent.t) :
    In instance (contents db) ->
    CourseContent.id row = CourseContent.id instance ->
    (course_exists db (CourseContent.course row) = true
     \/ CourseContent.course row = CourseContent.course instance) ->
    step db (save_content db row)
| step_record_write (instance row : StudentProgress.t) :
    In instance (progress db) ->
    StudentProgress.id row = StudentProgress.id instance ->
    (In (StudentProgress.enrollment row) (map Enrollment.id (enrollments db))
     \/ StudentProgress.enrollment row = StudentProgress.enrollment instance) ->
    (StudentProgressViewSet.content_exists db (StudentProgress.content row)
     = true
     \/ StudentProgress.content row = StudentProgress.content instance) ->
    (forall p, In p (progress db) ->
               StudentProgress.id p <> StudentProgress.id row ->
               record_of p <> record_of row) ->
    step db (save_progress db row)
| step_drop_progress (keep : StudentProgress.t -> bool) :
    step db (set_progress db (filter keep (progress db)))
| step_drop_contents (keep : CourseContent.t -> bool) :
    (forall p x, In p (progress db) -> In x (contents db) ->
                 CourseContent.id x = StudentProgress.content p ->
                 keep x = true) ->
    step db (set_contents db (filter keep (contents db)))
| step_drop_enrollments (keep : Enrollment.t -> bool) :
    (forall p e, In p (progress db) -> In e (enrollments db) ->
                 Enrollment.id e = StudentProgress.enrollment p ->
                 keep e = true) ->
    step db (set_enrollments db (filter keep (enrollments db)))
| step_drop_courses (keep : Course.t -> bool) :
    (forall x c, In x (contents db) -> In c (courses db) ->
                 Course.id c = CourseContent.course x -> keep c = true) ->
    (forall e c, In e (enrollments db) -> In c (courses db) ->
                 Course.id c = Enrollment.course e -> keep c = true) ->
    step db (set_courses db (filter keep (courses db)))
| step_drop_users (keep : User.t -> bool) :
    (forall c u, In c (courses db) -> In u (users db) ->
                 User.id u = Course.instructor c -> keep u = true) ->
    (forall e u, In e (enrollments db) -> In u (users db) ->
                 User.id u = Enrollment.student e -> keep u = true) ->
    step db (set_users db (filter keep (users db))).

(** A request is a few such writes in a row: a deletion takes the rows
    that point to the deleted ones first. *)
Inductive steps (db : DB) : DB -> Prop :=
| steps_done : steps db db
| steps_then (db1 db2 : DB) : step db db1 -> steps db1 db2 -> steps db db2.

(** The campus with one completed progress row of Bob's enrollment. *)
Definition campus_with_record (status : string) : DB :=
  set_progress (campus status) [StudentProgress.mk 1 1 1 true None].

(** The keys of the progress rows are pairwise distinct. *)
Definition unique_record_keys (db : DB) : Prop :=
  NoDup (map StudentProgress.id (progress db)).

(** The invariants of the store together. *)
Definition consistent (db : DB) : Prop :=
  unique_keys db /\ unique_pairs db /\ unique_records db
  /\ unique_record_keys db /\ references_resolve db.

(** * Properties *)

(** ** Lists, keys and strings *)

Lemma find_id_some (db : DB) (k : Z) (e : Enrollment.t) :
  find (fun r => Enrollment.id r =? k) (enrollments db) = Some e ->
  In e (enrollments db) /\ Enrollment.id e = k.
Proof.
  intros H. apply find_some in H. destruct H as [Hin Hk].
  split; [assumption | now apply Z.eqb_eq].
Qed.

Lemma existsb_app_last {A : Type} (p : A -> bool) (l : list A) (a : A) :
  p a = true -> existsb p (l ++ [a]) = true.
Proof.
  intros H. rewrite existsb_app. simpl. rewrite H.
  now rewrite orb_true_r.
Qed.

Lemma existsb_pointwise {A : Type} (p q : A -> bool) (l : list A) :
  (forall a, p a = q a) -> existsb p l = existsb q l.
Proof.
  intros H. induction l as [|a l IH]; [reflexivity|].
  cbn. now rewrite H, IH.
Qed.

Lemma next_pk_fresh (pks : list Z) (k : Z) : In k pks -> k < next_pk pks.
Proof.
  unfold next_pk. induction pks as [|a l IH]; [contradiction|].
  cbn [fold_right]. intros [->|Hk].
  - lia.
  - specialize (IH Hk). lia.
Qed.

Lemma string_neqb (a b : string) : a <> b -> String.eqb a b = false.
Proof. intros H. now apply String.eqb_neq. Qed.

Section RecordProgress.
Import StudentProgressViewSet.

Variables (db : DB) (user : User.t) (data : ProgressData).

Lemma create_not_found :
  get_enrollment db (d_enrollment data) = None ->
  create db user data = Err NotFound.
Proof. unfold create. now intros ->. Qed.

Lemma create_forbidden (e : Enrollment.t) :
  get_enrollment db (d_enrollment data) = Some e ->
  Enrollment.status e <> "approved" ->
  create db user data = Err Forbidden.
Proof.
  unfold create. intros -> Hs.
  now rewrite (string_neqb _ _ Hs).
Qed.

Lemma create_conflict (e : Enrollment.t) :
  get_enrollment db (d_enrollment data) = Some e ->
  Enrollment.status e = "approved" ->
  progress_exists db (Enrollment.id e) (d_content data) = true ->
  create db user data = Err Conflict.
Proof.
  unfold create. intros -> Hs Hp.
  rewrite Hs, Hp. reflexivity.
Qed.

Lemma create_invalid (e : Enrollment.t) :
  get_enrollment db (d_enrollment data) = Some e ->
  Enrollment.status e = "approved" ->
  progress_exists db (Enrollment.id e) (d_content data) = false ->
  match d_content data with
  | Some c => content_exists db c && opt_ok valid_percent (d_score data)
  | None => false
  end = false ->
  create db user data = Err ValidationError.
Proof.
  unfold create, super_create, is_valid. intros Hg Hs Hp Hv.
  rewrite Hg, Hs, Hp. cbn.
  destruct (d_enrollment data) as [k|]; [|discriminate].
  destruct (d_content data) as [c|]; [|reflexivity].
  apply andb_false_iff in Hv.
  destruct Hv as [Hv|Hv]; rewrite Hv;
    rewrite ?andb_false_r; reflexivity.
Qed.

Lemma create_created (e : Enrollment.t) (c : Z) :
  get_enrollment db (d_enrollment data) = Some e ->
  Enrollment.status e = "approved" ->
  d_content data = Some c ->
  progress_exists db (Enrollment.id e) (Some c) = false ->
  content_exists db c = true ->
  opt_ok valid_percent (d_score data) = true ->
  let row := StudentProgress.mk
               (next_pk (map StudentProgress.id (progress db)))
               (Enrollment.id e) c
               (or_default (d_is_completed data) false) (d_score data) in
  create db user data = Ok (set_progress db (progress db ++ [row]), row).
Proof.
  intros Hg Hs Hc Hp Hx Hv.
  destruct (d_enrollment data) as [k|] eqn:Hk; [|discriminate].
  cbn in Hg. destruct (find_id_some _ _ _ Hg) as [Hin Hid].
  assert (He : existsb (fun r => Enrollment.id r =? k) (enrollments db) = true).
  { apply existsb_exists. exists e. split; [assumption|].
    now apply Z.eqb_eq. }
  unfold create, super_create, is_valid.
  rewrite Hk, Hc. cbn [get_enrollment]. rewrite Hg, Hs, Hp.
  rewrite <- Hid in *. rewrite He, Hx, Hv, Hp. reflexivity.
Qed.

End RecordProgress.

(** ** Recording progress (C1) *)

Lemma create_twice (db : DB) (e : Enrollment.t) (c : Z)
      (row : StudentProgress.t) (user : User.t)
      (data : StudentProgressViewSet.ProgressData) :
  get_enrollment db (StudentProgressViewSet.d_enrollment data) = Some e ->
  Enrollment.status e = "approved" ->
  StudentProgressViewSet.d_content data = Some c ->
  StudentProgress.enrollment row = Enrollment.id e ->
  StudentProgress.content row = c ->
  StudentProgressViewSet.create (set_progress db (progress db ++ [row])) user data
  = Err Conflict.
Proof.
  intros Hg Hs Hc He Hr.
  apply create_conflict with (e := e); try assumption.
  rewrite Hc. cbn. apply existsb_app_last.
  rewrite He, Hr, !Z.eqb_refl. reflexivity.
Qed.

Lemma create_blocked (db : DB) (user : User.t)
      (data : StudentProgressViewSet.ProgressData) (k c : Z) :
  StudentProgressViewSet.d_enrollment data = Some k ->
  StudentProgressViewSet.d_content data = Some c ->
  StudentProgressViewSet.progress_exists db k (Some c) = true ->
  StudentProgressViewSet.create db user data = Err NotFound
  \/ StudentProgressViewSet.create db user data = Err Forbidden
  \/ StudentProgressViewSet.create db user data = Err Conflict.
Proof.
  intros Hk Hc Hp. unfold StudentProgressViewSet.create.
  rewrite Hk, Hc. cbn [get_enrollment].
  destruct (find _ _) as [e|] eqn:Hf; [|now left].
  destruct (find_id_some _ _ _ Hf) as [_ ->].
  destruct (negb _); [now right; left|].
  rewrite Hp. now right; right.
Qed.

(** C1 (as amended): recording progress fails with [NotFound] when the
    enrollment does not exist, with [Forbidden] when its status is not
    [approved] (so always for a pending or rejected enrollment), with
    [Conflict] when a record for the (enrollment, content) pair exists;
    otherwise the payload goes through the serializer: when the content
    does not resolve or the score is not a number from 0 to 100 the
    request fails with [ValidationError], and when they are valid one
    record is appended that holds the pair, the completion mark of the
    payload ([False] when it has none) and its score, under a key that no
    record had, and nothing else in the store changes.  As long as a
    record of the pair is on file, in the store right after the creation
    as in any store that later requests lead to, no request for the pair
    creates a second one. *)
Theorem recordProgress_outcomes (db : DB) (user : User.t)
        (data : StudentProgressViewSet.ProgressData) :
  let create := StudentProgressViewSet.create in
  let enrollment := get_enrollment db (StudentProgressViewSet.d_enrollment data) in
  let content := StudentProgressViewSet.d_content data in
  (enrollment = None -> create db user data = Err NotFound)
  /\ (forall e, enrollment = Some e -> Enrollment.status e <> "approved" ->
        create db user data = Err Forbidden)
  /\ (forall e, enrollment = Some e ->
        Enrollment.status e = "pending" \/ Enrollment.status e = "rejected" ->
        create db user data = Err Forbidden)
  /\ (forall e, enrollment = Some e -> Enrollment.status e = "approved" ->
        StudentProgressViewSet.progress_exists db (Enrollment.id e) content = true ->
        create db user data = Err Conflict)
  /\ (forall e, enrollment = Some e -> Enrollment.status e = "approved" ->
        StudentProgressViewSet.progress_exists db (Enrollment.id e) content = false ->
        match content with
        | Some c => StudentProgressViewSet.content_exists db c
                    && opt_ok valid_percent (StudentProgressViewSet.d_score data)
        | None => false
        end = false ->
        create db user data = Err ValidationError)
  /\ (forall e c, enrollment = Some e -> Enrollment.status e = "approved" ->
        content = Some c ->
        StudentProgressViewSet.progress_exists db (Enrollment.id e) content = false ->
        StudentProgressViewSet.content_exists db c = true ->
        opt_ok valid_percent (StudentProgressViewSet.d_score data) = true ->
        exists row,
          create db user data
          = Ok (set_progress db (progress db ++ [row])%list, row)
          /\ ~ In (StudentProgress.id row) (map StudentProgress.id (progress db))
          /\ StudentProgress.enrollment row = Enrollment.id e
          /\ StudentProgress.content row = c
          /\ StudentProgress.is_completed row
             = or_default (StudentProgressViewSet.d_is_completed data) false
          /\ StudentProgress.score row = StudentProgressViewSet.d_score data
          /\ opt_ok (fun x => PrimFloat.leb 0 x && PrimFloat.leb x 100)
                    (StudentProgress.score row) = true
          /\ StudentProgressViewSet.progress_exists
               (set_progress db (progress db ++ [row])%list)
               (Enrollment.id e) (Some c) = true
          /\ forall user' data',
               StudentProgressViewSet.d_enrollment data'
               = StudentProgressViewSet.d_enrollment data ->
               StudentProgressViewSet.d_content data' = Some c ->
               create (set_progress db (progress db ++ [row])%list) user' data'
               = Err Conflict)
  /\ (forall k c,
        StudentProgressViewSet.d_enrollment data = Some k ->
        content = Some c ->
        StudentProgressViewSet.progress_exists db k (Some c) = true ->
        create db user data = Err NotFound
        \/ create db user data = Err Forbidden
        \/ create db user data = Err Conflict)
  /\ (forall cfg reqs k c,
        StudentProgressViewSet.d_enrollment data = Some k ->
        content = Some c ->
        StudentProgressViewSet.progress_exists (run cfg db reqs) k (Some c)
        = true ->
        create (run cfg db reqs) user data = Err NotFound
        \/ create (run cfg db reqs) user data = Err Forbidden
        \/ create (run cfg db reqs) user data = Err Conflict).
Proof.
  cbv zeta. split; [|split; [|split; [|split; [|split; [|split; [|split]]]]]].
  - apply create_not_found.
  - apply create_forbidden.
  - intros e Hg [Hs|Hs]; apply create_forbidden with (e := e);
      try assumption; rewrite Hs; discriminate.
  - apply create_conflict.
  - apply create_invalid.
  - intros e c Hg Hs Hc Hp Hx Hv. rewrite Hc in Hp.
    eexists. split.
    + apply create_created with (e := e) (c := c); assumption.
    + cbn [StudentProgress.id StudentProgress.enrollment StudentProgress.content
           StudentProgress.is_completed StudentProgress.score].
      split; [|repeat split].
      * intros Hin. apply next_pk_fresh in Hin. lia.
      * exact Hv.
      * cbn. apply existsb_app_last. now rewrite !Z.eqb_refl.
      * intros user' data' He' Hc'.
        apply create_twice with (e := e) (c := c); try assumption;
          try reflexivity.
        now rewrite He'.
  - intros k c. apply create_blocked.
  - intros cfg reqs k c. apply create_blocked.
Qed.

Lemma recordProgress_outcomes_witness :
  exists row,
    StudentProgressViewSet.create (campus "approved") bob first_record
    = Ok (set_progress (campus "approved")
                       (progress (campus "approved") ++ [row])%list, row)
    /\ StudentProgress.enrollment row = 1
    /\ StudentProgress.content row = 1
    /\ StudentProgress.is_completed row = true.
Proof.
  destruct (recordProgress_outcomes (campus "approved") bob first_record)
    as (_ & _ & _ & _ & _ & H & _).
  destruct (H (bobs_enrollment "approved") 1) as (row & Hr & _ & He & Hc & Hd & _);
    try reflexivity.
  exists row. auto.
Defined.

(** C1 as stated fails: an approved enrollment without a record for the
    pair does not guarantee creation; a content key that resolves to no
    content item is turned down by the serializer. *)
Lemma recordProgress_unknown_content :
  ~ (forall db user data e,
       get_enrollment db (StudentProgressViewSet.d_enrollment data) = Some e ->
       Enrollment.status e = "approved" ->
       StudentProgressViewSet.progress_exists db (Enrollment.id e)
         (StudentProgressViewSet.d_content data) = false ->
       exists r, StudentProgressViewSet.create db user data = Ok r).
Proof.
  intros H.
  destruct (H (campus "approved") bob
              (StudentProgressViewSet.mkProgressData (Some 1) (Some 9) None None)
              (bobs_enrollment "approved")
              eq_refl eq_refl eq_refl) as [r Hr].
  discriminate Hr.
Qed.

(** ** Requesting an enrollment (C2) *)

Lemma pair_taken_create (db : DB) (s c : Z) :
  pair_taken db None s c = enrolled db s c.
Proof.
  unfold pair_taken, enrolled. apply existsb_pointwise.
  intros e. now rewrite andb_true_r.
Qed.

(** [requestEnrollment] by cases on its four tests. *)
Lemma requestEnrollment_eq (db : DB) (user : User.t) (s c : Z) :
  requestEnrollment db user s c =
  if negb (may_enroll user s) then Err Forbidden
  else if negb (student_exists db s && course_exists db c)
       then Err ValidationError
  else if enrolled db s c then Err Conflict
  else Ok (set_enrollments db (enrollments db ++ [pending_row db s c]),
           pending_row db s c).
Proof.
  unfold requestEnrollment, EnrollmentViewSet.create, may_enroll, is_valid,
    fields_valid, field_ok.
  cbn [d_student d_course d_status d_completion_percentage d_grade opt_ok
       or_default option_map key_of differs].
  rewrite negb_orb, !andb_true_r, pair_taken_create.
  destruct (negb (s =? User.id user) && negb (is_admin user)); [reflexivity|].
  destruct (student_exists db s && course_exists db c); [|reflexivity].
  destruct (enrolled db s c) eqn:He; [reflexivity|].
  unfold bind, negb. cbn [Enrollment.student Enrollment.course].
  fold (enrolled db s c). rewrite He. reflexivity.
Qed.


Lemma requestEnrollment_ok (db db' : DB) (user : User.t) (s c : Z)
      (row : Enrollment.t) :
  requestEnrollment db user s c = Ok (db', row) ->
  may_enroll user s = true
  /\ student_exists db s = true /\ course_exists db c = true
  /\ enrolled db s c = false
  /\ row = pending_row db s c
  /\ db' = set_enrollments db (enrollments db ++ [row]).
Proof.
  rewrite requestEnrollment_eq.
  destruct (may_enroll user s); [|discriminate].
  destruct (student_exists db s); [|discriminate].
  destruct (course_exists db c); [|discriminate].
  destruct (enrolled db s c); [discriminate|]. cbn.
  intros H. inversion H. repeat split.
Qed.






(** ** Course progress (C3, C10) *)

Lemma filter_nil_existsb {A : Type} (p : A -> bool) (l : list A) :
  existsb p l = false -> filter p l = [].
Proof.
  induction l as [|a l IH]; [reflexivity|].
  cbn. destruct (p a); [discriminate|]. exact IH.
Qed.

Lemma filter_cons_existsb {A : Type} (p : A -> bool) (l : list A) :
  existsb p l = true ->
  exists a rest, filter p l = a :: rest /\ In a l /\ p a = true.
Proof.
  induction l as [|a l IH]; [discriminate|].
  cbn. destruct (p a) eqn:Hp.
  - intros _. exists a, (filter p l). auto.
  - intros H. destruct (IH H) as (b & rest & Hf & Hin & Hb).
    exists b, rest. auto.
Qed.

Lemma percentage_total (completed total : nat) :
  StudentProgressViewSet.percentage completed total =
  Ok (match total with
      | O => NInt 0
      | S _ => NFloat (PrimFloat.mul
                         (PrimFloat.div (float_of_nat completed)
                                        (float_of_nat total))
                         100%float)
      end).
Proof. destruct total; reflexivity. Qed.

Lemma count_if_length {A : Type} (p : A -> bool) (rows : list A) :
  List.length (filter p rows) = count_if p rows.
Proof.
  induction rows as [|r rows IH]; [reflexivity|].
  cbn. destruct (p r); cbn; now rewrite IH.
Qed.

Lemma filter_both {A : Type} (p q : A -> bool) (rows : list A) :
  filter q (filter p rows) = filter (fun r => p r && q r) rows.
Proof.
  induction rows as [|r rows IH]; [reflexivity|].
  cbn. destruct (p r); cbn; [destruct (q r)|]; now rewrite IH.
Qed.

(** What [course_progress] answers once an enrollment is resolved. *)
Lemma course_progress_answer (db : DB) (user : User.t) (course_id : Z)
      (student_id : option Z) (e : Enrollment.t) (rest : list Enrollment.t) :
  StudentProgressViewSet.resolve db user course_id student_id = e :: rest ->
  StudentProgressViewSet.course_progress db user (Some course_id) student_id
  = Ok (StudentProgressViewSet.mkCourseProgress
          (StudentProgressViewSet.mkOverall
             (totalActiveContents db course_id) (completedContents db e)
             (spec_percentage (completedContents db e)
                              (totalActiveContents db course_id)))
          (records_of db e)).
Proof.
  intros Hres. unfold StudentProgressViewSet.course_progress.
  rewrite Hres, percentage_total. cbn [bind].
  unfold StudentProgressViewSet.active_contents, totalActiveContents,
    completedContents, records_of, spec_percentage.
  now rewrite filter_both, !count_if_length.
Qed.

Lemma resolve_enrolled (db : DB) (user : User.t) (course_id : Z)
      (student_id : option Z) :
  (enrolled db (resolved_student user student_id) course_id = false ->
   StudentProgressViewSet.resolve db user course_id student_id = [])
  /\ (enrolled db (resolved_student user student_id) course_id = true ->
      exists e rest,
        StudentProgressViewSet.resolve db user course_id student_id = e :: rest
        /\ In e (enrollments db)
        /\ Enrollment.student e = resolved_student user student_id
        /\ Enrollment.course e = course_id).
Proof.
  assert (Hq : forall e,
             ((Enrollment.course e =? course_id)
              && (Enrollment.student e =? resolved_student user student_id))
             = ((Enrollment.student e =? resolved_student user student_id)
                && (Enrollment.course e =? course_id)))
    by (intros; apply andb_comm).
  unfold StudentProgressViewSet.resolve.
  fold (resolved_student user student_id). unfold enrolled.
  rewrite <- (existsb_pointwise _ _ (enrollments db) Hq). split.
  - apply filter_nil_existsb.
  - intros H. destruct (filter_cons_existsb _ _ H) as (e & rest & Hf & Hin & Hp).
    apply andb_prop in Hp. destruct Hp as [Hc Hs]. apply Z.eqb_eq in Hc, Hs.
    exists e, rest. auto.
Qed.

(** C3: for a course key and the student the call resolves, course
    progress fails with [NotFound] when that student has no enrollment in
    the course; otherwise it answers, for an enrollment of that student in
    the course, with [totalActiveContents], the number of content items of
    the course that are active, with the number of completed records of
    the enrollment, with the records themselves, and with
    [completed / total * 100] as the spec words it, which is the integer 0
    when the course has no active content; the call never ends in a server
    error, as a division by zero would.  On doubles, 1 of 4 is 25.0, 1 of
    3 is 33.33333333333333 and 3 of 1 is 300.0. *)
Theorem course_progress_spec (db : DB) (user : User.t) (course_id : Z)
        (student_id : option Z) :
  let call := StudentProgressViewSet.course_progress db user
                (Some course_id) student_id in
  let who := resolved_student user student_id in
  let total := totalActiveContents db course_id in
  (enrolled db who course_id = false -> call = Err NotFound)
  /\ (enrolled db who course_id = true ->
      exists e r,
        call = Ok r
        /\ In e (enrollments db)
        /\ Enrollment.student e = who /\ Enrollment.course e = course_id
        /\ (forall p, In p (StudentProgressViewSet.detailed_progress r) <->
                      In p (progress db)
                      /\ StudentProgress.enrollment p = Enrollment.id e)
        /\ StudentProgressViewSet.total_contents
             (StudentProgressViewSet.overall_progress r) = total
        /\ StudentProgressViewSet.completed_contents
             (StudentProgressViewSet.overall_progress r) = completedContents db e
        /\ StudentProgressViewSet.completion_percentage
             (StudentProgressViewSet.overall_progress r)
           = spec_percentage (completedContents db e) total)
  /\ (total = O ->
      forall r, call = Ok r ->
                StudentProgressViewSet.completion_percentage
                  (StudentProgressViewSet.overall_progress r) = NInt 0)
  /\ call <> Err ServerError
  /\ (StudentProgressViewSet.percentage 1 4 = Ok (NFloat 25%float)
      /\ StudentProgressViewSet.percentage 1 3
         = Ok (NFloat 0x1.0aaaaaaaaaaaap+5%float)
      /\ StudentProgressViewSet.percentage 3 1 = Ok (NFloat 300%float)
      /\ StudentProgressViewSet.percentage 0 5 = Ok (NFloat 0%float)
      /\ StudentProgressViewSet.percentage 4 0 = Ok (NInt 0)).
Proof.
  cbv zeta.
  destruct (resolve_enrolled db user course_id student_id) as [Hnone Hsome].
  split; [|split; [|split; [|split]]].
  - intros H. unfold StudentProgressViewSet.course_progress.
    now rewrite (Hnone H).
  - intros H. destruct (Hsome H) as (e & rest & Hres & Hin & Hs & Hc).
    rewrite (course_progress_answer _ _ _ _ _ _ Hres).
    exists e. eexists. split; [reflexivity|].
    cbn [StudentProgressViewSet.overall_progress
           StudentProgressViewSet.detailed_progress
           StudentProgressViewSet.total_contents
           StudentProgressViewSet.completed_contents
           StudentProgressViewSet.completion_percentage].
    split; [assumption|]. split; [assumption|]. split; [assumption|].
    split; [|repeat split].
    intros p. unfold records_of. rewrite filter_In, Z.eqb_eq. tauto.
  - intros H0 r.
    destruct (StudentProgressViewSet.resolve db user course_id student_id)
      as [|e rest] eqn:Hres.
    + unfold StudentProgressViewSet.course_progress. rewrite Hres. discriminate.
    + rewrite (course_progress_answer _ _ _ _ _ _ Hres), H0.
      intros Hr. inversion Hr. reflexivity.
  - destruct (StudentProgressViewSet.resolve db user course_id student_id)
      as [|e rest] eqn:Hres.
    + unfold StudentProgressViewSet.course_progress. rewrite Hres. discriminate.
    + rewrite (course_progress_answer _ _ _ _ _ _ Hres). discriminate.
  - repeat split.
Qed.

Lemma course_progress_spec_witness :
  exists e r,
    StudentProgressViewSet.course_progress (campus "approved") bob (Some 1) None
    = Ok r
    /\ In e (enrollments (campus "approved"))
    /\ Enrollment.student e = 2 /\ Enrollment.course e = 1
    /\ StudentProgressViewSet.total_contents
         (StudentProgressViewSet.overall_progress r) = 1%nat
    /\ StudentProgressViewSet.completed_contents
         (StudentProgressViewSet.overall_progress r)
       = completedContents (campus "approved") e
    /\ StudentProgressViewSet.completion_percentage
         (StudentProgressViewSet.overall_progress r)
       = spec_percentage (completedContents (campus "approved") e) 1.
Proof.
  destruct (course_progress_spec (campus "approved") bob 1 None) as (_ & H & _).
  destruct H as (e & r & Hr & Hin & Hs & Hc & _ & Ht & Hd & Hp);
    [reflexivity|].
  exists e, r. auto 10.
Defined.

(** C10: the completed count of a course-progress answer is the number of
    completed progress rows of the enrollment it resolves, an enrollment
    of the resolved student in the course, whatever content the rows
    point to, while the total counts the active items of the course; a
    progress row is accepted for any content item on file, of any course
    and active or not; and a reachable store exists in which the answered
    percentage is above 100. *)
Theorem course_progress_overshoot :
  (forall db user course_id student_id r,
     StudentProgressViewSet.course_progress db user (Some course_id) student_id
     = Ok r ->
     exists e,
       In e (enrollments db)
       /\ Enrollment.student e = resolved_student user student_id
       /\ Enrollment.course e = course_id
       /\ StudentProgressViewSet.completed_contents
            (StudentProgressViewSet.overall_progress r)
          = count_if (fun p => (StudentProgress.enrollment p =? Enrollment.id e)
                               && StudentProgress.is_completed p)
                     (progress db)
       /\ StudentProgressViewSet.total_contents
            (StudentProgressViewSet.overall_progress r)
          = count_if (fun c => (CourseContent.course c =? course_id)
                               && CourseContent.is_active c)
                     (contents db))
  /\ (forall db user data e item,
        get_enrollment db (StudentProgressViewSet.d_enrollment data) = Some e ->
        Enrollment.status e = "approved" ->
        In item (contents db) ->
        StudentProgressViewSet.d_content data = Some (CourseContent.id item) ->
        StudentProgressViewSet.progress_exists db (Enrollment.id e)
          (Some (CourseContent.id item)) = false ->
        opt_ok (fun x => PrimFloat.leb 0 x && PrimFloat.leb x 100)
               (StudentProgressViewSet.d_score data) = true ->
        exists db' row,
          StudentProgressViewSet.create db user data = Ok (db', row)
          /\ In row (progress db')
          /\ StudentProgress.enrollment row = Enrollment.id e
          /\ StudentProgress.content row = CourseContent.id item)
  /\ (reachable overshoot_db
      /\ exists r x,
           StudentProgressViewSet.course_progress overshoot_db bob (Some 1) None
           = Ok r
           /\ StudentProgressViewSet.total_contents
                (StudentProgressViewSet.overall_progress r) = 1%nat
           /\ StudentProgressViewSet.completed_contents
                (StudentProgressViewSet.overall_progress r) = 3%nat
           /\ StudentProgressViewSet.completion_percentage
                (StudentProgressViewSet.overall_progress r) = NFloat x
           /\ x = 300%float
           /\ PrimFloat.ltb 100%float x = true).
Proof.
  split; [|split].
  - intros db user course_id student_id r.
    destruct (StudentProgressViewSet.resolve db user course_id student_id)
      as [|e rest] eqn:Hres.
    + unfold StudentProgressViewSet.course_progress. rewrite Hres. discriminate.
    + rewrite (course_progress_answer _ _ _ _ _ _ Hres).
      intros Hr. inversion Hr; subst; clear Hr. exists e.
      assert (Hin : In e (StudentProgressViewSet.resolve db user course_id
                                                        student_id))
        by (rewrite Hres; now left).
      unfold StudentProgressViewSet.resolve in Hin.
      fold (resolved_student user student_id) in Hin.
      apply filter_In in Hin. destruct Hin as [Hin Hp].
      apply andb_prop in Hp. destruct Hp as [Hc Hs]. apply Z.eqb_eq in Hc, Hs.
      repeat split; assumption.
  - intros db user data e item Hg Hs Hin Hc Hp Hv.
    eexists. eexists. split.
    + apply create_created with (e := e) (c := CourseContent.id item);
        try assumption.
      apply existsb_exists. exists item. split; [assumption|apply Z.eqb_refl].
    + cbn. repeat split. apply in_or_app. right. now left.
  - split.
    + exists default_config, accounts, overshoot_run. reflexivity.
    + eexists. eexists. vm_compute. repeat split.
Qed.

Lemma course_progress_overshoot_witness :
  exists db' row,
    StudentProgressViewSet.create two_courses bob
      (StudentProgressViewSet.mkProgressData (Some 1) (Some 2) (Some true) None)
    = Ok (db', row)
    /\ In row (progress db')
    /\ StudentProgress.enrollment row = 1
    /\ StudentProgress.content row = 2.
Proof.
  destruct course_progress_overshoot as (_ & H & _).
  apply (H two_courses bob _ (bobs_enrollment "approved")
           (CourseContent.mk 2 2 0 false));
    try reflexivity.
  right. left. reflexivity.
Defined.

(** ** Looking an enrollment up ([get_object]) *)

Lemma NoDup_map_inj {A B : Type} (f : A -> B) (l : list A) (x y : A) :
  NoDup (map f l) -> In x l -> In y l -> f x = f y -> x = y.
Proof.
  induction l as [|a l IH]; [contradiction|].
  cbn. intros Hnd Hx Hy Hf. inversion Hnd as [|? ? Hna Hnd']; subst.
  destruct Hx as [->|Hx], Hy as [->|Hy].
  - reflexivity.
  - exfalso. apply Hna. rewrite Hf. now apply in_map.
  - exfalso. apply Hna. rewrite <- Hf. now apply in_map.
  - now apply IH.
Qed.

Lemma find_none_all {A : Type} (p : A -> bool) (l : list A) :
  (forall a, In a l -> p a = false) -> find p l = None.
Proof.
  induction l as [|a l IH]; [reflexivity|].
  intros H. cbn. rewrite (H a (or_introl eq_refl)).
  apply IH. intros b Hb. apply H. now right.
Qed.

(** With unique keys, the row of a key is what [find] returns. *)
Lemma find_unique (l : list Enrollment.t) (e : Enrollment.t) :
  NoDup (map Enrollment.id l) -> In e l ->
  find (fun r => Enrollment.id r =? Enrollment.id e) l = Some e.
Proof.
  intros Hnd Hin.
  destruct (find (fun r => Enrollment.id r =? Enrollment.id e) l) as [r|] eqn:Hf.
  - apply find_some in Hf. destruct Hf as [Hr Hid]. apply Z.eqb_eq in Hid.
    f_equal. now apply (NoDup_map_inj Enrollment.id l).
  - apply find_none with (x := e) in Hf; [|assumption].
    now rewrite Z.eqb_refl in Hf.
Qed.

Section GetObject.
Import EnrollmentViewSet.

Variables (db : DB) (user : User.t).

Lemma get_object_admin (pk : Z) :
  is_admin user = true ->
  get_object db user pk =
  match find (fun e => Enrollment.id e =? pk) (enrollments db) with
  | Some e => Ok e
  | None => Err NotFound
  end.
Proof.
  intros Ha. unfold get_object, get_queryset, IsOwnerOrAdmin_enrollment.
  rewrite Ha. reflexivity.
Qed.

(** An enrollment of another student is not in the queryset of a user
    who is no admin. *)
Lemma get_object_hidden (e : Enrollment.t) :
  NoDup (map Enrollment.id (enrollments db)) ->
  In e (enrollments db) ->
  is_admin user = false ->
  Enrollment.student e <> User.id user ->
  get_object db user (Enrollment.id e) = Err NotFound.
Proof.
  intros Hnd Hin Ha Hs. unfold get_object, get_queryset. rewrite Ha.
  rewrite find_none_all; [reflexivity|].
  intros r Hr. apply filter_In in Hr. destruct Hr as [Hr Hown].
  apply Z.eqb_neq. intros Hid. apply Hs.
  rewrite <- (NoDup_map_inj Enrollment.id _ r e Hnd Hr Hin Hid).
  now apply Z.eqb_eq.
Qed.

Lemma find_filter_own (l : list Enrollment.t) (e : Enrollment.t) :
  NoDup (map Enrollment.id l) -> In e l ->
  Enrollment.student e = User.id user ->
  find (fun r => Enrollment.id r =? Enrollment.id e)
       (filter (fun r => Enrollment.student r =? User.id user) l) = Some e.
Proof.
  intros Hnd Hin Hs.
  destruct (find (fun r => Enrollment.id r =? Enrollment.id e)
                 (filter (fun r => Enrollment.student r =? User.id user) l))
    as [r|] eqn:Hf.
  - apply find_some in Hf. destruct Hf as [Hr Hid]. apply Z.eqb_eq in Hid.
    apply filter_In in Hr. f_equal.
    now apply (NoDup_map_inj Enrollment.id l).
  - apply find_none with (x := e) in Hf.
    + now rewrite Z.eqb_refl in Hf.
    + apply filter_In. split; [assumption|now apply Z.eqb_eq].
Qed.

(** A user's own enrollment, and any enrollment for an admin, is
    fetched. *)
Lemma get_object_visible (e : Enrollment.t) :
  NoDup (map Enrollment.id (enrollments db)) ->
  In e (enrollments db) ->
  is_admin user = true \/ Enrollment.student e = User.id user ->
  get_object db user (Enrollment.id e) = Ok e.
Proof.
  intros Hnd Hin Hsee.
  destruct (is_admin user) eqn:Ha.
  - rewrite get_object_admin by assumption.
    now rewrite find_unique.
  - destruct Hsee as [Hsee|Hsee]; [discriminate|].
    unfold get_object, get_queryset, IsOwnerOrAdmin_enrollment. rewrite Ha.
    rewrite find_filter_own by assumption.
    apply Z.eqb_eq in Hsee. now rewrite Hsee.
Qed.

End GetObject.

(** ** Updating completion and grade (C4, C7) *)

(** What [get_object] hands out passes the permission test of the views:
    the user is an admin or the student of the enrollment. *)
Lemma get_object_owner_or_admin (db : DB) (user : User.t) (pk : Z)
      (e : Enrollment.t) :
  EnrollmentViewSet.get_object db user pk = Ok e ->
  is_admin user || (Enrollment.student e =? User.id user) = true.
Proof.
  unfold EnrollmentViewSet.get_object, IsOwnerOrAdmin_enrollment.
  destruct (find _ _) as [obj|]; [|discriminate].
  destruct (is_admin user); cbn.
  - reflexivity.
  - destruct (Enrollment.student obj =? User.id user) eqn:Ho; [|discriminate].
    intros H. inversion H; subst. exact Ho.
Qed.

Lemma get_object_not_forbidden (db : DB) (user : User.t) (pk : Z) :
  EnrollmentViewSet.get_object db user pk <> Err Forbidden.
Proof.
  unfold EnrollmentViewSet.get_object, EnrollmentViewSet.get_queryset,
    IsOwnerOrAdmin_enrollment.
  destruct (is_admin user).
  - destruct (find _ _); discriminate.
  - destruct (find _ _) as [obj|] eqn:Hf; [|discriminate].
    apply find_some in Hf. destruct Hf as [Hin _].
    apply filter_In in Hin. destruct Hin as [_ Ho]. rewrite Ho. discriminate.
Qed.

Lemma checked_assign_not_forbidden (v : option float_result)
      (assign : float -> Enrollment.t) (e : Enrollment.t) :
  EnrollmentViewSet.checked_assign v assign e <> Err Forbidden.
Proof.
  destruct v as [[x|[]]|]; cbn; try discriminate.
  destruct (out_of_range x); discriminate.
Qed.

(** C7 (as amended): for a caller who is neither an admin nor the student
    of the enrollment, [update_progress] fails with [NotFound], the
    enrollment being outside the caller's queryset, and writes nothing;
    the [Forbidden] answer of the view is never given. *)
Theorem update_progress_of_another_student :
  (forall db user e data,
     NoDup (map Enrollment.id (enrollments db)) ->
     In e (enrollments db) ->
     is_admin user = false ->
     Enrollment.student e <> User.id user ->
     EnrollmentViewSet.update_progress db user (Enrollment.id e) data
     = Err NotFound
     /\ new_state db (EnrollmentViewSet.update_progress db user
                        (Enrollment.id e) data) = db)
  /\ (forall db user pk data,
        EnrollmentViewSet.update_progress db user pk data <> Err Forbidden).
Proof.
  split.
  - intros db user e data Hnd Hin Ha Hs.
    unfold EnrollmentViewSet.update_progress.
    rewrite get_object_hidden by assumption. split; reflexivity.
  - intros db user pk data. unfold EnrollmentViewSet.update_progress.
    destruct (EnrollmentViewSet.get_object db user pk) as [e|err] eqn:Hg.
    + cbn [bind]. rewrite (get_object_owner_or_admin _ _ _ _ Hg).
      cbn [negb].
      destruct (EnrollmentViewSet.checked_assign _ _ e) as [e1|err1] eqn:H1.
      * cbn [bind].
        destruct (EnrollmentViewSet.checked_assign _ _ e1) as [e2|err2] eqn:H2.
        -- discriminate.
        -- cbn [bind]. intros H. inversion H; subst.
           now apply checked_assign_not_forbidden in H2.
      * cbn [bind]. intros H. inversion H; subst.
        now apply checked_assign_not_forbidden in H1.
    + cbn [bind]. intros H. inversion H; subst.
      now apply get_object_not_forbidden in Hg.
Qed.

Lemma update_progress_of_another_student_witness :
  EnrollmentViewSet.update_progress (campus "approved") carol 1
    (EnrollmentViewSet.mkProgressData (Some (Float 50%float)) None)
  = Err NotFound
  /\ new_state (campus "approved")
       (EnrollmentViewSet.update_progress (campus "approved") carol 1
          (EnrollmentViewSet.mkProgressData (Some (Float 50%float)) None))
     = campus "approved".
Proof.
  destruct update_progress_of_another_student as [H _].
  apply (H (campus "approved") carol (bobs_enrollment "approved")).
  - repeat constructor. intros [].
  - left. reflexivity.
  - reflexivity.
  - discriminate.
Defined.

(** C7 as stated fails: Carol, who is neither an admin nor the student of
    Bob's enrollment, is not answered [Forbidden]. *)
Lemma update_progress_not_forbidden :
  ~ (forall db user e data,
       In e (enrollments db) ->
       is_admin user = false ->
       Enrollment.student e <> User.id user ->
       EnrollmentViewSet.update_progress db user (Enrollment.id e) data
       = Err Forbidden).
Proof.
  intros H.
  assert (Hneq : Enrollment.student (bobs_enrollment "approved") <> User.id carol)
    by discriminate.
  assert (Hc := H (campus "approved") carol (bobs_enrollment "approved")
                  (EnrollmentViewSet.mkProgressData None None)
                  (or_introl eq_refl) eq_refl Hneq).
  vm_compute in Hc. discriminate Hc.
Qed.

(** For a caller who gets the enrollment, [update_progress] turns down a
    value that [float] rejects with [ValueError] or [TypeError] and a
    float below 0 or above 100, writing nothing (also not an acceptable
    value sent along); otherwise it writes the submitted fields and leaves
    the other ones as they are. *)
Lemma update_progress_validation (db : DB) (user : User.t) (pk : Z)
      (e : Enrollment.t) (data : EnrollmentViewSet.ProgressData) :
  EnrollmentViewSet.get_object db user pk = Ok e ->
  let cp := EnrollmentViewSet.p_completion_percentage data in
  let g := EnrollmentViewSet.p_grade data in
  EnrollmentViewSet.update_progress db user pk data =
  if rejected cp then Err ValidationError
  else if overflows cp then Err ServerError
  else if rejected g then Err ValidationError
  else if overflows g then Err ServerError
  else
    let e' := Enrollment.mk (Enrollment.id e) (Enrollment.student e)
                (Enrollment.course e) (Enrollment.status e)
                (or_default (accepted cp) (Enrollment.completion_percentage e))
                (match accepted g with
                 | Some x => Some x
                 | None => Enrollment.grade e
                 end) in
    Ok (save_enrollment db e', e').
Proof.
  intros Hg. cbv zeta. unfold EnrollmentViewSet.update_progress.
  rewrite Hg. cbn [bind].
  rewrite (get_object_owner_or_admin _ _ _ _ Hg). cbn [negb].
  destruct data as [cp g]. cbn [EnrollmentViewSet.p_completion_percentage
                                 EnrollmentViewSet.p_grade].
  destruct e as [i s c st p gr].
  destruct cp as [[x|[]]|]; cbn; try reflexivity;
    try (destruct (out_of_range x); cbn; [reflexivity|]);
    destruct g as [[y|[]]|]; cbn; try reflexivity;
    destruct (out_of_range y); reflexivity.
Qed.

(** C4, at the inputs where the view departs from it: Bob sends the
    grade, or the completion percentage, ['nan'].  The float is not within
    the two bounds, yet it is neither below 0 nor above 100, which is what
    the view tests; so the request is not answered with a validation
    error.  An integer too large for a double ends in the [OverflowError]
    that the view does not catch, a server error and again no validation
    error. *)
Theorem update_progress_nan_grade :
  let db := campus "approved" in
  let nan_grade := EnrollmentViewSet.mkProgressData None (Some (Float nan)) in
  let nan_percentage :=
    EnrollmentViewSet.mkProgressData (Some (Float nan)) None in
  let huge_grade :=
    EnrollmentViewSet.mkProgressData None (Some (Raise OverflowError)) in
  PrimFloat.leb 0%float nan && PrimFloat.leb nan 100%float = false
  /\ out_of_range nan = false
  /\ EnrollmentViewSet.get_object db bob 1 = Ok (bobs_enrollment "approved")
  /\ EnrollmentViewSet.update_progress db bob 1 nan_grade
     <> Err ValidationError
  /\ EnrollmentViewSet.update_progress db bob 1 nan_percentage
     <> Err ValidationError
  /\ EnrollmentViewSet.update_progress db bob 1 huge_grade = Err ServerError
  /\ EnrollmentViewSet.update_progress db bob 1 huge_grade
     <> Err ValidationError.
Proof.
  cbv zeta. repeat split; try discriminate.
Qed.

(** ** Approving and rejecting (C5) *)

Lemma find_save (l : list Enrollment.t) (e e' : Enrollment.t) :
  Enrollment.id e' = Enrollment.id e ->
  find (fun r => Enrollment.id r =? Enrollment.id e) l = Some e ->
  find (fun r => Enrollment.id r =? Enrollment.id e)
       (map (fun r => if Enrollment.id r =? Enrollment.id e' then e' else r) l)
  = Some e'.
Proof.
  intros Hid. rewrite Hid. induction l as [|a l IH]; [discriminate|].
  cbn. destruct (Enrollment.id a =? Enrollment.id e) eqn:Ha.
  - intros _. now rewrite Hid, Z.eqb_refl.
  - intros H. rewrite Ha. now apply IH.
Qed.

Lemma save_twice (db : DB) (e : Enrollment.t) :
  save_enrollment (save_enrollment db e) e = save_enrollment db e.
Proof.
  unfold save_enrollment, set_enrollments. cbn. f_equal.
  rewrite map_map. apply map_ext. intros r.
  destruct (Enrollment.id r =? Enrollment.id e) eqn:Hr.
  - now rewrite Z.eqb_refl.
  - now rewrite Hr.
Qed.

Section SetStatus.
Import EnrollmentViewSet.

Variables (new_status : string) (db : DB) (user : User.t).

(** An admin sets the status of any enrollment on file, from any
    status. *)
Lemma set_status_admin (pk : Z) (e : Enrollment.t) :
  is_admin user = true ->
  find (fun r => Enrollment.id r =? pk) (enrollments db) = Some e ->
  set_status_action new_status db user pk
  = Ok (save_enrollment db (set_status e new_status), set_status e new_status).
Proof.
  intros Ha Hf. unfold set_status_action.
  rewrite get_object_admin, Hf by assumption. cbn [bind].
  now rewrite Ha.
Qed.

Lemma set_status_admin_missing (pk : Z) :
  is_admin user = true ->
  find (fun r => Enrollment.id r =? pk) (enrollments db) = None ->
  set_status_action new_status db user pk = Err NotFound.
Proof.
  intros Ha Hf. unfold set_status_action.
  now rewrite get_object_admin, Hf by assumption.
Qed.

(** Users who are no admin reach the instructor test on their own
    enrollments only. *)
Lemma set_status_own (e : Enrollment.t) :
  NoDup (map Enrollment.id (enrollments db)) ->
  In e (enrollments db) ->
  is_admin user = false ->
  Enrollment.student e = User.id user ->
  set_status_action new_status db user (Enrollment.id e)
  = if instructs db user e
    then Ok (save_enrollment db (set_status e new_status),
             set_status e new_status)
    else Err Forbidden.
Proof.
  intros Hnd Hin Ha Hs. unfold set_status_action.
  rewrite get_object_visible by auto. cbn [bind]. rewrite Ha. cbn [orb].
  destruct (instructs db user e); reflexivity.
Qed.

Lemma set_status_hidden (e : Enrollment.t) :
  NoDup (map Enrollment.id (enrollments db)) ->
  In e (enrollments db) ->
  is_admin user = false ->
  Enrollment.student e <> User.id user ->
  set_status_action new_status db user (Enrollment.id e) = Err NotFound.
Proof.
  intros Hnd Hin Ha Hs. unfold set_status_action.
  now rewrite get_object_hidden by assumption.
Qed.

End SetStatus.

(** Repeating the action of an admin changes nothing more. *)
Lemma set_status_admin_twice (new_status : string) (db db' : DB)
      (user : User.t) (pk : Z) (e' : Enrollment.t) :
  is_admin user = true ->
  EnrollmentViewSet.set_status_action new_status db user pk = Ok (db', e') ->
  EnrollmentViewSet.set_status_action new_status db' user pk = Ok (db', e').
Proof.
  intros Ha H.
  destruct (find (fun r => Enrollment.id r =? pk) (enrollments db))
    as [e|] eqn:Hf.
  - rewrite (set_status_admin new_status db user pk e Ha Hf) in H.
    inversion H; subst; clear H.
    destruct (find_id_some _ _ _ Hf) as [_ Hid]. subst pk.
    set (e' := EnrollmentViewSet.set_status e new_status).
    assert (Hf' : find (fun r => Enrollment.id r =? Enrollment.id e)
                       (enrollments (save_enrollment db e')) = Some e').
    { unfold save_enrollment. cbn [enrollments set_enrollments].
      now apply find_save. }
    rewrite (set_status_admin new_status _ user _ e' Ha Hf').
    assert (He : EnrollmentViewSet.set_status e' new_status = e') by reflexivity.
    now rewrite He, save_twice.
  - now rewrite (set_status_admin_missing new_status db user pk Ha Hf) in H.
Qed.

(** C5 (as amended): for an enrollment in any status, approve by an admin
    sets the status to [approved] and reject sets it to [rejected], with no
    test of the status before, and doing it twice is doing it once; a user
    who is no admin reaches the instructor test only on an enrollment of
    their own, where the action succeeds for the instructor of the course
    and is answered [Forbidden] otherwise; on the enrollment of another
    student such a user is answered [NotFound]; a failed action writes
    nothing. *)
Theorem approve_reject_outcomes (db : DB) (user : User.t) (e : Enrollment.t) :
  NoDup (map Enrollment.id (enrollments db)) ->
  In e (enrollments db) ->
  let pk := Enrollment.id e in
  let approved := EnrollmentViewSet.set_status e "approved" in
  let rejected := EnrollmentViewSet.set_status e "rejected" in
  (is_admin user = true
   \/ (Enrollment.student e = User.id user
       /\ EnrollmentViewSet.instructs db user e = true) ->
   EnrollmentViewSet.approve db user pk = Ok (save_enrollment db approved, approved)
   /\ Enrollment.status approved = "approved"
   /\ get_enrollment (save_enrollment db approved) (Some pk) = Some approved
   /\ EnrollmentViewSet.reject db user pk = Ok (save_enrollment db rejected, rejected)
   /\ Enrollment.status rejected = "rejected"
   /\ get_enrollment (save_enrollment db rejected) (Some pk) = Some rejected)
  /\ (is_admin user = true ->
      EnrollmentViewSet.approve (save_enrollment db approved) user pk
      = Ok (save_enrollment db approved, approved)
      /\ EnrollmentViewSet.reject (save_enrollment db rejected) user pk
         = Ok (save_enrollment db rejected, rejected))
  /\ (is_admin user = false ->
      Enrollment.student e = User.id user ->
      EnrollmentViewSet.instructs db user e = false ->
      EnrollmentViewSet.approve db user pk = Err Forbidden
      /\ EnrollmentViewSet.reject db user pk = Err Forbidden
      /\ new_state db (EnrollmentViewSet.approve db user pk) = db
      /\ new_state db (EnrollmentViewSet.reject db user pk) = db)
  /\ (is_admin user = false ->
      Enrollment.student e <> User.id user ->
      EnrollmentViewSet.approve db user pk = Err NotFound
      /\ EnrollmentViewSet.reject db user pk = Err NotFound
      /\ new_state db (EnrollmentViewSet.approve db user pk) = db
      /\ new_state db (EnrollmentViewSet.reject db user pk) = db).
Proof.
  intros Hnd Hin. cbv zeta.
  unfold EnrollmentViewSet.approve, EnrollmentViewSet.reject.
  assert (Hf := find_unique _ _ Hnd Hin).
  assert (Hsaved : forall s,
             get_enrollment
               (save_enrollment db (EnrollmentViewSet.set_status e s))
               (Some (Enrollment.id e))
             = Some (EnrollmentViewSet.set_status e s)).
  { intros s. cbn [get_enrollment save_enrollment set_enrollments enrollments].
    now apply find_save. }
  assert (Hdo : forall s,
             is_admin user = true
             \/ (Enrollment.student e = User.id user
                 /\ EnrollmentViewSet.instructs db user e = true) ->
             EnrollmentViewSet.set_status_action s db user (Enrollment.id e)
             = Ok (save_enrollment db (EnrollmentViewSet.set_status e s),
                   EnrollmentViewSet.set_status e s)).
  { intros s [Ha|[Hs Hi]].
    - now apply set_status_admin.
    - destruct (is_admin user) eqn:Ha.
      + now apply set_status_admin.
      + rewrite set_status_own by assumption. now rewrite Hi. }
  split; [|split; [|split]].
  - intros H. rewrite !Hdo by assumption. rewrite !Hsaved. repeat split.
  - intros Ha. split.
    + apply set_status_admin_twice with (db := db); [assumption|].
      apply Hdo. now left.
    + apply set_status_admin_twice with (db := db); [assumption|].
      apply Hdo. now left.
  - intros Ha Hs Hi. rewrite !set_status_own by assumption.
    rewrite Hi. repeat split.
  - intros Ha Hs. rewrite !set_status_hidden by assumption. repeat split.
Qed.

Lemma approve_reject_outcomes_witness :
  EnrollmentViewSet.approve (campus "completed") alice 1
  = Ok (campus "approved", bobs_enrollment "approved")
  /\ EnrollmentViewSet.reject (campus "completed") alice 1
     = Ok (campus "rejected", bobs_enrollment "rejected").
Proof.
  assert (Hnd : NoDup (map Enrollment.id (enrollments (campus "completed"))))
    by (repeat constructor; intros []).
  destruct (approve_reject_outcomes (campus "completed") alice
              (bobs_enrollment "completed") Hnd (or_introl eq_refl))
    as (H & _).
  destruct (H (or_introl eq_refl)) as (Ha & _ & _ & Hr & _).
  split; [exact Ha | exact Hr].
Defined.

(** C5 as stated fails: Carol, neither an admin nor the instructor of the
    course, is not answered [Forbidden] when she approves Bob's
    enrollment. *)
Lemma approve_by_stranger_not_forbidden :
  ~ (forall db user e,
       In e (enrollments db) ->
       is_admin user = false ->
       EnrollmentViewSet.instructs db user e = false ->
       EnrollmentViewSet.approve db user (Enrollment.id e) = Err Forbidden).
Proof.
  intros H.
  assert (Hc := H (campus "pending") carol (bobs_enrollment "pending")
                  (or_introl eq_refl) eq_refl eq_refl).
  vm_compute in Hc. discriminate Hc.
Qed.

(** ** Pending approvals (C8) *)

(** C8 (as amended): the listing is answered [Forbidden] to every caller
    whose role is not [admin]; an admin gets the pending enrollments of
    the courses that this admin instructs, in store order, and no pending
    enrollment of a course of another instructor. *)
Theorem pending_approvals_outcomes (db : DB) (user : User.t) :
  (User.role user <> "admin" ->
   EnrollmentViewSet.pending_approvals db user = Err Forbidden)
  /\ (User.role user = "admin" ->
      exists l,
        EnrollmentViewSet.pending_approvals db user = Ok l
        /\ l = filter (fun e => existsb (fun c => (Course.id c =? Enrollment.course e)
                                                  && (Course.instructor c =? User.id user))
                                        (courses db)
                                && String.eqb (Enrollment.status e) "pending")
                      (enrollments db)
        /\ forall e, In e l <->
                     In e (enrollments db)
                     /\ Enrollment.status e = "pending"
                     /\ taught_by db user e).
Proof.
  unfold EnrollmentViewSet.pending_approvals, is_admin. split.
  - intros Hr. now rewrite (string_neqb _ _ Hr).
  - intros Hr. rewrite Hr. cbn [String.eqb negb].
    assert (Ht : forall e,
               existsb (fun c => Course.id c =? Enrollment.course e)
                       (filter (fun c => Course.instructor c =? User.id user)
                               (courses db))
               = existsb (fun c => (Course.id c =? Enrollment.course e)
                                   && (Course.instructor c =? User.id user))
                         (courses db)).
    { intros e. induction (courses db) as [|c l IH]; [reflexivity|].
      cbn. destruct (Course.instructor c =? User.id user); cbn.
      - now rewrite IH, andb_true_r.
      - now rewrite IH, andb_false_r. }
    eexists. split; [reflexivity|]. split.
    + apply filter_ext. intros e. now rewrite Ht.
    + intros e. rewrite filter_In, andb_true_iff, Ht, existsb_exists, String.eqb_eq.
      unfold taught_by. split.
      * intros (Hin & (c & Hc & Hb) & Hs).
        apply andb_prop in Hb. destruct Hb as [Hi Ho].
        apply Z.eqb_eq in Hi, Ho. repeat split; eauto.
      * intros (Hin & Hs & c & Hc & Hi & Ho).
        repeat split; try assumption.
        exists c. split; [assumption|]. now rewrite Hi, Ho, !Z.eqb_refl.
Qed.

Lemma pending_approvals_outcomes_witness :
  EnrollmentViewSet.pending_approvals (campus "pending") bob = Err Forbidden
  /\ exists l,
       EnrollmentViewSet.pending_approvals (campus "pending") alice = Ok l
       /\ In (bobs_enrollment "pending") l.
Proof.
  split.
  - destruct (pending_approvals_outcomes (campus "pending") bob) as [H _].
    apply H. discriminate.
  - destruct (pending_approvals_outcomes (campus "pending") alice) as [_ H].
    destruct (H eq_refl) as (l & Hl & _ & Hin).
    exists l. split; [assumption|]. apply Hin.
    split; [now left|]. split; [reflexivity|].
    exists (Course.mk 1 1 true). repeat split. now left.
Defined.

(** C8 as stated fails: Dave is an admin, Bob's enrollment is pending, and
    Dave's listing is empty, the course being Alice's. *)
Lemma pending_approvals_not_all :
  ~ (forall db user,
       is_admin user = true ->
       EnrollmentViewSet.pending_approvals db user
       = Ok (filter (fun e => String.eqb (Enrollment.status e) "pending")
                    (enrollments db))).
Proof.
  intros H. assert (Hc := H (campus "pending") dave eq_refl).
  vm_compute in Hc. discriminate Hc.
Qed.

(** ** Registration (C6) *)

Section Register.

Variables (SECRET : string) (validate_email : string -> bool)
          (normalize_email : string -> string).

Let register := AuthViewSet.register SECRET validate_email normalize_email.
Let fields_ok := AuthViewSet.fields_ok validate_email.
Let create := AuthViewSet.create normalize_email.









End Register.




(** ** Every request is a few writes *)

Lemma get_object_in (db : DB) (user : User.t) (pk : Z) (e : Enrollment.t) :
  EnrollmentViewSet.get_object db user pk = Ok e ->
  In e (enrollments db) /\ Enrollment.id e = pk.
Proof.
  unfold EnrollmentViewSet.get_object, EnrollmentViewSet.get_queryset.
  destruct (find _ _) as [obj|] eqn:Hf; [|discriminate].
  destruct (IsOwnerOrAdmin_enrollment user obj); [|discriminate].
  intros H. inversion H; subst. apply find_some in Hf.
  destruct Hf as [Hin Hid]. apply Z.eqb_eq in Hid. split; [|assumption].
  destruct (is_admin user); [assumption|].
  now apply filter_In in Hin.
Qed.

Lemma existsb_false_all {A : Type} (p : A -> bool) (l : list A) (a : A) :
  existsb p l = false -> In a l -> p a = false.
Proof.
  intros H Hin. destruct (p a) eqn:Hp; [|reflexivity].
  assert (Ht : existsb p l = true) by (apply existsb_exists; eauto).
  congruence.
Qed.

Lemma find_in_ids (l : list Enrollment.t) (k : Z) (e : Enrollment.t) :
  find (fun r => Enrollment.id r =? k) l = Some e ->
  In k (map Enrollment.id l).
Proof.
  intros H. apply find_some in H. destruct H as [Hin Hk].
  apply Z.eqb_eq in Hk. subst k. now apply in_map.
Qed.

Lemma existsb_in_ids (l : list Enrollment.t) (k : Z) :
  existsb (fun r => Enrollment.id r =? k) l = true ->
  In k (map Enrollment.id l).
Proof.
  intros H. apply existsb_exists in H. destruct H as (e & Hin & Hk).
  apply Z.eqb_eq in Hk. subst k. now apply in_map.
Qed.

Lemma insert_account_saved (db db' : DB) (email role : string) (u : User.t) :
  insert_account db email role = Ok (db', u) ->
  db' = set_users db (users db ++ [u]).
Proof.
  unfold insert_account. destruct (existsb _ _); [discriminate|].
  intros H. now inversion H.
Qed.

Lemma register_saved (SECRET : string) (validate_email : string -> bool)
      (normalize_email : string -> string) (db db' : DB)
      (data : AuthViewSet.RegistrationData) (u : User.t) :
  AuthViewSet.register SECRET validate_email normalize_email db data
  = Ok (db', u) ->
  db' = set_users db (users db ++ [u]).
Proof.
  assert (Hc : forall m,
             AuthViewSet.create normalize_email db data m = Ok (db', u) ->
             db' = set_users db (users db ++ [u])).
  { intros m. unfold AuthViewSet.create.
    destruct (String.eqb _ ""); [discriminate|]. apply insert_account_saved. }
  unfold AuthViewSet.register. destruct (negb _); [discriminate|].
  destruct (AuthViewSet.validate SECRET data) as [m|]; [|discriminate].
  cbn [bind].
  destruct (AuthViewSet.r_admin_secret data) as [s|];
    [destruct (negb _ && negb _); [discriminate|]|]; apply Hc.
Qed.

(** The sorted rows are the rows. *)
Lemma insert_by_order_in (c x : CourseContent.t) (l : list CourseContent.t) :
  In x (insert_by_order c l) <-> x = c \/ In x l.
Proof.
  induction l as [|a l IH]; cbn.
  - intuition congruence.
  - destruct (CourseContent.order c <=? CourseContent.order a); cbn.
    + intuition congruence.
    + rewrite IH. intuition congruence.
Qed.

Lemma order_by_order_in (x : CourseContent.t) (l : list CourseContent.t) :
  In x (order_by_order l) <-> In x l.
Proof.
  induction l as [|a l IH]; cbn; [tauto|].
  rewrite insert_by_order_in, IH. intuition congruence.
Qed.

Lemma content_queryset_in (db : DB) (user : User.t) (x : CourseContent.t) :
  In x (CourseContentViewSet_get_queryset db user) -> In x (contents db).
Proof.
  unfold CourseContentViewSet_get_queryset.
  destruct (is_admin user).
  - apply order_by_order_in.
  - intros H. apply in_flat_map in H. destruct H as (c & Hc & Hx).
    apply filter_In in Hc. destruct Hc as [Hc _].
    apply in_map_iff in Hx. destruct Hx as (_ & <- & _).
    now apply order_by_order_in.
Qed.

Lemma content_get_object_in (db : DB) (user : User.t) (pk : Z)
      (x : CourseContent.t) :
  CourseContentViewSet_get_object db user pk = Ok x ->
  In x (contents db) /\ CourseContent.id x = pk.
Proof.
  unfold CourseContentViewSet_get_object.
  destruct (filter _ _) as [|a [|b rest]] eqn:Hf; try discriminate.
  intros H. inversion H; subst a.
  assert (Hin : In x (filter (fun x => CourseContent.id x =? pk)
                             (CourseContentViewSet_get_queryset db user)))
    by (rewrite Hf; now left).
  apply filter_In in Hin. destruct Hin as [Hin Hid].
  split; [now apply content_queryset_in with (user := user)|].
  now apply Z.eqb_eq.
Qed.

Lemma progress_get_object_in (db : DB) (user : User.t) (pk : Z)
      (p : StudentProgress.t) :
  StudentProgressViewSet_get_object db user pk = Ok p ->
  In p (progress db) /\ StudentProgress.id p = pk.
Proof.
  unfold StudentProgressViewSet_get_object, StudentProgressViewSet_get_queryset.
  destruct (find _ _) as [obj|] eqn:Hf; [|discriminate].
  destruct (Permissions.IsOwnerOrAdmin _ _ _); [|discriminate].
  intros H. inversion H; subst obj. apply find_some in Hf.
  destruct Hf as [Hin Hid]. apply Z.eqb_eq in Hid. split; [|assumption].
  destruct (is_admin user); [assumption|].
  now apply filter_In in Hin.
Qed.

Lemma user_get_object_in (a : UserViewSet.action) (db : DB)
      (user : option User.t) (pk : Z) (u : User.t) :
  UserViewSet.get_object a db user pk = Ok u ->
  In u (users db) /\ User.id u = pk.
Proof.
  unfold UserViewSet.get_object, UserViewSet.get_queryset.
  destruct (UserViewSet.check_permissions a user); [|discriminate].
  cbn [bind]. destruct user as [caller|]; [|discriminate].
  assert (Hq : forall q,
             (forall r, In r q -> In r (users db)) ->
             match find (fun r => User.id r =? pk) q with
             | Some obj =>
                 if UserViewSet.owner_or_admin_action a
                 then if Permissions.IsOwnerOrAdmin db caller
                           (Permissions.UserObj obj)
                      then Ok obj else Err Forbidden
                 else Ok obj
             | None => Err NotFound
             end = Ok u ->
             In u (users db) /\ User.id u = pk).
  { intros q Hq. destruct (find _ q) as [obj|] eqn:Hf; [|discriminate].
    apply find_some in Hf. destruct Hf as [Hin Hid]. apply Z.eqb_eq in Hid.
    intros H.
    assert (obj = u)
      by (destruct (UserViewSet.owner_or_admin_action a);
          [destruct (Permissions.IsOwnerOrAdmin _ _ _)|];
          congruence).
    subst obj. auto. }
  destruct (is_admin caller); cbn [bind]; apply Hq.
  - auto.
  - intros r Hr. now apply filter_In in Hr.
Qed.

Lemma steps_one (db db' : DB) : step db db' -> steps db db'.
Proof. intros H. apply steps_then with (db1 := db'); [assumption|constructor]. Qed.

Lemma steps_trans (db db1 db2 : DB) :
  steps db db1 -> steps db1 db2 -> steps db db2.
Proof.
  induction 1 as [|db da db1 Hs _ IH]; [auto|].
  intros H. apply steps_then with (db1 := da); auto.
Qed.

Lemma points_to_none {A : Type} (id : A -> Z) (gone : A -> bool)
      (rows : list A) (k : Z) (r : A) :
  points_to id gone rows k = false -> In r rows -> id r = k ->
  gone r = false.
Proof.
  unfold points_to. intros H Hin Hk.
  apply (existsb_false_all _ _ r H) in Hin.
  rewrite Hk, Z.eqb_refl, andb_true_r in Hin. exact Hin.
Qed.

(** Each deletion drops rows table by table, the pointing rows first. *)
Lemma delete_progress_steps (db : DB) (gone : StudentProgress.t -> bool) :
  steps db (delete_progress db gone).
Proof. apply steps_one. unfold delete_progress. apply step_drop_progress. Qed.

Lemma delete_contents_steps (db : DB) (gone : CourseContent.t -> bool) :
  steps db (delete_contents db gone).
Proof.
  unfold delete_contents.
  eapply steps_trans; [apply delete_progress_steps|].
  apply steps_one, step_drop_contents.
  cbn. intros p x Hp Hx Hid. apply filter_In in Hp. destruct Hp as [_ Hp].
  apply negb_true_iff in Hp. apply negb_true_iff.
  now apply (points_to_none _ _ _ _ x Hp).
Qed.

Lemma delete_enrollments_steps (db : DB) (gone : Enrollment.t -> bool) :
  steps db (delete_enrollments db gone).
Proof.
  unfold delete_enrollments.
  eapply steps_trans; [apply delete_progress_steps|].
  apply steps_one, step_drop_enrollments.
  cbn. intros p e Hp He Hid. apply filter_In in Hp. destruct Hp as [_ Hp].
  apply negb_true_iff in Hp. apply negb_true_iff.
  now apply (points_to_none _ _ _ _ e Hp).
Qed.

Lemma delete_courses_steps (db : DB) (gone : Course.t -> bool) :
  steps db (delete_courses db gone).
Proof.
  unfold delete_courses.
  eapply steps_trans; [apply delete_contents_steps|].
  eapply steps_trans; [apply delete_enrollments_steps|].
  apply steps_one, step_drop_courses; cbn.
  - intros x c Hx Hc Hid. apply filter_In in Hx. destruct Hx as [_ Hx].
    apply negb_true_iff in Hx. apply negb_true_iff.
    now apply (points_to_none _ _ _ _ c Hx).
  - intros e c He Hc Hid. apply filter_In in He. destruct He as [_ He].
    apply negb_true_iff in He. apply negb_true_iff.
    now apply (points_to_none _ _ _ _ c He).
Qed.

Lemma delete_users_steps (db : DB) (gone : User.t -> bool) :
  steps db (delete_users db gone).
Proof.
  unfold delete_users.
  eapply steps_trans; [apply delete_courses_steps|].
  eapply steps_trans; [apply delete_enrollments_steps|].
  apply steps_one, step_drop_users; cbn.
  - intros c u Hc Hu Hid. apply filter_In in Hc. destruct Hc as [_ Hc].
    apply negb_true_iff in Hc. apply negb_true_iff.
    now apply (points_to_none _ _ _ _ u Hc).
  - intros e u He Hu Hid. apply filter_In in He. destruct He as [_ He].
    apply negb_true_iff in He. apply negb_true_iff.
    now apply (points_to_none _ _ _ _ u He).
Qed.

Lemma serve_steps (db : DB) (user : User.t) (req : request) :
  steps db (serve db user req).
Proof.
  destruct req as [data|ok|partial pk ok|pk
                   |data|partial pk data|pk
                   |data|partial pk data|pk
                   |data|partial pk data|pk|pk data|pk|pk
                   |data|partial pk data|pk];
    cbn [serve].
  - constructor.
  - apply steps_one. unfold UserViewSet.create.
    destruct (UserViewSet.check_permissions _ _); [|constructor].
    cbn [bind]. destruct (negb ok); [constructor|].
    destruct (insert_account db "" "student") as [[db' u]|] eqn:Hi;
      [|constructor].
    apply insert_account_saved in Hi. subst db'. apply step_account.
  - apply steps_one. unfold UserViewSet.update.
    destruct (UserViewSet.get_object _ _ _ _); [|constructor].
    cbn [bind]. destruct (negb ok); constructor.
  - unfold UserViewSet.destroy.
    destruct (UserViewSet.get_object _ _ _ _); [|constructor].
    apply delete_users_steps.
  - apply steps_one. unfold CourseViewSet.create.
    destruct (negb _); [constructor|].
    destruct (CourseViewSet.d_instructor data) as [i|]; [|constructor].
    destruct (existsb _ _) eqn:Hi; [|constructor].
    cbn [new_state]. now apply step_course.
  - apply steps_one. unfold CourseViewSet_update, CourseViewSet_get_object.
    destruct (negb (Permissions.IsAdminOrReadOnly _ _)); [constructor|].
    destruct (find _ _) as [i|] eqn:Hf; [|constructor].
    apply find_some in Hf. destruct Hf as [Hin _].
    cbn [bind]. destruct (field_ok _ _ _ _) eqn:Hv; [|constructor].
    cbn [negb new_state].
    apply step_course_write with (instance := i); [assumption|reflexivity|].
    cbn [Course.instructor]. unfold field_ok in Hv.
    destruct (CourseViewSet.d_instructor data); cbn; auto.
  - unfold CourseViewSet_destroy.
    destruct (CourseViewSet_get_object _ _ _ _); [|constructor].
    apply delete_courses_steps.
  - apply steps_one. unfold CourseContentViewSet.create.
    destruct (CourseContentViewSet.d_course data) as [c|]; [|constructor].
    destruct (course_exists db c && _) eqn:Hc; [|constructor].
    apply andb_prop in Hc. cbn [new_state]. now apply step_content.
  - apply steps_one. unfold CourseContentViewSet_update.
    destruct (CourseContentViewSet_get_object db user pk) as [i|] eqn:Hg;
      [|constructor].
    destruct (content_get_object_in _ _ _ _ Hg) as [Hin _].
    cbn [bind]. destruct (field_ok _ _ _ _ && _) eqn:Hv; [|constructor].
    cbn [negb new_state]. apply andb_prop in Hv. destruct Hv as [Hv _].
    apply step_content_write with (instance := i); [assumption|reflexivity|].
    cbn [CourseContent.course]. unfold field_ok in Hv.
    destruct (CourseContentViewSet.d_course data); cbn; auto.
  - unfold CourseContentViewSet_destroy.
    destruct (CourseContentViewSet_get_object _ _ _); [|constructor].
    apply delete_contents_steps.
  - apply steps_one. unfold EnrollmentViewSet.create.
    destruct (_ && negb (is_admin user)); [constructor|].
    unfold is_valid, fields_valid, field_ok.
    destruct (d_student data) as [s|]; [|constructor].
    cbn [option_map].
    destruct (d_course data) as [c|];
      [|rewrite andb_false_r; constructor].
    destruct (student_exists db (key_of s) && course_exists db c && _ && _ && _)
      eqn:Hv; [|constructor].
    cbn [negb or_default]. rewrite pair_taken_create.
    destruct (enrolled db (key_of s) c) eqn:He; [constructor|].
    cbn [bind Enrollment.student Enrollment.course].
    fold (enrolled db (key_of s) c). rewrite He. cbn [new_state].
    repeat (apply andb_prop in Hv; destruct Hv as [Hv ?]).
    apply step_enroll; cbn; try assumption; reflexivity.
  - apply steps_one. unfold EnrollmentViewSet.update.
    destruct (EnrollmentViewSet.get_object db user pk) as [i|] eqn:Hg;
      [|constructor].
    destruct (get_object_in _ _ _ _ Hg) as [Hin _].
    cbn [bind]. unfold is_valid.
    destruct (fields_valid db (Some i) partial data) eqn:Hv; [|constructor].
    cbn [negb].
    destruct (pair_taken _ _ _ _) eqn:Hp; [constructor|].
    cbn [bind new_state].
    unfold fields_valid, field_ok in Hv.
    repeat (apply andb_prop in Hv; destruct Hv as [Hv ?]).
    apply step_move with (instance := i); try assumption; cbn.
    + reflexivity.
    + destruct (d_student data); cbn in *; auto.
    + destruct (d_course data); cbn in *; auto.
  - apply steps_one. unfold EnrollmentViewSet.destroy.
    destruct (EnrollmentViewSet.get_object db user pk) as [i|] eqn:Hg;
      [|constructor].
    destruct (get_object_in _ _ _ _ Hg) as [Hin _].
    cbn [bind after_delete]. now apply step_destroy.
  - apply steps_one.
    destruct (EnrollmentViewSet.get_object db user pk) as [e|err] eqn:Hg.
    + rewrite (update_progress_validation _ _ _ _ _ Hg). cbv zeta.
      destruct (get_object_in _ _ _ _ Hg) as [Hin _].
      repeat (destruct (_ : bool); [constructor|]). cbn [new_state].
      now apply step_write with (instance := e).
    + unfold EnrollmentViewSet.update_progress. rewrite Hg. constructor.
  - apply steps_one.
    unfold EnrollmentViewSet.approve, EnrollmentViewSet.set_status_action.
    destruct (EnrollmentViewSet.get_object db user pk) as [e|] eqn:Hg;
      [|constructor].
    destruct (get_object_in _ _ _ _ Hg) as [Hin _].
    cbn [bind]. destruct (negb _); [constructor|]. cbn [new_state].
    now apply step_write with (instance := e).
  - apply steps_one.
    unfold EnrollmentViewSet.reject, EnrollmentViewSet.set_status_action.
    destruct (EnrollmentViewSet.get_object db user pk) as [e|] eqn:Hg;
      [|constructor].
    destruct (get_object_in _ _ _ _ Hg) as [Hin _].
    cbn [bind]. destruct (negb _); [constructor|]. cbn [new_state].
    now apply step_write with (instance := e).
  - apply steps_one.
    unfold StudentProgressViewSet.create, StudentProgressViewSet.super_create,
      StudentProgressViewSet.is_valid.
    destruct (StudentProgressViewSet.d_enrollment data) as [k|];
      [|constructor].
    cbn [get_enrollment].
    destruct (find _ _) as [e|] eqn:Hf; [|constructor].
    destruct (negb _); [constructor|].
    destruct (StudentProgressViewSet.d_content data) as [c|];
      [|cbn; constructor].
    destruct (StudentProgressViewSet.progress_exists db (Enrollment.id e) (Some c));
      [constructor|].
    destruct (existsb _ _ && StudentProgressViewSet.content_exists db c && _)
      eqn:Hv; [|constructor].
    cbn [negb].
    destruct (StudentProgressViewSet.progress_exists db k (Some c)) eqn:Hp;
      [constructor|].
    cbn [bind new_state].
    apply andb_prop in Hv. destruct Hv as [Hv _].
    apply andb_prop in Hv. destruct Hv as [_ Hc].
    apply step_record; cbn; try assumption; try reflexivity.
    + now apply find_in_ids with (e := e).
    + intros Hin. apply in_map_iff in Hin. destruct Hin as (p & Hp' & Hin).
      cbn in Hp. apply (existsb_false_all _ _ p Hp) in Hin.
      unfold record_of in Hp'. inversion Hp' as [[H1 H2]].
      now rewrite H1, H2, !Z.eqb_refl in Hin.
  - apply steps_one. unfold StudentProgressViewSet_update.
    destruct (StudentProgressViewSet_get_object db user pk) as [i|] eqn:Hg;
      [|constructor].
    destruct (progress_get_object_in _ _ _ _ Hg) as [Hin _].
    cbn [bind]. destruct (field_ok _ _ _ _ && _ && _) eqn:Hv; [|constructor].
    cbn [negb]. destruct (existsb _ (progress db)) eqn:Hu; [constructor|].
    cbn [new_state].
    apply andb_prop in Hv. destruct Hv as [Hv _].
    apply andb_prop in Hv. destruct Hv as [He Hc].
    apply step_record_write with (instance := i);
      [assumption|reflexivity| | |].
    + cbn [StudentProgress.enrollment]. unfold field_ok in He.
      destruct (StudentProgressViewSet.d_enrollment data); cbn; auto.
      left. now apply existsb_in_ids.
    + cbn [StudentProgress.content]. unfold field_ok in Hc.
      destruct (StudentProgressViewSet.d_content data); cbn; auto.
    + intros p Hp Hne Hrec.
      apply (existsb_false_all _ _ p Hu) in Hp.
      unfold record_of in Hrec. cbn in Hrec. inversion Hrec as [[H1 H2]].
      rewrite H1, H2, !Z.eqb_refl in Hp. cbn in Hp, Hne.
      apply negb_false_iff, Z.eqb_eq in Hp. contradiction.
  - unfold StudentProgressViewSet_destroy.
    destruct (StudentProgressViewSet_get_object _ _ _); [|constructor].
    apply delete_progress_steps.
Qed.

Lemma handle_steps (cfg : Config) (db : DB) (uid : Z) (req : request) :
  steps db (handle cfg db uid req).
Proof.
  assert (Hs : steps db match authenticate db uid with
                        | Some user => serve db user req
                        | None => db
                        end)
    by (destruct (authenticate db uid); [apply serve_steps|constructor]).
  destruct req; try exact Hs.
  cbn [handle]. apply steps_one.
  destruct (AuthViewSet.register _ _ _ _ _) as [[db' u]|] eqn:Hr;
    [|constructor].
  apply register_saved in Hr. subst db'. apply step_account.
Qed.

(** ** The store stays consistent *)

Lemma NoDup_snoc {A : Type} (l : list A) (x : A) :
  NoDup l -> ~ In x l -> NoDup (l ++ [x]).
Proof.
  intros Hl Hx. apply NoDup_app; [assumption|repeat constructor; intros []|].
  intros y Hy [<-|[]]. contradiction.
Qed.

Lemma filter_keeps_distinct {A B : Type} (key : A -> B) (keep : A -> bool)
      (rows : list A) :
  NoDup (map key rows) -> NoDup (map key (filter keep rows)).
Proof.
  induction rows as [|r rows IH]; cbn; intros Hnd; [constructor|].
  apply NoDup_cons_iff in Hnd. destruct Hnd as [Hfresh Hnd].
  destruct (keep r); cbn; [|now apply IH].
  apply NoDup_cons_iff. split; [|now apply IH].
  intros Hin. apply Hfresh. apply in_map_iff in Hin.
  destruct Hin as (r' & Hk & Hr'). apply filter_In in Hr'.
  rewrite <- Hk. apply in_map. tauto.
Qed.

Lemma filter_keeps_unique_keys (keep : Enrollment.t -> bool)
      (rows : list Enrollment.t) :
  NoDup (map Enrollment.id rows) ->
  NoDup (map Enrollment.id (filter keep rows)).
Proof. apply filter_keeps_distinct. Qed.

Section Saving.

Context {A : Type} (id : A -> Z) (row : A).

Let write (l : list A) : list A :=
  map (fun r => if id r =? id row then row else r) l.

Lemma saved_ids (l : list A) : map id (write l) = map id l.
Proof.
  unfold write. rewrite map_map. apply map_ext_in. intros r _.
  destruct (id r =? id row) eqn:Hr; [|reflexivity].
  apply Z.eqb_eq in Hr. now rewrite Hr.
Qed.

Lemma saved_rows (l : list A) (r : A) : In r (write l) -> r = row \/ In r l.
Proof.
  unfold write. intros H. apply in_map_iff in H. destruct H as (r0 & Hr & Hin).
  destruct (id r0 =? id row); subst; auto.
Qed.

Lemma saved_resolves (l : list A) (k : Z) :
  existsb (fun r => id r =? k) (write l) = existsb (fun r => id r =? k) l.
Proof.
  unfold write. induction l as [|a l IH]; [reflexivity|]. cbn.
  destruct (id a =? id row) eqn:Ha; [apply Z.eqb_eq in Ha; rewrite Ha|];
    now rewrite IH.
Qed.

(** Writing a row over the row of its key keeps a second key distinct
    when no row of another primary key has that of the new row. *)
Lemma saved_distinct {K : Type} (key : A -> K) (l : list A) :
  NoDup (map id l) ->
  NoDup (map key l) ->
  (forall r, In r l -> id r <> id row -> key r <> key row) ->
  NoDup (map key (write l)).
Proof.
  unfold write.
  induction l as [|a l IH]; cbn; intros Hk Hp Hfree; [constructor|].
  apply NoDup_cons_iff in Hk. destruct Hk as [Hka Hk].
  apply NoDup_cons_iff in Hp. destruct Hp as [Hpa Hp].
  apply NoDup_cons_iff. split.
  - intros Hin. apply in_map_iff in Hin. destruct Hin as (x & Hx & Hin).
    apply in_map_iff in Hin. destruct Hin as (r & Hr & Hin). subst x.
    destruct (id a =? id row) eqn:Ha; destruct (id r =? id row) eqn:Hr.
    + apply Z.eqb_eq in Ha, Hr. apply Hka. rewrite Ha, <- Hr.
      now apply in_map.
    + apply Z.eqb_neq in Hr. apply (Hfree r); auto.
    + apply Z.eqb_neq in Ha. apply (Hfree a); auto.
    + apply Hpa. rewrite <- Hx. now apply in_map.
  - apply IH; auto.
Qed.

End Saving.

Lemma save_keys (db : DB) (e : Enrollment.t) :
  map Enrollment.id (enrollments (save_enrollment db e))
  = map Enrollment.id (enrollments db).
Proof. apply saved_ids. Qed.

Lemma append_fresh_keys (l : list Enrollment.t) (row : Enrollment.t) :
  Enrollment.id row = next_pk (map Enrollment.id l) ->
  NoDup (map Enrollment.id l) ->
  NoDup (map Enrollment.id (l ++ [row])).
Proof.
  intros Hid Hnd. rewrite map_app. cbn.
  apply NoDup_snoc; [assumption|].
  intros Hk. apply next_pk_fresh in Hk. lia.
Qed.

Lemma pair_free (db : DB) (instance row e : Enrollment.t) :
  pair_taken db (Some instance) (Enrollment.student row) (Enrollment.course row)
  = false ->
  Enrollment.id row = Enrollment.id instance ->
  In e (enrollments db) ->
  Enrollment.id e <> Enrollment.id row ->
  pair_of e <> pair_of row.
Proof.
  unfold pair_taken. intros Ht Hid Hin Hne Hp.
  apply (existsb_false_all _ _ e Ht) in Hin.
  unfold pair_of in Hp. inversion Hp as [[Hs Hc]].
  rewrite Hs, Hc, !Z.eqb_refl in Hin. cbn in Hin.
  apply negb_false_iff, Z.eqb_eq in Hin. apply Hne. congruence.
Qed.

Lemma same_pair_free (l : list Enrollment.t) (instance row e : Enrollment.t) :
  NoDup (map pair_of l) ->
  In instance l -> In e l ->
  Enrollment.id row = Enrollment.id instance ->
  pair_of row = pair_of instance ->
  Enrollment.id e <> Enrollment.id row ->
  pair_of e <> pair_of row.
Proof.
  intros Hp Hi He Hid Hpair Hne Heq. apply Hne. rewrite Hid.
  f_equal. apply (NoDup_map_inj pair_of l); auto. congruence.
Qed.

Lemma in_saved (db : DB) (row r : Enrollment.t) :
  In r (enrollments (save_enrollment db row)) ->
  r = row \/ In r (enrollments db).
Proof. apply saved_rows. Qed.

Lemma existsb_more {A : Type} (p : A -> bool) (l : list A) (a : A) :
  existsb p l = true -> existsb p (l ++ [a]) = true.
Proof. intros H. rewrite existsb_app, H. reflexivity. Qed.

(** A row that resolved before some rows were dropped still resolves when
    the rows it points to are kept. *)
Lemma existsb_kept {A : Type} (p keep : A -> bool) (l : list A) :
  existsb p l = true ->
  (forall a, In a l -> p a = true -> keep a = true) ->
  existsb p (filter keep l) = true.
Proof.
  intros H Hk. apply existsb_exists in H. destruct H as (a & Hin & Hp).
  apply existsb_exists. exists a. split; [|assumption].
  apply filter_In. auto.
Qed.

Lemma in_ids_kept (keep : Enrollment.t -> bool) (l : list Enrollment.t)
      (k : Z) :
  In k (map Enrollment.id l) ->
  (forall e, In e l -> Enrollment.id e = k -> keep e = true) ->
  In k (map Enrollment.id (filter keep l)).
Proof.
  intros H Hk. apply in_map_iff in H. destruct H as (e & Hid & Hin).
  apply in_map_iff. exists e. split; [assumption|].
  apply filter_In. auto.
Qed.

Ltac split_consistent :=
  unfold consistent, references_resolve;
  refine (conj _ (conj _ (conj _ (conj _ (conj _ (conj _ (conj _ _))))))).

Lemma step_consistent (db db' : DB) :
  consistent db -> step db db' -> consistent db'.
Proof.
  intros (Hk & Hp & Hr & Hrk & Hc & Hx & He & Hg) Hstep.
  destruct Hstep as [|row Hid Hi|row Hid Hco|row Hid Hs Hco Hen
                     |instance row Hin Hid Hpair
                     |instance row Hin Hid Hs Hco Hfree
                     |instance Hin|row Hid Hen Hco Hnew
                     |row
                     |instance row Hin Hid Hi
                     |instance row Hin Hid Hco
                     |instance row Hin Hid Hen Hco Hfree
                     |keep
                     |keep Hkeep
                     |keep Hkeep
                     |keep Hkx Hke
                     |keep Hkc Hke];
    unfold course_exists, student_exists,
      StudentProgressViewSet.content_exists in *.
  - split_consistent; assumption.
  - split_consistent; try assumption; cbn.
    + intros c Hc'. apply in_app_or in Hc'. destruct Hc' as [Hc'|[<-|[]]]; auto.
    + intros x Hx'. apply existsb_more. now apply Hx.
    + intros e He'. split; [now apply He|].
      apply existsb_more. now apply He.
  - split_consistent; try assumption; cbn.
    + intros x Hx'. apply in_app_or in Hx'. destruct Hx' as [Hx'|[<-|[]]]; auto.
    + intros p Hp'. split; [now apply Hg|].
      apply existsb_more. now apply Hg.
  - split_consistent; try assumption; cbn.
    + now apply append_fresh_keys.
    + unfold unique_pairs. cbn. rewrite map_app. apply NoDup_snoc; [assumption|].
      intros Hin. apply in_map_iff in Hin. destruct Hin as (e & Hpe & Hin).
      apply (existsb_false_all _ _ e Hen) in Hin.
      unfold pair_of in Hpe. inversion Hpe as [[H1 H2]].
      now rewrite H1, H2, !Z.eqb_refl in Hin.
    + intros e He'. apply in_app_or in He'.
      destruct He' as [He'|[<-|[]]]; [now apply He|now split].
    + intros p Hp'. split; [|now apply Hg].
      rewrite map_app. apply in_or_app. left. now apply Hg.
  - unfold pair_of in Hpair. inversion Hpair as [[H1 H2]].
    split_consistent; try assumption.
    + unfold unique_keys. now rewrite save_keys.
    + apply saved_distinct; try assumption.
      intros e He' Hne. now apply same_pair_free with (l := enrollments db)
                                                      (instance := instance).
    + intros e He'. apply in_saved in He'. destruct He' as [->|He'];
        [|now apply He].
      rewrite H1, H2. now apply He.
    + intros p Hp'. rewrite save_keys. now apply Hg.
  - split_consistent; try assumption.
    + unfold unique_keys. now rewrite save_keys.
    + apply saved_distinct; try assumption.
      intros e He' Hne. now apply pair_free with (db := db) (instance := instance).
    + intros e He'. apply in_saved in He'. destruct He' as [->|He'];
        [|now apply He].
      split.
      * destruct Hs as [Hs|Hs]; [assumption|]. rewrite Hs. now apply He.
      * destruct Hco as [Hco|Hco]; [assumption|]. rewrite Hco. now apply He.
    + intros p Hp'. rewrite save_keys. now apply Hg.
  - split_consistent; try assumption; cbn.
    + now apply filter_keeps_unique_keys.
    + now apply filter_keeps_distinct.
    + now apply filter_keeps_distinct.
    + now apply filter_keeps_distinct.
    + intros e He'. apply filter_In in He'. now apply He.
    + intros p Hp'. apply filter_In in Hp'. destruct Hp' as [Hp' Hne].
      split; [|now apply Hg].
      destruct (Hg p Hp') as [Hin' _].
      apply in_map_iff in Hin'. destruct Hin' as (e & Hide & Hine).
      apply in_map_iff. exists e. split; [assumption|].
      apply filter_In. split; [assumption|]. now rewrite Hide.
  - split_consistent; try assumption; cbn.
    + unfold unique_records. cbn. rewrite map_app. now apply NoDup_snoc.
    + unfold unique_record_keys. cbn. rewrite map_app.
      apply NoDup_snoc; [assumption|].
      intros Hin. rewrite Hid in Hin. apply next_pk_fresh in Hin. lia.
    + intros p Hp'. apply in_app_or in Hp'.
      destruct Hp' as [Hp'|[<-|[]]]; [now apply Hg|now split].
  - split_consistent; try assumption; cbn.
    + intros c Hc'. apply existsb_more. now apply Hc.
    + intros e He'. split; [|now apply He].
      apply existsb_more. now apply He.
  - split_consistent; try assumption; cbn.
    + intros c Hc'. apply saved_rows in Hc'. destruct Hc' as [->|Hc'];
        [|now apply Hc].
      destruct Hi as [Hi|Hi]; [assumption|]. rewrite Hi. now apply Hc.
    + intros x Hx'. rewrite saved_resolves. now apply Hx.
    + intros e He'. split; [now apply He|].
      rewrite saved_resolves. now apply He.
  - split_consistent; try assumption; cbn.
    + intros x Hx'. apply saved_rows in Hx'. destruct Hx' as [->|Hx'];
        [|now apply Hx].
      destruct Hco as [Hco|Hco]; [assumption|]. rewrite Hco. now apply Hx.
    + intros p Hp'. split; [now apply Hg|].
      rewrite saved_resolves. now apply Hg.
  - split_consistent; try assumption; cbn.
    + now apply saved_distinct.
    + unfold unique_record_keys. cbn. now rewrite saved_ids.
    + intros p Hp'. apply saved_rows in Hp'. destruct Hp' as [->|Hp'];
        [|now apply Hg].
      split.
      * destruct Hen as [Hen|Hen]; [assumption|]. rewrite Hen. now apply Hg.
      * destruct Hco as [Hco|Hco]; [assumption|]. rewrite Hco. now apply Hg.
  - split_consistent; try assumption; cbn.
    + now apply filter_keeps_distinct.
    + now apply filter_keeps_distinct.
    + intros p Hp'. apply filter_In in Hp'. now apply Hg.
  - split_consistent; try assumption; cbn.
    + intros x Hx'. apply filter_In in Hx'. now apply Hx.
    + intros p Hp'. split; [now apply Hg|].
      apply existsb_kept; [now apply Hg|].
      intros x Hx' Hid. apply Z.eqb_eq in Hid. now apply (Hkeep p x).
  - split_consistent; try assumption; cbn.
    + now apply filter_keeps_unique_keys.
    + now apply filter_keeps_distinct.
    + intros e He'. apply filter_In in He'. now apply He.
    + intros p Hp'. split; [|now apply Hg].
      apply in_ids_kept; [now apply Hg|].
      intros e He' Hid. now apply (Hkeep p e).
  - split_consistent; try assumption; cbn.
    + intros c Hc'. apply filter_In in Hc'. now apply Hc.
    + intros x Hx'. apply existsb_kept; [now apply Hx|].
      intros c Hc' Hid. apply Z.eqb_eq in Hid. now apply (Hkx x c).
    + intros e He'. split; [now apply He|].
      apply existsb_kept; [now apply He|].
      intros c Hc' Hid. apply Z.eqb_eq in Hid. now apply (Hke e c).
  - split_consistent; try assumption; cbn.
    + intros c Hc'. apply existsb_kept; [now apply Hc|].
      intros u Hu Hid. apply andb_prop in Hid. destruct Hid as [Hid _].
      apply Z.eqb_eq in Hid. now apply (Hkc c u).
    + intros e He'. split; [|now apply He].
      apply existsb_kept; [now apply He|].
      intros u Hu Hid. apply andb_prop in Hid. destruct Hid as [Hid _].
      apply Z.eqb_eq in Hid. now apply (Hke e u).
Qed.

Lemma steps_consistent (db db' : DB) :
  consistent db -> steps db db' -> consistent db'.
Proof.
  intros H Hs. induction Hs as [|db db1 db2 Hstep _ IH]; [assumption|].
  apply IH. now apply step_consistent with (db := db).
Qed.

Lemma run_consistent (cfg : Config) (reqs : list (Z * request)) (db : DB) :
  consistent db -> consistent (run cfg db reqs).
Proof.
  revert db. induction reqs as [|[uid req] reqs IH]; intros db H; cbn.
  - assumption.
  - apply IH. apply steps_consistent with (db := db); [assumption|].
    apply handle_steps.
Qed.

Lemma reachable_consistent (db : DB) : reachable db -> consistent db.
Proof.
  intros (cfg & accts & reqs & ->). apply run_consistent.
  split_consistent;
    [constructor | constructor | constructor | constructor
     | intros ? [] | intros ? [] | intros ? [] | intros ? []].
Qed.

(** The hypothesis of unique keys in the statements above holds in every
    reachable store. *)
Lemma reachable_unique_keys (db : DB) : reachable db -> unique_keys db.
Proof. intros Hr. now destruct (reachable_consistent db Hr) as [H _]. Qed.

(** X1: in a store reachable through the routed requests two enrollments
    of the same student in the same course are the same row: creation and
    the generic update, the only writers of the pair, both go through the
    uniqueness validator, and deletions only take rows away. *)
Theorem reachable_one_enrollment_per_pair (db : DB) (e1 e2 : Enrollment.t) :
  reachable db ->
  In e1 (enrollments db) -> In e2 (enrollments db) ->
  Enrollment.student e1 = Enrollment.student e2 ->
  Enrollment.course e1 = Enrollment.course e2 ->
  e1 = e2.
Proof.
  intros Hr H1 H2 Hs Hc.
  destruct (reachable_consistent db Hr) as (_ & Hp & _).
  apply (NoDup_map_inj pair_of (enrollments db)); try assumption.
  unfold pair_of. now rewrite Hs, Hc.
Qed.

(** X2: in a reachable store two progress rows of the same enrollment for
    the same content item are the same row: the creation and the generic
    update of a progress row both go through the uniqueness validator. *)
Theorem reachable_one_record_per_pair (db : DB) (p1 p2 : StudentProgress.t) :
  reachable db ->
  In p1 (progress db) -> In p2 (progress db) ->
  StudentProgress.enrollment p1 = StudentProgress.enrollment p2 ->
  StudentProgress.content p1 = StudentProgress.content p2 ->
  p1 = p2.
Proof.
  intros Hr H1 H2 He Hc.
  destruct (reachable_consistent db Hr) as (_ & _ & Hp & _).
  apply (NoDup_map_inj record_of (progress db)); try assumption.
  unfold record_of. now rewrite He, Hc.
Qed.

(** X3: in a reachable store every foreign key resolves: a course has an
    admin account as instructor, a content item a course, an enrollment a
    student account and a course, and a progress row an enrollment and a
    content item; whatever is deleted, a user, a course, a content item
    or an enrollment, takes the rows that point to it along. *)
Theorem reachable_references_resolve (db : DB) :
  reachable db -> references_resolve db.
Proof.
  intros Hr. now destruct (reachable_consistent db Hr) as (_ & _ & _ & _ & H).
Qed.

Lemma reachable_one_enrollment_per_pair_witness :
  bobs_enrollment "approved" = bobs_enrollment "approved".
Proof.
  apply (reachable_one_enrollment_per_pair overshoot_db).
  - exists default_config, accounts, overshoot_run. reflexivity.
  - vm_compute. left. reflexivity.
  - vm_compute. left. reflexivity.
  - reflexivity.
  - reflexivity.
Defined.

Lemma reachable_one_record_per_pair_witness :
  StudentProgress.mk 1 1 1 true None = StudentProgress.mk 1 1 1 true None.
Proof.
  apply (reachable_one_record_per_pair overshoot_db).
  - exists default_config, accounts, overshoot_run. reflexivity.
  - vm_compute. left. reflexivity.
  - vm_compute. left. reflexivity.
  - reflexivity.
  - reflexivity.
Defined.

Lemma reachable_references_resolve_witness : references_resolve cascade_db.
Proof.
  apply reachable_references_resolve.
  exists default_config, accounts, cascade_run. reflexivity.
Defined.

(** ** The status [completed] (C9) *)

Lemma save_not_completed (pk : Z) (db : DB) (e' : Enrollment.t) :
  not_completed pk db ->
  (Enrollment.id e' = pk -> Enrollment.status e' <> "completed") ->
  not_completed pk (save_enrollment db e').
Proof.
  intros Hinv He' r Hr Hid. cbn in Hr. apply in_map_iff in Hr.
  destruct Hr as (r0 & Hf & Hr0).
  destruct (Enrollment.id r0 =? Enrollment.id e'); subst r.
  - now apply He'.
  - now apply Hinv.
Qed.

Lemma fewer_enrollments_not_completed (pk : Z) (db db' : DB) :
  (forall e, In e (enrollments db') -> In e (enrollments db)) ->
  not_completed pk db -> not_completed pk db'.
Proof. unfold not_completed. auto. Qed.

Lemma set_status_action_not_completed (s : string) (pk pk' : Z) (db : DB)
      (user : User.t) :
  s <> "completed" ->
  not_completed pk db ->
  not_completed pk (new_state db (EnrollmentViewSet.set_status_action s db user pk')).
Proof.
  intros Hs Hinv. unfold EnrollmentViewSet.set_status_action.
  destruct (EnrollmentViewSet.get_object db user pk') as [e|]; [|assumption].
  cbn [bind]. destruct (negb _); [assumption|]. cbn [new_state].
  apply save_not_completed; [assumption|]. intros _. exact Hs.
Qed.

Lemma update_progress_not_completed (pk pk' : Z) (db : DB) (user : User.t)
      (data : EnrollmentViewSet.ProgressData) :
  not_completed pk db ->
  not_completed pk (new_state db (EnrollmentViewSet.update_progress db user pk' data)).
Proof.
  intros Hinv.
  destruct (EnrollmentViewSet.get_object db user pk') as [e|err] eqn:Hg.
  - rewrite (update_progress_validation _ _ _ _ _ Hg). cbv zeta.
    destruct (get_object_in _ _ _ _ Hg) as [Hin Hid].
    repeat (destruct (_ : bool); [assumption|]). cbn [new_state].
    apply save_not_completed; [assumption|]. cbn. intros Hpk.
    apply Hinv; [assumption|]. exact Hpk.
  - unfold EnrollmentViewSet.update_progress. rewrite Hg. assumption.
Qed.

(** The status that the serializer stores is the one of the payload, or
    the one the row had. *)
Lemma stored_status (data : EnrollmentData) (old : string) :
  match d_status data with
  | Some s => String.eqb s "completed"
  | None => false
  end = false ->
  old <> "completed" ->
  or_default (d_status data) old <> "completed".
Proof.
  destruct (d_status data) as [s|]; cbn; [|auto].
  intros Hs _. now apply String.eqb_neq.
Qed.

Lemma update_not_completed (partial : bool) (pk pk' : Z) (db : DB)
      (user : User.t) (data : EnrollmentData) :
  names_completed (EnrollmentUpdate partial pk' data) = false ->
  not_completed pk db ->
  not_completed pk (new_state db (EnrollmentViewSet.update partial db user pk' data)).
Proof.
  intros Hst Hinv. unfold EnrollmentViewSet.update.
  destruct (EnrollmentViewSet.get_object db user pk') as [e|err] eqn:Hg;
    [|assumption].
  destruct (get_object_in _ _ _ _ Hg) as [Hin Hid].
  cbn [bind]. unfold is_valid.
  destruct (negb _); [assumption|].
  destruct (pair_taken _ _ _ _); [assumption|]. cbn [bind new_state].
  apply save_not_completed; [assumption|]. cbn. intros Hpk.
  apply stored_status; [exact Hst|]. now apply Hinv.
Qed.

Lemma create_not_completed (pk : Z) (db : DB) (user : User.t)
      (data : EnrollmentData) :
  names_completed (EnrollmentCreate data) = false ->
  not_completed pk db ->
  not_completed pk (new_state db (EnrollmentViewSet.create db user data)).
Proof.
  intros Hst Hinv. unfold EnrollmentViewSet.create.
  destruct (_ && negb (is_admin user)); [assumption|].
  unfold is_valid.
  destruct (negb _); [assumption|].
  destruct (pair_taken _ _ _ _); [assumption|]. cbn [bind].
  destruct (existsb _ _); [assumption|]. cbn [new_state].
  intros r Hr Hid. cbn in Hr. apply in_app_or in Hr.
  destruct Hr as [Hr|[<-|[]]].
  - now apply Hinv.
  - cbn. apply stored_status; [exact Hst|discriminate].
Qed.

Lemma other_tables_not_completed {A : Type} (pk : Z) (db : DB)
      (r : result (DB * A)) :
  (forall db' a, r = Ok (db', a) -> enrollments db' = enrollments db) ->
  not_completed pk db -> not_completed pk (new_state db r).
Proof.
  intros H Hinv. destruct r as [[db' a]|]; [|assumption].
  cbn. apply fewer_enrollments_not_completed with (db := db); [|assumption].
  now rewrite (H db' a).
Qed.

Lemma deletion_not_completed (pk : Z) (db : DB) (r : result DB) :
  (forall db' e, r = Ok db' -> In e (enrollments db') -> In e (enrollments db)) ->
  not_completed pk db -> not_completed pk (after_delete db r).
Proof.
  intros H Hinv. destruct r as [db'|]; [|assumption].
  cbn. apply fewer_enrollments_not_completed with (db := db); [|assumption].
  intros e. now apply H.
Qed.

(** A deletion leaves no enrollment that was not there. *)
Lemma delete_courses_enrollments (db : DB) (gone : Course.t -> bool)
      (e : Enrollment.t) :
  In e (enrollments (delete_courses db gone)) -> In e (enrollments db).
Proof. cbn. intros H. now apply filter_In in H. Qed.

Lemma delete_users_enrollments (db : DB) (gone : User.t -> bool)
      (e : Enrollment.t) :
  In e (enrollments (delete_users db gone)) -> In e (enrollments db).
Proof.
  cbn. intros H. apply filter_In in H. destruct H as [H _].
  now apply filter_In in H.
Qed.

Lemma serve_not_completed (pk : Z) (db : DB) (user : User.t) (req : request) :
  names_completed req = false ->
  not_completed pk db -> not_completed pk (serve db user req).
Proof.
  intros Hreq Hinv.
  destruct req as [data|ok|partial pk' ok|pk'
                   |data|partial pk' data|pk'
                   |data|partial pk' data|pk'
                   |data|partial pk' data|pk'|pk' data|pk'|pk'
                   |data|partial pk' data|pk'];
    cbn [serve].
  - assumption.
  - apply other_tables_not_completed; [|assumption].
    unfold UserViewSet.create. intros db' a.
    destruct (UserViewSet.check_permissions _ _); [|discriminate].
    cbn [bind]. destruct (negb ok); [discriminate|].
    intros H. apply insert_account_saved in H. now subst db'.
  - apply other_tables_not_completed; [|assumption].
    unfold UserViewSet.update. intros db' a.
    destruct (UserViewSet.get_object _ _ _ _); [|discriminate].
    cbn [bind]. destruct (negb ok); [discriminate|].
    intros H. now inversion H.
  - apply deletion_not_completed; [|assumption].
    unfold UserViewSet.destroy. intros db' e.
    destruct (UserViewSet.get_object _ _ _ _); [|discriminate].
    cbn [bind]. intros H. inversion H. apply delete_users_enrollments.
  - apply other_tables_not_completed; [|assumption].
    unfold CourseViewSet.create. intros db' a.
    destruct (negb _); [discriminate|].
    destruct (CourseViewSet.d_instructor data); [|discriminate].
    destruct (existsb _ _); [|discriminate].
    intros H. now inversion H.
  - apply other_tables_not_completed; [|assumption].
    unfold CourseViewSet_update. intros db' a.
    destruct (CourseViewSet_get_object _ _ _ _); [|discriminate].
    cbn [bind]. destruct (negb _); [discriminate|].
    intros H. now inversion H.
  - apply deletion_not_completed; [|assumption].
    unfold CourseViewSet_destroy. intros db' e.
    destruct (CourseViewSet_get_object _ _ _ _); [|discriminate].
    cbn [bind]. intros H. inversion H. apply delete_courses_enrollments.
  - apply other_tables_not_completed; [|assumption].
    unfold CourseContentViewSet.create. intros db' a.
    destruct (CourseContentViewSet.d_course data); [|discriminate].
    destruct (_ && _); [|discriminate].
    intros H. now inversion H.
  - apply other_tables_not_completed; [|assumption].
    unfold CourseContentViewSet_update. intros db' a.
    destruct (CourseContentViewSet_get_object _ _ _); [|discriminate].
    cbn [bind]. destruct (negb _); [discriminate|].
    intros H. now inversion H.
  - apply deletion_not_completed; [|assumption].
    unfold CourseContentViewSet_destroy. intros db' e.
    destruct (CourseContentViewSet_get_object _ _ _); [|discriminate].
    cbn [bind]. intros H. now inversion H.
  - now apply create_not_completed.
  - now apply update_not_completed.
  - apply deletion_not_completed; [|assumption].
    unfold EnrollmentViewSet.destroy. intros db' e.
    destruct (EnrollmentViewSet.get_object db user pk'); [|discriminate].
    cbn [bind]. intros H. inversion H. cbn. intros He.
    now apply filter_In in He.
  - now apply update_progress_not_completed.
  - apply set_status_action_not_completed; [discriminate|assumption].
  - apply set_status_action_not_completed; [discriminate|assumption].
  - apply other_tables_not_completed; [|assumption].
    unfold StudentProgressViewSet.create, StudentProgressViewSet.super_create.
    intros db' a.
    destruct (get_enrollment _ _); [|discriminate].
    destruct (negb _); [discriminate|].
    destruct (StudentProgressViewSet.progress_exists _ _ _); [discriminate|].
    destruct (StudentProgressViewSet.is_valid db data); [|discriminate].
    cbn [bind]. intros H. now inversion H.
  - apply other_tables_not_completed; [|assumption].
    unfold StudentProgressViewSet_update. intros db' a.
    destruct (StudentProgressViewSet_get_object _ _ _); [|discriminate].
    cbn [bind]. destruct (negb _); [discriminate|].
    destruct (existsb _ _); [discriminate|].
    intros H. now inversion H.
  - apply deletion_not_completed; [|assumption].
    unfold StudentProgressViewSet_destroy. intros db' e.
    destruct (StudentProgressViewSet_get_object _ _ _); [|discriminate].
    cbn [bind]. intros H. now inversion H.
Qed.

Lemma handle_not_completed (cfg : Config) (pk : Z) (db : DB) (uid : Z)
      (req : request) :
  names_completed req = false ->
  not_completed pk db -> not_completed pk (handle cfg db uid req).
Proof.
  intros Hreq Hinv.
  assert (Hs : not_completed pk match authenticate db uid with
                                | Some user => serve db user req
                                | None => db
                                end)
    by (destruct (authenticate db uid);
        [now apply serve_not_completed|assumption]).
  destruct req; try exact Hs.
  cbn [handle]. apply other_tables_not_completed; [|assumption].
  intros db' u H. apply register_saved in H. now subst db'.
Qed.

Lemma run_not_completed (cfg : Config) (pk : Z) (reqs : list (Z * request)) :
  Forall (fun r => names_completed (snd r) = false) reqs ->
  forall db, not_completed pk db -> not_completed pk (run cfg db reqs).
Proof.
  induction 1 as [|[uid req] reqs Hreq _ IH]; intros db Hinv; cbn.
  - assumption.
  - apply IH. now apply handle_not_completed.
Qed.

Lemma requestEnrollment_not_completed (db db' : DB) (user : User.t) (s c : Z)
      (row : Enrollment.t) :
  requestEnrollment db user s c = Ok (db', row) ->
  not_completed (Enrollment.id row) db'.
Proof.
  intros H.
  destruct (requestEnrollment_ok _ _ _ _ _ _ H) as (_ & _ & _ & _ & -> & ->).
  intros e He Hid. unfold set_enrollments, pending_row in He, Hid.
  cbn [enrollments Enrollment.id] in He, Hid. apply in_app_or in He.
  destruct He as [He|[<-|[]]].
  - exfalso. apply (in_map Enrollment.id) in He.
    apply next_pk_fresh in He. lia.
  - cbn. discriminate.
Qed.

(** C9 (as amended): through the routed requests other than a creation or
    an update of an enrollment whose payload names the status
    [completed], an enrollment that is not completed never becomes
    completed: not by [requestEnrollment], approve, reject,
    [update_progress] or a deletion, nor by a creation or an update that
    names another status or none, nor by a request to another view set; in
    particular an enrollment made by [requestEnrollment], which starts as
    [pending], is never completed by any run of such requests.  So a
    request that completes an enrollment is a creation or an update whose
    payload names the status [completed], which [EnrollmentSerializer]
    takes and stores. *)
Theorem completed_never_reached :
  (forall cfg pk reqs db,
     Forall (fun r => names_completed (snd r) = false) reqs ->
     not_completed pk db -> not_completed pk (run cfg db reqs))
  /\ (forall cfg db user s c db' row reqs,
        requestEnrollment db user s c = Ok (db', row) ->
        Forall (fun r => names_completed (snd r) = false) reqs ->
        Enrollment.status row = "pending"
        /\ forall e, In e (enrollments (run cfg db' reqs)) ->
                     Enrollment.id e = Enrollment.id row ->
                     Enrollment.status e <> "completed")
  /\ (forall cfg pk db uid req,
        not_completed pk db ->
        ~ not_completed pk (handle cfg db uid req) ->
        exists data,
          (req = EnrollmentCreate data
           \/ exists partial key, req = EnrollmentUpdate partial key data)
          /\ d_status data = Some "completed").
Proof.
  split; [|split].
  - intros cfg pk reqs db Hreqs. now apply run_not_completed.
  - intros cfg db user s c db' row reqs Hr Hreqs. split.
    + destruct (requestEnrollment_ok _ _ _ _ _ _ Hr) as (_ & _ & _ & _ & -> & _).
      reflexivity.
    + apply run_not_completed; [assumption|].
      now apply requestEnrollment_not_completed with (db := db) (user := user)
                                                      (s := s) (c := c).
  - intros cfg pk db uid req Hinv Hnot.
    destruct (names_completed req) eqn:Hn.
    + destruct req; try discriminate Hn; cbn in Hn;
        destruct (d_status data) as [st|] eqn:Hst; try discriminate Hn;
        apply String.eqb_eq in Hn; subst st; exists data; eauto.
    + exfalso. apply Hnot. now apply handle_not_completed.
Qed.

Lemma completed_never_reached_witness :
  Enrollment.status (bobs_enrollment "pending") = "pending"
  /\ forall e, In e (enrollments (run default_config (campus "pending")
                                      lifecycle_run)) ->
               Enrollment.id e = Enrollment.id (bobs_enrollment "pending") ->
               Enrollment.status e <> "completed".
Proof.
  destruct completed_never_reached as (_ & H & _).
  apply (H default_config open_campus bob 2 1 (campus "pending")
           (bobs_enrollment "pending") lifecycle_run).
  - reflexivity.
  - repeat constructor.
Defined.

(** C9 as stated fails: the routed update of the view set is an exposed
    operation, the serializer takes a [status] field, and Bob's PATCH with
    [status = 'completed'] turns his pending enrollment into a completed
    one. *)
Lemma completed_by_partial_update :
  ~ (forall cfg db reqs e,
       In e (enrollments db) ->
       Enrollment.status e = "pending" ->
       forall e', In e' (enrollments (run cfg db reqs)) ->
                  Enrollment.id e' = Enrollment.id e ->
                  Enrollment.status e' <> "completed").
Proof.
  intros H.
  apply (H default_config (campus "pending")
           [(2, EnrollmentUpdate true 1
                  (mkEnrollmentData None None (Some "completed") None None))]
           (bobs_enrollment "pending") (or_introl eq_refl) eq_refl
           (bobs_enrollment "completed")).
  - vm_compute. left. reflexivity.
  - reflexivity.
  - reflexivity.
Qed.

(** ** What a student sees of the content (CourseContentViewSet.get_queryset) *)

Lemma at_most_one_of_pair (l : list Enrollment.t) (s c : Z)
      (q : Enrollment.t -> bool) :
  NoDup (map pair_of l) ->
  let matches := fun e => (Enrollment.course e =? c)
                          && (Enrollment.student e =? s) && q e in
  filter matches l = [] \/ exists e, filter matches l = [e].
Proof.
  cbv zeta. induction l as [|a l IH]; cbn; intros Hnd; [now left|].
  apply NoDup_cons_iff in Hnd. destruct Hnd as [Ha Hnd].
  destruct ((Enrollment.course a =? c) && (Enrollment.student a =? s) && q a)
    eqn:Hm; [|now apply IH].
  right. exists a. f_equal. apply filter_nil_existsb.
  destruct (existsb _ l) eqn:Hex; [|reflexivity].
  exfalso. apply Ha. apply existsb_exists in Hex. destruct Hex as (e & Hin & He).
  apply in_map_iff. exists e. split; [|assumption].
  apply andb_prop in Hm, He. destruct Hm as [Hm _], He as [He _].
  apply andb_prop in Hm, He. destruct Hm as [Hc Hs], He as [Hc' Hs'].
  apply Z.eqb_eq in Hc, Hs, Hc', Hs'. unfold pair_of. congruence.
Qed.

Lemma flat_map_at_most_self {A : Type} (g : A -> list A) (l : list A) :
  NoDup l ->
  (forall a, g a = [] \/ g a = [a]) ->
  NoDup (flat_map g l).
Proof.
  intros Hnd Hg. induction l as [|a l IH]; cbn; [constructor|].
  apply NoDup_cons_iff in Hnd. destruct Hnd as [Ha Hnd].
  destruct (Hg a) as [->| ->]; cbn; [now apply IH|].
  constructor; [|now apply IH].
  intros Hin. apply in_flat_map in Hin. destruct Hin as (x & Hx & Hin).
  destruct (Hg x) as [Hgx|Hgx]; rewrite Hgx in Hin; [contradiction|].
  destruct Hin as [->|[]]. contradiction.
Qed.

Lemma insert_by_order_perm (c : CourseContent.t) (l : list CourseContent.t) :
  Permutation (insert_by_order c l) (c :: l).
Proof.
  induction l as [|a l IH]; cbn; [reflexivity|].
  destruct (CourseContent.order c <=? CourseContent.order a); [reflexivity|].
  rewrite IH. apply perm_swap.
Qed.

Lemma order_by_order_perm (l : list CourseContent.t) :
  Permutation (order_by_order l) l.
Proof.
  induction l as [|a l IH]; cbn; [reflexivity|].
  rewrite insert_by_order_perm. now constructor.
Qed.

Lemma insert_by_order_ascending (c : CourseContent.t)
      (l : list CourseContent.t) :
  ascending l -> ascending (insert_by_order c l).
Proof.
  induction l as [|a l IH]; cbn; [tauto|].
  intros [Ha Hl].
  destruct (CourseContent.order c <=? CourseContent.order a) eqn:Hc; cbn.
  - apply Z.leb_le in Hc. repeat split; try assumption.
    intros y [<-|Hy]; [assumption|]. specialize (Ha y Hy). lia.
  - apply Z.leb_gt in Hc. split; [|now apply IH].
    intros y Hy. apply insert_by_order_in in Hy.
    destruct Hy as [->|Hy]; [lia|now apply Ha].
Qed.

Lemma order_by_order_ascending (l : list CourseContent.t) :
  ascending (order_by_order l).
Proof.
  induction l as [|a l IH]; cbn; [exact I|].
  now apply insert_by_order_ascending.
Qed.

Lemma filter_ascending (keep : CourseContent.t -> bool)
      (l : list CourseContent.t) :
  ascending l -> ascending (filter keep l).
Proof.
  induction l as [|a l IH]; cbn; [tauto|]. intros [Ha Hl].
  destruct (keep a); cbn; [|now apply IH].
  split; [|now apply IH].
  intros y Hy. apply filter_In in Hy. now apply Ha.
Qed.

(** Repeating rows in place keeps the order. *)
Lemma repeated_ascending {A : Type} (g : CourseContent.t -> list A)
      (l : list CourseContent.t) :
  ascending l ->
  ascending (flat_map (fun c => map (fun _ => c) (g c)) l).
Proof.
  induction l as [|a l IH]; cbn; [tauto|]. intros [Ha Hl].
  specialize (IH Hl).
  assert (Hrest : forall y, In y (flat_map (fun c => map (fun _ => c) (g c)) l) ->
                            CourseContent.order a <= CourseContent.order y).
  { intros y Hy. apply in_flat_map in Hy. destruct Hy as (x & Hx & Hy).
    apply in_map_iff in Hy. destruct Hy as (_ & <- & _). now apply Ha. }
  induction (g a) as [|copy copies IHc]; cbn; [assumption|].
  split; [|assumption].
  intros y Hy. apply in_app_or in Hy. destruct Hy as [Hy|Hy]; [|now apply Hrest].
  apply in_map_iff in Hy. destruct Hy as (_ & <- & _). lia.
Qed.

(** X4: every user gets the content items by ascending [order]; an admin
    gets every item on file, each as often as it is there; any other user,
    also one who is the instructor of the course, since the instructor
    branch repeats the admin test and is never taken, gets exactly the
    active items of the courses in which the user holds an approved
    enrollment, and each of them once when no (student, course) pair is
    enrolled twice. *)
Theorem content_queryset_visibility (db : DB) (user : User.t) :
  ascending (CourseContentViewSet_get_queryset db user)
  /\ (is_admin user = true ->
      Permutation (CourseContentViewSet_get_queryset db user) (contents db))
  /\ (is_admin user = false ->
      forall c,
        In c (CourseContentViewSet_get_queryset db user) <->
        In c (contents db)
        /\ CourseContent.is_active c = true
        /\ exists e, In e (enrollments db)
                     /\ Enrollment.course e = CourseContent.course c
                     /\ Enrollment.student e = User.id user
                     /\ Enrollment.status e = "approved")
  /\ (is_admin user = false ->
      NoDup (contents db) -> unique_pairs db ->
      NoDup (CourseContentViewSet_get_queryset db user)).
Proof.
  unfold CourseContentViewSet_get_queryset. split; [|split; [|split]].
  - destruct (is_admin user); [apply order_by_order_ascending|].
    apply repeated_ascending, filter_ascending, order_by_order_ascending.
  - intros ->. apply order_by_order_perm.
  - intros Ha c. rewrite Ha, in_flat_map. split.
    + intros (x & Hx & Hin). apply filter_In in Hx. destruct Hx as [Hx Hact].
      rewrite order_by_order_in in Hx.
      apply in_map_iff in Hin. destruct Hin as (e & <- & He).
      apply filter_In in He. destruct He as [He Hm].
      apply andb_prop in Hm. destruct Hm as [Hm Hst].
      apply andb_prop in Hm. destruct Hm as [Hc Hs].
      apply Z.eqb_eq in Hc, Hs. apply String.eqb_eq in Hst.
      repeat split; try assumption. exists e. auto.
    + intros (Hin & Hact & e & He & Hc & Hs & Hst).
      exists c. split; [apply filter_In; split; [|assumption];
                        now apply order_by_order_in|].
      apply in_map_iff. exists e. split; [reflexivity|].
      apply filter_In. split; [assumption|].
      now rewrite Hc, Hs, Hst, !Z.eqb_refl, String.eqb_refl.
  - intros Ha Hnd Hp. rewrite Ha.
    apply flat_map_at_most_self.
    + apply NoDup_filter.
      apply (Permutation_NoDup (Permutation_sym (order_by_order_perm _)) Hnd).
    + intros c.
      destruct (at_most_one_of_pair (enrollments db) (User.id user)
                  (CourseContent.course c)
                  (fun e => String.eqb (Enrollment.status e) "approved") Hp)
        as [-> | [e ->]]; [now left|now right].
Qed.

Lemma content_queryset_visibility_witness :
  In (CourseContent.mk 1 1 0 true)
     (CourseContentViewSet_get_queryset (campus "approved") bob).
Proof.
  destruct (content_queryset_visibility (campus "approved") bob)
    as (_ & _ & H & _).
  apply (H eq_refl). split; [now left|]. split; [reflexivity|].
  exists (bobs_enrollment "approved"). repeat split. now left.
Defined.

(** ** Progress rows and the status of their enrollment *)

Lemma set_status_action_ok (s : string) (db db' : DB) (user : User.t) (pk : Z)
      (e' : Enrollment.t) :
  EnrollmentViewSet.set_status_action s db user pk = Ok (db', e') ->
  exists e,
    EnrollmentViewSet.get_object db user pk = Ok e
    /\ e' = EnrollmentViewSet.set_status e s
    /\ db' = save_enrollment db e'.
Proof.
  unfold EnrollmentViewSet.set_status_action.
  destruct (EnrollmentViewSet.get_object db user pk) as [e|]; [|discriminate].
  cbn [bind]. destruct (negb _); [discriminate|].
  intros H. inversion H; subst. now exists e.
Qed.

Lemma get_saved (db : DB) (e e' : Enrollment.t) :
  unique_keys db -> In e (enrollments db) ->
  Enrollment.id e' = Enrollment.id e ->
  get_enrollment (save_enrollment db e') (Some (Enrollment.id e)) = Some e'.
Proof.
  intros Hk Hin Hid.
  cbn [get_enrollment save_enrollment set_enrollments enrollments].
  apply find_save; [assumption|]. now apply find_unique.
Qed.

(** X5: the progress rows that a user who is no admin can list follow the
    status of their enrollment: once the enrollment is rejected none of
    its rows is listed to anybody but an admin, although every row is
    still stored; once it is approved all of them are listed to its
    student. *)
Theorem progress_visibility_follows_status (db db' : DB) (user : User.t)
        (pk : Z) (e' : Enrollment.t) :
  unique_keys db ->
  (EnrollmentViewSet.reject db user pk = Ok (db', e') ->
   progress db' = progress db
   /\ forall viewer p,
        is_admin viewer = false ->
        In p (StudentProgressViewSet_get_queryset db' viewer) ->
        StudentProgress.enrollment p <> pk)
  /\ (EnrollmentViewSet.approve db user pk = Ok (db', e') ->
      progress db' = progress db
      /\ forall viewer p,
           is_admin viewer = false ->
           User.id viewer = Enrollment.student e' ->
           In p (progress db) ->
           StudentProgress.enrollment p = pk ->
           In p (StudentProgressViewSet_get_queryset db' viewer)).
Proof.
  intros Hk. unfold EnrollmentViewSet.reject, EnrollmentViewSet.approve.
  split; intros H; apply set_status_action_ok in H;
    destruct H as (e & Hg & -> & ->);
    destruct (get_object_in _ _ _ _ Hg) as [Hin Hid]; subst pk;
    (split; [reflexivity|]); intros viewer p Ha.
  - unfold StudentProgressViewSet_get_queryset. rewrite Ha.
    intros Hp Heq. apply filter_In in Hp. destruct Hp as [_ Hp].
    rewrite Heq, get_saved in Hp by (assumption || reflexivity).
    cbn in Hp. now rewrite andb_false_r in Hp.
  - intros Hv Hp Heq.
    unfold StudentProgressViewSet_get_queryset. rewrite Ha.
    apply filter_In. split; [assumption|].
    rewrite Heq, get_saved by (assumption || reflexivity).
    cbn in *. now rewrite Hv, Z.eqb_refl.
Qed.

Lemma progress_visibility_follows_status_witness :
  In (StudentProgress.mk 1 1 1 true None)
     (StudentProgressViewSet_get_queryset (campus_with_record "approved") bob).
Proof.
  assert (Hk : unique_keys (campus_with_record "rejected"))
    by (repeat constructor; intros []).
  destruct (progress_visibility_follows_status (campus_with_record "rejected")
              (campus_with_record "approved")
              alice 1 (bobs_enrollment "approved") Hk) as [_ H].
  destruct (H eq_refl) as [_ H'].
  apply H'; try reflexivity. now left.
Defined.

(** ** User records (UserViewSet) *)

(** X6: through the user endpoints a user who is no admin never gets a
    user record: listing is answered [Forbidden], a detail request for the
    user's own record is answered [Forbidden] too (a user object has none
    of the attributes that [IsOwnerOrAdmin] probes), and one for another
    key [NotFound]; an admin gets the record of every key on file; a
    detail request without credentials ends in a server error. *)
Theorem user_records_for_admins_only (db : DB) (a : UserViewSet.action) (pk : Z) :
  UserViewSet.owner_or_admin_action a = true ->
  (forall u, is_admin u = false ->
             UserViewSet.list_users db (Some u) = Err Forbidden
             /\ (forall r, UserViewSet.get_object a db (Some u) pk <> Ok r)
             /\ (In (User.id u) (map User.id (users db)) ->
                 UserViewSet.get_object a db (Some u) (User.id u) = Err Forbidden)
             /\ (pk <> User.id u ->
                 UserViewSet.get_object a db (Some u) pk = Err NotFound))
  /\ (forall u r, is_admin u = true ->
                  find (fun x => User.id x =? pk) (users db) = Some r ->
                  UserViewSet.get_object a db (Some u) pk = Ok r)
  /\ UserViewSet.get_object a db None pk = Err ServerError.
Proof.
  intros Hact. split; [|split].
  - intros u Ha.
    assert (Hobj : forall r, Permissions.IsOwnerOrAdmin db u (Permissions.UserObj r)
                             = false)
      by (intros r; unfold Permissions.IsOwnerOrAdmin; now rewrite Ha).
    unfold UserViewSet.list_users, UserViewSet.get_object,
      UserViewSet.check_permissions, UserViewSet.get_queryset,
      Permissions.IsAdmin.
    rewrite Hact. cbn [UserViewSet.owner_or_admin_action bind].
    unfold is_admin in Ha. rewrite Ha. fold (is_admin u).
    assert (Ha' : is_admin u = false) by exact Ha. rewrite Ha'. cbn [bind].
    split; [reflexivity|]. split; [|split].
    + intros r. destruct (find _ _) as [obj|]; [|discriminate].
      rewrite Hobj. discriminate.
    + intros Hin. apply in_map_iff in Hin. destruct Hin as (x & Hx & Hin).
      destruct (find (fun r => User.id r =? User.id u)
                     (filter (fun r => User.id r =? User.id u) (users db)))
        as [obj|] eqn:Hf.
      * now rewrite Hobj.
      * apply find_none with (x := x) in Hf.
        -- now rewrite Hx, Z.eqb_refl in Hf.
        -- apply filter_In. split; [assumption|]. now rewrite Hx, Z.eqb_refl.
    + intros Hne. rewrite find_none_all; [reflexivity|].
      intros r Hr. apply filter_In in Hr. destruct Hr as [_ Hr].
      apply Z.eqb_eq in Hr. apply Z.eqb_neq. congruence.
  - intros u r Ha Hf.
    unfold UserViewSet.get_object, UserViewSet.check_permissions,
      UserViewSet.get_queryset, Permissions.IsOwnerOrAdmin.
    rewrite Hact, Ha. cbn [bind]. now rewrite Hf.
  - unfold UserViewSet.get_object, UserViewSet.check_permissions.
    now rewrite Hact.
Qed.

Lemma user_records_for_admins_only_witness :
  UserViewSet.get_object UserViewSet.act_retrieve (campus "approved")
                         (Some bob) 2 = Err Forbidden
  /\ UserViewSet.get_object UserViewSet.act_retrieve (campus "approved")
                            (Some alice) 2 = Ok bob.
Proof.
  destruct (user_records_for_admins_only (campus "approved")
              UserViewSet.act_retrieve 2 eq_refl) as (Hs & Ha & _).
  split.
  - destruct (Hs bob eq_refl) as (_ & _ & H & _). apply H.
    right. left. reflexivity.
  - apply Ha; reflexivity.
Defined.

(** ** The enrollments of a course (CourseViewSet.enrollments) *)

(** X7: the enrollment list of a course on file is given to every caller,
    with or without credentials and whatever the role, and holds every
    enrollment of the course, also those of other students, which the
    caller's own enrollment queryset leaves out; for a key that is no
    course the answer is [NotFound]. *)
Theorem course_enrollments_open (db : DB) (user : option User.t) (pk : Z) :
  (course_exists db pk = true ->
   exists l,
     CourseViewSet_enrollments db user pk = Ok l
     /\ l = filter (fun e => Enrollment.course e =? pk) (enrollments db)
     /\ forall u, user = Some u ->
                  forall e, In e (EnrollmentViewSet.get_queryset db u) ->
                            Enrollment.course e = pk -> In e l)
  /\ (course_exists db pk = false ->
      CourseViewSet_enrollments db user pk = Err NotFound).
Proof.
  unfold CourseViewSet_enrollments, course_exists. cbn [negb]. split.
  - intros Hc.
    destruct (find (fun c => Course.id c =? pk) (courses db)) as [c|] eqn:Hf.
    + apply find_some in Hf. destruct Hf as [_ Hid]. apply Z.eqb_eq in Hid.
      rewrite Hid. eexists. split; [reflexivity|]. split; [reflexivity|].
      intros u _ e He Hco. apply filter_In. split; [|now apply Z.eqb_eq].
      unfold EnrollmentViewSet.get_queryset in He.
      destruct (is_admin u); [assumption|]. now apply filter_In in He.
    + apply existsb_exists in Hc. destruct Hc as (c & Hin & Hc).
      apply find_none with (x := c) in Hf; [congruence|assumption].
  - intros Hc. rewrite find_none_all; [reflexivity|].
    intros c Hin. now apply (existsb_false_all _ _ c Hc).
Qed.

Lemma course_enrollments_open_witness :
  exists l,
    CourseViewSet_enrollments (campus "pending") (Some carol) 1 = Ok l
    /\ In (bobs_enrollment "pending") l
    /\ ~ In (bobs_enrollment "pending")
            (EnrollmentViewSet.get_queryset (campus "pending") carol).
Proof.
  destruct (course_enrollments_open (campus "pending") (Some carol) 1) as [H _].
  destruct (H eq_refl) as (l & Hl & -> & _).
  exists (filter (fun e => Enrollment.course e =? 1)
                 (enrollments (campus "pending"))).
  split; [assumption|]. split; [now left|]. intros [].
Defined.

(** ** Reading one's enrollments and progress *)

(** X8: [student_enrollments] gives a user who is no admin the user's own
    enrollments, whatever [student_id] says, each with exactly the
    progress rows of that enrollment; an admin who names a student gets
    that student's enrollments. *)
Theorem student_enrollments_scope (db : DB) (user : User.t)
        (student_id : option Z) :
  (is_admin user = false ->
   EnrollmentViewSet_student_enrollments db user student_id
   = EnrollmentViewSet_student_enrollments db user None)
  /\ (forall e rows,
        In (e, rows) (EnrollmentViewSet_student_enrollments db user student_id) ->
        In e (enrollments db)
        /\ Enrollment.student e
           = match student_id with
             | Some s => if is_admin user then s else User.id user
             | None => User.id user
             end
        /\ forall p, In p rows <->
                     In p (progress db)
                     /\ StudentProgress.enrollment p = Enrollment.id e)
  /\ (forall e, In e (enrollments db) ->
                Enrollment.student e
                = match student_id with
                  | Some s => if is_admin user then s else User.id user
                  | None => User.id user
                  end ->
                In (with_progress db e)
                   (EnrollmentViewSet_student_enrollments db user student_id)).
Proof.
  unfold EnrollmentViewSet_student_enrollments. split; [|split].
  - intros Ha. destruct student_id; [now rewrite Ha|reflexivity].
  - intros e rows Hin. apply in_map_iff in Hin.
    destruct Hin as (e0 & Hw & Hin). unfold with_progress in Hw.
    inversion Hw; subst e0 rows; clear Hw.
    assert (Hrows : forall p,
               In p (filter (fun p => StudentProgress.enrollment p
                                      =? Enrollment.id e) (progress db)) <->
               In p (progress db)
               /\ StudentProgress.enrollment p = Enrollment.id e)
      by (intros p; now rewrite filter_In, Z.eqb_eq).
    destruct student_id as [s|]; [destruct (is_admin user)|];
      apply filter_In in Hin; destruct Hin as [Hin Hs];
      apply Z.eqb_eq in Hs; auto.
  - intros e Hin Hs. apply in_map.
    destruct student_id as [s|]; [destruct (is_admin user)|];
      apply filter_In; (split; [assumption|now apply Z.eqb_eq]).
Qed.

Lemma student_enrollments_scope_witness :
  EnrollmentViewSet_student_enrollments (campus "approved") carol (Some 2)
  = EnrollmentViewSet_student_enrollments (campus "approved") carol None.
Proof.
  destruct (student_enrollments_scope (campus "approved") carol (Some 2))
    as [H _].
  apply H. reflexivity.
Defined.

(** X9: a user who is no admin cannot read the course progress of another
    student: [student_id] is ignored, and every row of the answer belongs
    to an enrollment of the caller in the course asked for. *)
Theorem course_progress_own_only (db : DB) (user : User.t) (course_id : Z)
        (student_id : option Z) :
  is_admin user = false ->
  StudentProgressViewSet.course_progress db user (Some course_id) student_id
  = StudentProgressViewSet.course_progress db user (Some course_id) None
  /\ forall r p,
       StudentProgressViewSet.course_progress db user (Some course_id) student_id
       = Ok r ->
       In p (StudentProgressViewSet.detailed_progress r) ->
       In p (progress db)
       /\ exists e, In e (enrollments db)
                    /\ Enrollment.id e = StudentProgress.enrollment p
                    /\ Enrollment.student e = User.id user
                    /\ Enrollment.course e = course_id.
Proof.
  intros Ha.
  assert (Hres : StudentProgressViewSet.resolve db user course_id student_id
                 = StudentProgressViewSet.resolve db user course_id None).
  { unfold StudentProgressViewSet.resolve.
    destruct student_id; [now rewrite Ha|reflexivity]. }
  unfold StudentProgressViewSet.course_progress. rewrite Hres.
  split; [reflexivity|]. intros r p.
  destruct (StudentProgressViewSet.resolve db user course_id None)
    as [|e rest] eqn:Hr; [discriminate|].
  rewrite percentage_total. cbn [bind]. intros H Hp.
  inversion H; subst r; clear H. cbn in Hp.
  apply filter_In in Hp. destruct Hp as [Hp He]. apply Z.eqb_eq in He.
  split; [assumption|]. exists e.
  assert (Hin : In e (StudentProgressViewSet.resolve db user course_id None))
    by (rewrite Hr; now left).
  unfold StudentProgressViewSet.resolve in Hin. apply filter_In in Hin.
  destruct Hin as [Hin Hm]. apply andb_prop in Hm. destruct Hm as [Hc Hs].
  apply Z.eqb_eq in Hc, Hs. auto.
Qed.

Lemma course_progress_own_only_witness :
  StudentProgressViewSet.course_progress (campus "approved") carol (Some 1)
    (Some 2)
  = StudentProgressViewSet.course_progress (campus "approved") carol (Some 1)
      None.
Proof.
  destruct (course_progress_own_only (campus "approved") carol 1 (Some 2)
              eq_refl) as [H _].
  exact H.
Defined.

(** X10: creating a progress row asks nothing about the caller: any
    authenticated user can add a row to the approved enrollment of
    another student; the row is then listed to that student and not to
    its maker. *)
Theorem progress_created_by_anyone (db : DB) (maker owner : User.t)
        (e : Enrollment.t) (c : Z)
        (data : StudentProgressViewSet.ProgressData) :
  unique_keys db ->
  In e (enrollments db) ->
  Enrollment.status e = "approved" ->
  StudentProgressViewSet.d_enrollment data = Some (Enrollment.id e) ->
  StudentProgressViewSet.d_content data = Some c ->
  StudentProgressViewSet.progress_exists db (Enrollment.id e) (Some c) = false ->
  StudentProgressViewSet.content_exists db c = true ->
  opt_ok valid_percent (StudentProgressViewSet.d_score data) = true ->
  is_admin maker = false -> is_admin owner = false ->
  User.id owner = Enrollment.student e ->
  User.id maker <> Enrollment.student e ->
  exists db' row,
    StudentProgressViewSet.create db maker data = Ok (db', row)
    /\ In row (progress db')
    /\ StudentProgress.enrollment row = Enrollment.id e
    /\ In row (StudentProgressViewSet_get_queryset db' owner)
    /\ ~ In row (StudentProgressViewSet_get_queryset db' maker).
Proof.
  intros Hk Hin Hst Hde Hdc Hp Hc Hv Hm Ho Hown Hmk.
  assert (Hg : get_enrollment db (StudentProgressViewSet.d_enrollment data)
               = Some e)
    by (rewrite Hde; cbn; now apply find_unique).
  eexists. eexists. split.
  - apply create_created with (e := e) (c := c); assumption.
  - assert (Hg' : forall l, get_enrollment (set_progress db l)
                              (Some (Enrollment.id e)) = Some e)
      by (intros l; cbn; now apply find_unique).
    unfold StudentProgressViewSet_get_queryset. rewrite Hm, Ho.
    cbn [progress set_progress].
    split; [apply in_or_app; right; now left|]. split; [reflexivity|]. split.
    + apply filter_In. split; [apply in_or_app; right; now left|].
      cbn [StudentProgress.enrollment]. rewrite Hg'.
      now rewrite Hown, Hst, Z.eqb_refl.
    + intros Hf. apply filter_In in Hf. destruct Hf as [_ Hf].
      cbn [StudentProgress.enrollment] in Hf. rewrite Hg' in Hf.
      apply andb_prop in Hf. destruct Hf as [Hf _].
      apply Z.eqb_eq in Hf. congruence.
Qed.

Lemma progress_created_by_anyone_witness :
  exists db' row,
    StudentProgressViewSet.create (campus "approved") carol first_record
    = Ok (db', row)
    /\ In row (progress db')
    /\ StudentProgress.enrollment row = 1
    /\ In row (StudentProgressViewSet_get_queryset db' bob)
    /\ ~ In row (StudentProgressViewSet_get_queryset db' carol).
Proof.
  apply (progress_created_by_anyone (campus "approved") carol bob
           (bobs_enrollment "approved") 1 first_record);
    try reflexivity; try discriminate.
  - repeat constructor. intros [].
  - now left.
Defined.

(** ** How the enrollment actions compose *)

Lemma save_save (db : DB) (a b : Enrollment.t) :
  Enrollment.id a = Enrollment.id b ->
  save_enrollment (save_enrollment db a) b = save_enrollment db b.
Proof.
  intros Hid. unfold save_enrollment, set_enrollments. cbn. f_equal.
  rewrite map_map. apply map_ext. intros r. rewrite Hid.
  destruct (Enrollment.id r =? Enrollment.id b) eqn:Hr.
  - now rewrite Hid, Z.eqb_refl.
  - now rewrite Hr.
Qed.

Lemma save_same (db : DB) (e : Enrollment.t) :
  unique_keys db -> In e (enrollments db) -> save_enrollment db e = db.
Proof.
  intros Hk Hin. destruct db as [us cs es xs ps].
  unfold save_enrollment, set_enrollments. cbn in *. f_equal.
  rewrite <- (map_id es) at 2. apply map_ext_in. intros r Hr.
  destruct (Enrollment.id r =? Enrollment.id e) eqn:Hid; [|reflexivity].
  apply Z.eqb_eq in Hid. symmetry.
  now apply (NoDup_map_inj Enrollment.id es).
Qed.

Lemma admin_finds (db : DB) (user : User.t) (pk : Z) (e : Enrollment.t) :
  is_admin user = true ->
  EnrollmentViewSet.get_object db user pk = Ok e ->
  find (fun r => Enrollment.id r =? pk) (enrollments db) = Some e.
Proof.
  intros Ha. rewrite get_object_admin by assumption.
  destruct (find _ _); [|discriminate]. intros H. now inversion H.
Qed.

Lemma set_status_then (s1 s2 : string) (db db1 : DB) (user : User.t) (pk : Z)
      (e1 : Enrollment.t) :
  is_admin user = true ->
  EnrollmentViewSet.set_status_action s1 db user pk = Ok (db1, e1) ->
  EnrollmentViewSet.set_status_action s2 db1 user pk
  = EnrollmentViewSet.set_status_action s2 db user pk.
Proof.
  intros Ha H. apply set_status_action_ok in H.
  destruct H as (e & Hg & -> & ->).
  apply admin_finds in Hg; [|assumption].
  destruct (find_id_some _ _ _ Hg) as [_ Hid]. subst pk.
  rewrite (set_status_admin s2 db user _ e Ha Hg).
  set (e1 := EnrollmentViewSet.set_status e s1).
  assert (Hf1 : find (fun r => Enrollment.id r =? Enrollment.id e)
                     (enrollments (save_enrollment db e1)) = Some e1)
    by (cbn [enrollments save_enrollment set_enrollments]; now apply find_save).
  rewrite (set_status_admin s2 _ user _ e1 Ha Hf1).
  rewrite save_save by reflexivity. reflexivity.
Qed.

(** X11: for an admin the later of two decisions on an enrollment wins and
    the earlier one leaves no trace: rejecting after approving gives the
    store and the answer of rejecting alone, and the other way round. *)
Theorem last_decision_wins (db db1 : DB) (user : User.t) (pk : Z)
        (e1 : Enrollment.t) :
  is_admin user = true ->
  (EnrollmentViewSet.approve db user pk = Ok (db1, e1) ->
   EnrollmentViewSet.reject db1 user pk = EnrollmentViewSet.reject db user pk)
  /\ (EnrollmentViewSet.reject db user pk = Ok (db1, e1) ->
      EnrollmentViewSet.approve db1 user pk = EnrollmentViewSet.approve db user pk).
Proof.
  intros Ha. split; apply set_status_then; assumption.
Qed.

Lemma last_decision_wins_witness :
  EnrollmentViewSet.reject (campus "approved") alice 1
  = EnrollmentViewSet.reject (campus "pending") alice 1.
Proof.
  destruct (last_decision_wins (campus "pending") (campus "approved") alice 1
              (bobs_enrollment "approved") eq_refl) as [H _].
  apply H. reflexivity.
Defined.

(** X12: for an admin, approving an enrollment and updating its completion
    and grade can be done in either order: the two orders leave the same
    store, also when the update is turned down or the enrollment does not
    exist. *)
Theorem approve_commutes_with_update_progress (db : DB) (user : User.t)
        (pk : Z) (data : EnrollmentViewSet.ProgressData) :
  is_admin user = true ->
  let approve d := new_state d (EnrollmentViewSet.approve d user pk) in
  let update d := new_state d (EnrollmentViewSet.update_progress d user pk data) in
  update (approve db) = approve (update db).
Proof.
  intros Ha. cbv zeta. unfold EnrollmentViewSet.approve.
  destruct (find (fun r => Enrollment.id r =? pk) (enrollments db))
    as [e|] eqn:Hf.
  - destruct (find_id_some _ _ _ Hf) as [_ Hid]. subst pk.
    assert (Hg : EnrollmentViewSet.get_object db user (Enrollment.id e) = Ok e)
      by (rewrite get_object_admin, Hf; auto).
    rewrite (set_status_admin "approved" db user _ e Ha Hf). cbn [new_state].
    set (ea := EnrollmentViewSet.set_status e "approved").
    assert (Hfa : find (fun r => Enrollment.id r =? Enrollment.id e)
                       (enrollments (save_enrollment db ea)) = Some ea)
      by (cbn [enrollments save_enrollment set_enrollments]; now apply find_save).
    assert (Hga : EnrollmentViewSet.get_object (save_enrollment db ea) user
                    (Enrollment.id e) = Ok ea)
      by (rewrite get_object_admin, Hfa; auto).
    rewrite (update_progress_validation _ _ _ _ _ Hga),
      (update_progress_validation _ _ _ _ _ Hg). cbv zeta.
    assert (Hback : new_state db
                      (EnrollmentViewSet.set_status_action "approved" db user
                         (Enrollment.id e)) = save_enrollment db ea)
      by now rewrite (set_status_admin "approved" db user _ e Ha Hf).
    destruct (rejected (EnrollmentViewSet.p_completion_percentage data));
      [exact (eq_sym Hback)|].
    destruct (overflows (EnrollmentViewSet.p_completion_percentage data));
      [exact (eq_sym Hback)|].
    destruct (rejected (EnrollmentViewSet.p_grade data));
      [exact (eq_sym Hback)|].
    destruct (overflows (EnrollmentViewSet.p_grade data));
      [exact (eq_sym Hback)|].
    cbn [new_state].
    match goal with
    | |- save_enrollment _ ?x = _ => set (e2 := x)
    end.
    match goal with
    | |- _ = new_state (save_enrollment db ?x) _ => set (e' := x)
    end.
    assert (Hf' : find (fun r => Enrollment.id r =? Enrollment.id e)
                       (enrollments (save_enrollment db e')) = Some e')
      by (cbn [enrollments save_enrollment set_enrollments]; now apply find_save).
    rewrite (set_status_admin "approved" _ user _ e' Ha Hf'). cbn [new_state].
    rewrite !save_save by reflexivity. reflexivity.
  - assert (Hg : EnrollmentViewSet.get_object db user pk = Err NotFound)
      by (rewrite get_object_admin, Hf; auto).
    unfold EnrollmentViewSet.set_status_action,
      EnrollmentViewSet.update_progress.
    rewrite Hg. cbn [bind new_state]. rewrite Hg. reflexivity.
Qed.

Lemma approve_commutes_with_update_progress_witness :
  new_state (campus "approved")
    (EnrollmentViewSet.update_progress (campus "approved") alice 1
       (EnrollmentViewSet.mkProgressData (Some (Float 40%float)) None))
  = new_state
      (new_state (campus "pending")
         (EnrollmentViewSet.update_progress (campus "pending") alice 1
            (EnrollmentViewSet.mkProgressData (Some (Float 40%float)) None)))
      (EnrollmentViewSet.approve
         (new_state (campus "pending")
            (EnrollmentViewSet.update_progress (campus "pending") alice 1
               (EnrollmentViewSet.mkProgressData (Some (Float 40%float)) None)))
         alice 1).
Proof.
  exact (approve_commutes_with_update_progress (campus "pending") alice 1
           (EnrollmentViewSet.mkProgressData (Some (Float 40%float)) None)
           eq_refl).
Defined.

(** X13: an [update_progress] whose body names neither field succeeds and
    leaves the store as it is. *)
Theorem update_progress_empty_body (db : DB) (user : User.t) (pk : Z)
        (e : Enrollment.t) :
  unique_keys db ->
  EnrollmentViewSet.get_object db user pk = Ok e ->
  EnrollmentViewSet.update_progress db user pk
    (EnrollmentViewSet.mkProgressData None None)
  = Ok (db, e).
Proof.
  intros Hk Hg. rewrite (update_progress_validation _ _ _ _ _ Hg).
  cbn. destruct (get_object_in _ _ _ _ Hg) as [Hin _].
  assert (He : Enrollment.mk (Enrollment.id e) (Enrollment.student e)
                 (Enrollment.course e) (Enrollment.status e)
                 (Enrollment.completion_percentage e) (Enrollment.grade e) = e)
    by now destruct e.
  rewrite He. now rewrite save_same.
Qed.

Lemma update_progress_empty_body_witness :
  EnrollmentViewSet.update_progress (campus "approved") bob 1
    (EnrollmentViewSet.mkProgressData None None)
  = Ok (campus "approved", bobs_enrollment "approved").
Proof.
  apply update_progress_empty_body.
  - repeat constructor. intros [].
  - reflexivity.
Defined.

(** ** From the request to the decision *)

Lemma pending_approvals_admin (db : DB) (user : User.t) :
  is_admin user = true ->
  EnrollmentViewSet.pending_approvals db user
  = Ok (filter (fun e =>
                  existsb (fun c => Course.id c =? Enrollment.course e)
                          (filter (fun c => Course.instructor c =? User.id user)
                                  (courses db))
                  && String.eqb (Enrollment.status e) "pending")
               (enrollments db)).
Proof.
  intros Ha. unfold EnrollmentViewSet.pending_approvals. now rewrite Ha.
Qed.

Lemma saved_row_of_key (db : DB) (row r : Enrollment.t) :
  In r (enrollments (save_enrollment db row)) ->
  Enrollment.id r = Enrollment.id row -> r = row.
Proof.
  cbn. intros H Hid. apply in_map_iff in H. destruct H as (r0 & Hr & _).
  destruct (Enrollment.id r0 =? Enrollment.id row) eqn:H0; [congruence|].
  apply Z.eqb_neq in H0. congruence.
Qed.

(** X14: an enrollment that a student has requested in a course shows up
    in the pending list of the admin who instructs the course, and once
    that admin has approved it the list holds no enrollment of its key any
    more. *)
Theorem request_listed_until_decided (db db1 : DB) (student instructor : User.t)
        (s c : Z) (row : Enrollment.t) (course : Course.t) :
  unique_keys db ->
  requestEnrollment db student s c = Ok (db1, row) ->
  is_admin instructor = true ->
  In course (courses db) ->
  Course.id course = c ->
  Course.instructor course = User.id instructor ->
  (exists l, EnrollmentViewSet.pending_approvals db1 instructor = Ok l
             /\ In row l)
  /\ exists db2 row2 l,
       EnrollmentViewSet.approve db1 instructor (Enrollment.id row)
       = Ok (db2, row2)
       /\ Enrollment.status row2 = "approved"
       /\ EnrollmentViewSet.pending_approvals db2 instructor = Ok l
       /\ forall e, In e l -> Enrollment.id e <> Enrollment.id row.
Proof.
  intros Hk Hreq Ha Hco Hcid Hci.
  rewrite requestEnrollment_eq in Hreq.
  destruct (negb (may_enroll student s)); [discriminate|].
  destruct (negb (student_exists db s && course_exists db c)); [discriminate|].
  destruct (enrolled db s c); [discriminate|].
  inversion Hreq; subst db1 row; clear Hreq.
  set (row := pending_row db s c).
  set (db1 := set_enrollments db (enrollments db ++ [row])).
  assert (Htaught : forall e : Enrollment.t,
             Enrollment.course e = c ->
             existsb (fun k => Course.id k =? Enrollment.course e)
                     (filter (fun k => Course.instructor k =? User.id instructor)
                             (courses db)) = true).
  { intros e He. apply existsb_exists. exists course. split.
    - apply filter_In. split; [assumption|]. now apply Z.eqb_eq.
    - apply Z.eqb_eq. congruence. }
  assert (Hk1 : unique_keys db1)
    by (unfold unique_keys, db1; cbn; now apply append_fresh_keys).
  assert (Hin1 : In row (enrollments db1))
    by (cbn; apply in_or_app; right; now left).
  split.
  - rewrite pending_approvals_admin by assumption.
    eexists. split; [reflexivity|]. apply filter_In. split; [assumption|].
    unfold db1. cbn [courses set_enrollments]. now rewrite Htaught.
  - assert (Hf : find (fun r => Enrollment.id r =? Enrollment.id row)
                      (enrollments db1) = Some row)
      by now apply find_unique.
    rewrite (set_status_admin "approved" db1 instructor _ row Ha Hf : 
               EnrollmentViewSet.approve db1 instructor (Enrollment.id row) = _).
    eexists. eexists. eexists. split; [reflexivity|]. split; [reflexivity|].
    rewrite pending_approvals_admin by assumption.
    split; [reflexivity|].
    intros e He Hid. apply filter_In in He. destruct He as [He Hp].
    apply saved_row_of_key in He; [|exact Hid]. subst e.
    cbn in Hp. now rewrite andb_false_r in Hp.
Qed.

Lemma request_listed_until_decided_witness :
  (exists l, EnrollmentViewSet.pending_approvals (campus "pending") alice = Ok l
             /\ In (bobs_enrollment "pending") l)
  /\ exists db2 row2 l,
       EnrollmentViewSet.approve (campus "pending") alice 1 = Ok (db2, row2)
       /\ Enrollment.status row2 = "approved"
       /\ EnrollmentViewSet.pending_approvals db2 alice = Ok l
       /\ forall e, In e l -> Enrollment.id e <> 1.
Proof.
  apply (request_listed_until_decided open_campus (campus "pending") bob alice
           2 1 (bobs_enrollment "pending") (Course.mk 1 1 true));
    try reflexivity.
  - constructor.
  - now left.
Defined.

(** ** Counting completed items *)

Lemma distinct_contents_of_one_enrollment (l : list StudentProgress.t) (k : Z) :
  NoDup (map record_of l) ->
  (forall p, In p l -> StudentProgress.enrollment p = k) ->
  NoDup (map StudentProgress.content l).
Proof.
  induction l as [|a l IH]; cbn; intros Hnd Hk; [constructor|].
  apply NoDup_cons_iff in Hnd. destruct Hnd as [Ha Hnd].
  constructor; [|apply IH; auto].
  intros Hin. apply Ha. apply in_map_iff in Hin. destruct Hin as (p & Hc & Hp).
  apply in_map_iff. exists p. split; [|assumption].
  unfold record_of. rewrite Hc, (Hk p), (Hk a); auto.
Qed.

(** X15: when no (enrollment, content) pair is recorded twice, the content
    keys are unique and every completed row of an enrollment points to an
    active item of the course asked for, the answer of [course_progress]
    never counts more completed items than the course has active ones. *)
Theorem completed_within_total (db : DB) (user : User.t) (course_id : Z)
        (student_id : option Z) (r : StudentProgressViewSet.CourseProgress) :
  unique_records db ->
  NoDup (map CourseContent.id (contents db)) ->
  (forall p, In p (progress db) ->
             StudentProgress.is_completed p = true ->
             exists x, In x (contents db)
                       /\ CourseContent.id x = StudentProgress.content p
                       /\ CourseContent.course x = course_id
                       /\ CourseContent.is_active x = true) ->
  StudentProgressViewSet.course_progress db user (Some course_id) student_id
  = Ok r ->
  (StudentProgressViewSet.completed_contents
     (StudentProgressViewSet.overall_progress r)
   <= StudentProgressViewSet.total_contents
        (StudentProgressViewSet.overall_progress r))%nat.
Proof.
  intros Hrec Hkeys Hpoint.
  unfold StudentProgressViewSet.course_progress.
  destruct (StudentProgressViewSet.resolve db user course_id student_id)
    as [|e rest]; [discriminate|].
  rewrite percentage_total. cbn [bind]. intros H.
  inversion H; subst r; clear H. cbn.
  set (done := filter StudentProgress.is_completed
                      (filter (fun p => StudentProgress.enrollment p
                                        =? Enrollment.id e) (progress db))).
  rewrite <- (length_map StudentProgress.content done).
  rewrite <- (length_map CourseContent.id
                         (StudentProgressViewSet.active_contents db course_id)).
  apply NoDup_incl_length.
  - apply distinct_contents_of_one_enrollment with (k := Enrollment.id e).
    + unfold done. now do 2 apply filter_keeps_distinct.
    + intros p Hp. unfold done in Hp. apply filter_In in Hp.
      destruct Hp as [Hp _]. apply filter_In in Hp. now apply Z.eqb_eq.
  - intros k Hk. apply in_map_iff in Hk. destruct Hk as (p & <- & Hp).
    unfold done in Hp. apply filter_In in Hp. destruct Hp as [Hp Hdone].
    apply filter_In in Hp. destruct Hp as [Hp _].
    destruct (Hpoint p Hp Hdone) as (x & Hx & Hid & Hc & Hact).
    apply in_map_iff. exists x. split; [assumption|].
    apply filter_In. split; [assumption|].
    now rewrite Hc, Hact, Z.eqb_refl.
Qed.

Lemma completed_within_total_witness :
  exists r,
    StudentProgressViewSet.course_progress (campus_with_record "approved") bob
      (Some 1) None = Ok r
    /\ (StudentProgressViewSet.completed_contents
          (StudentProgressViewSet.overall_progress r)
        <= StudentProgressViewSet.total_contents
             (StudentProgressViewSet.overall_progress r))%nat.
Proof.
  eexists. split; [reflexivity|].
  apply (completed_within_total (campus_with_record "approved") bob 1 None).
  - repeat constructor. intros [].
  - repeat constructor. intros [].
  - intros p [<-|[]] _. exists (CourseContent.mk 1 1 0 true).
    repeat split. now left.
  - reflexivity.
Defined.

(** ** The status field of the serializer *)

Lemma own_pair_not_taken (db : DB) (e : Enrollment.t) :
  unique_pairs db -> In e (enrollments db) ->
  pair_taken db (Some e) (Enrollment.student e) (Enrollment.course e) = false.
Proof.
  intros Hp Hin. unfold pair_taken.
  destruct (existsb _ _) eqn:Hex; [|reflexivity]. exfalso.
  apply existsb_exists in Hex. destruct Hex as (r & Hr & Hm).
  apply andb_prop in Hm. destruct Hm as [Hm Hne].
  apply andb_prop in Hm. destruct Hm as [Hs Hc].
  apply Z.eqb_eq in Hs, Hc.
  assert (r = e)
    by (apply (NoDup_map_inj pair_of (enrollments db)); auto;
        unfold pair_of; congruence).
  subst r. now rewrite Z.eqb_refl in Hne.
Qed.

(** X16: the generic PATCH of an enrollment lets its student, like an
    admin, write any of the four statuses: the answer is the enrollment
    with that status and nothing else changed, so a student can approve
    the student's own pending enrollment. *)
Theorem patch_sets_any_status (db : DB) (user : User.t) (e : Enrollment.t)
        (s : string) :
  unique_keys db -> unique_pairs db ->
  In e (enrollments db) ->
  is_admin user = true \/ Enrollment.student e = User.id user ->
  In s Enrollment.ENROLLMENT_STATUS ->
  EnrollmentViewSet.partial_update db user (Enrollment.id e)
    (mkEnrollmentData None None (Some s) None None)
  = Ok (save_enrollment db (EnrollmentViewSet.set_status e s),
        EnrollmentViewSet.set_status e s).
Proof.
  intros Hk Hp Hin Hsee Hs.
  unfold EnrollmentViewSet.partial_update, EnrollmentViewSet.update.
  rewrite get_object_visible by assumption. cbn [bind].
  unfold is_valid, fields_valid, field_ok. cbn [d_student d_course d_status
    d_completion_percentage d_grade opt_ok or_default andb].
  assert (Hv : valid_choice s = true).
  { unfold valid_choice. apply existsb_exists. exists s.
    split; [assumption|apply String.eqb_refl]. }
  rewrite Hv. cbn [negb andb].
  rewrite own_pair_not_taken by assumption. reflexivity.
Qed.

Lemma patch_sets_any_status_witness :
  EnrollmentViewSet.partial_update (campus "pending") bob 1
    (mkEnrollmentData None None (Some "approved") None None)
  = Ok (campus "approved", bobs_enrollment "approved").
Proof.
  apply (patch_sets_any_status (campus "pending") bob (bobs_enrollment "pending")
                               "approved").
  - repeat constructor. intros [].
  - repeat constructor. intros [].
  - now left.
  - now right.
  - right. left. reflexivity.
Defined.

(** X17: an enrollment creation whose payload names a status stores that
    status instead of [pending]: a student who sends the own key as a
    number, or an admin, may enroll the student as approved.  A caller
    who is no admin and names another student, or sends the key as text,
    is answered [Forbidden]. *)
Theorem create_stores_status (db : DB) (user : User.t) (k : key_value) (c : Z)
        (status : string) :
  let payload := mkEnrollmentData (Some k) (Some c) (Some status) None None in
  (may_name user k = true ->
   student_exists db (key_of k) = true -> course_exists db c = true ->
   enrolled db (key_of k) c = false ->
   In status Enrollment.ENROLLMENT_STATUS ->
   exists row,
     EnrollmentViewSet.create db user payload
     = Ok (set_enrollments db (enrollments db ++ [row])%list, row)
     /\ ~ In (Enrollment.id row) (map Enrollment.id (enrollments db))
     /\ Enrollment.student row = key_of k /\ Enrollment.course row = c
     /\ Enrollment.status row = status
     /\ Enrollment.completion_percentage row = 0%float
     /\ Enrollment.grade row = None)
  /\ (may_name user k = false ->
      EnrollmentViewSet.create db user payload = Err Forbidden).
Proof.
  cbv zeta. unfold may_name. split.
  - intros Hm Hs Hc He Hst.
    unfold EnrollmentViewSet.create, is_valid, fields_valid, field_ok.
    cbn [d_student d_course d_status d_completion_percentage d_grade opt_ok
         or_default option_map].
    assert (Hguard : differs k (User.id user) && negb (is_admin user) = false)
      by (destruct (differs k (User.id user)), (is_admin user);
          cbn in *; congruence).
    assert (Hv : valid_choice status = true).
    { unfold valid_choice. apply existsb_exists. exists status.
      split; [assumption|apply String.eqb_refl]. }
    rewrite Hguard, Hs, Hc, Hv, pair_taken_create, He.
    cbn [andb negb bind Enrollment.student Enrollment.course].
    fold (enrolled db (key_of k) c). rewrite He.
    eexists. split; [reflexivity|].
    cbn [Enrollment.id Enrollment.student Enrollment.course Enrollment.status
         Enrollment.completion_percentage Enrollment.grade].
    repeat split.
    intros Hin. apply next_pk_fresh in Hin. lia.
  - intros Hm. unfold EnrollmentViewSet.create. cbn [d_student].
    destruct (differs k (User.id user)), (is_admin user);
      cbn in *; congruence.
Qed.

Lemma create_stores_status_witness :
  exists row,
    EnrollmentViewSet.create open_campus bob
      (mkEnrollmentData (Some (NumberKey 2)) (Some 1) (Some "approved")
                        None None)
    = Ok (set_enrollments open_campus (enrollments open_campus ++ [row])%list,
          row)
    /\ Enrollment.student row = 2 /\ Enrollment.course row = 1
    /\ Enrollment.status row = "approved".
Proof.
  destruct (create_stores_status open_campus bob (NumberKey 2) 1 "approved")
    as [H _].
  destruct H as (row & Hr & _ & Hs & Hc & Hst & _); try reflexivity.
  - right. left. reflexivity.
  - exists row. auto.
Defined.

(** ** Deleting an enrollment *)

(** X18: a successful deletion removes the rows of the key from the
    enrollments and, with them, the progress rows that point to it; every
    other enrollment and progress row, and the other three tables, stay. *)
Theorem destroy_cascades (db db' : DB) (user : User.t) (pk : Z) :
  EnrollmentViewSet.destroy db user pk = Ok db' ->
  (exists e, EnrollmentViewSet.get_object db user pk = Ok e)
  /\ (forall r, In r (enrollments db') <->
                In r (enrollments db) /\ Enrollment.id r <> pk)
  /\ (forall p, In p (progress db') <->
                In p (progress db) /\ StudentProgress.enrollment p <> pk)
  /\ users db' = users db /\ courses db' = courses db
  /\ contents db' = contents db.
Proof.
  unfold EnrollmentViewSet.destroy.
  destruct (EnrollmentViewSet.get_object db user pk) as [e|] eqn:Hg;
    [|discriminate].
  destruct (get_object_in _ _ _ _ Hg) as [_ Hid]. subst pk.
  cbn [bind]. intros H. inversion H; subst db'; clear H. cbn.
  split; [now exists e|]. split; [|split; [|auto]].
  - intros r. rewrite filter_In, negb_true_iff, Z.eqb_neq. tauto.
  - intros p. rewrite filter_In, negb_true_iff, Z.eqb_neq. tauto.
Qed.

Lemma destroy_cascades_witness :
  exists e,
    EnrollmentViewSet.get_object (campus_with_record "approved") bob 1 = Ok e.
Proof.
  destruct (destroy_cascades (campus_with_record "approved")
              (mkDB accounts [Course.mk 1 1 true] []
                    [CourseContent.mk 1 1 0 true] [])
              bob 1 eq_refl) as (H & _).
  exact H.
Defined.

(** ** Accounts *)

Section Accounts.

Variables (SECRET : string) (validate_email : string -> bool)
          (normalize_email : string -> string).

Let register := AuthViewSet.register SECRET validate_email normalize_email.



End Accounts.






(** ** Fetching a progress row *)

(** X21: a progress row that a user who is no admin fetches belongs to an
    approved enrollment of that user, and the permission test after the
    lookup never fails: a row of somebody else, or of an enrollment that
    is not approved, is answered [NotFound] and never [Forbidden]. *)
Theorem progress_row_lookup (db : DB) (user : User.t) (pk : Z) :
  StudentProgressViewSet_get_object db user pk <> Err Forbidden
  /\ (is_admin user = false ->
      forall p, StudentProgressViewSet_get_object db user pk = Ok p ->
                In p (progress db)
                /\ StudentProgress.id p = pk
                /\ exists e, In e (enrollments db)
                             /\ Enrollment.id e = StudentProgress.enrollment p
                             /\ Enrollment.student e = User.id user
                             /\ Enrollment.status e = "approved")
  /\ (is_admin user = false ->
      (forall p, In p (progress db) -> StudentProgress.id p = pk ->
                 forall e, get_enrollment db (Some (StudentProgress.enrollment p))
                           = Some e ->
                           Enrollment.student e <> User.id user
                           \/ Enrollment.status e <> "approved") ->
      StudentProgressViewSet_get_object db user pk = Err NotFound).
Proof.
  unfold StudentProgressViewSet_get_object, StudentProgressViewSet_get_queryset,
    Permissions.IsOwnerOrAdmin.
  destruct (is_admin user) eqn:Ha.
  - split; [|split; discriminate].
    destruct (find _ _); discriminate.
  - assert (Hrow : forall p,
               find (fun q => StudentProgress.id q =? pk)
                    (filter (fun q =>
                               match get_enrollment db
                                       (Some (StudentProgress.enrollment q)) with
                               | Some e => (Enrollment.student e =? User.id user)
                                           && String.eqb (Enrollment.status e)
                                                         "approved"
                               | None => false
                               end) (progress db)) = Some p ->
               In p (progress db) /\ StudentProgress.id p = pk
               /\ exists e, get_enrollment db (Some (StudentProgress.enrollment p))
                            = Some e
                            /\ Enrollment.student e = User.id user
                            /\ Enrollment.status e = "approved").
    { intros p Hf. apply find_some in Hf. destruct Hf as [Hin Hid].
      apply Z.eqb_eq in Hid. apply filter_In in Hin. destruct Hin as [Hin Hm].
      destruct (get_enrollment db (Some (StudentProgress.enrollment p)))
        as [e|]; [|discriminate].
      apply andb_prop in Hm. destruct Hm as [Hs Hst].
      apply Z.eqb_eq in Hs. apply String.eqb_eq in Hst.
      repeat split; try assumption. now exists e. }
    split; [|split].
    + destruct (find _ _) as [p|] eqn:Hf; [|discriminate].
      destruct (Hrow p eq_refl) as (_ & _ & e & -> & Hs & _).
      apply Z.eqb_eq in Hs. rewrite Hs. discriminate.
    + intros _ p. destruct (find _ _) as [q|] eqn:Hf; [|discriminate].
      destruct (Hrow q eq_refl) as (Hin & Hid & e & Hg & Hs & Hst).
      rewrite Hg. apply Z.eqb_eq in Hs. rewrite Hs. intros H.
      inversion H; subst q. apply Z.eqb_eq in Hs.
      repeat split; try assumption. exists e.
      cbn in Hg. destruct (find_id_some _ _ _ Hg) as [He Hide]. auto.
    + intros _ Hnone. rewrite find_none_all; [reflexivity|].
      intros p Hp. apply filter_In in Hp. destruct Hp as [Hp Hm].
      apply Z.eqb_neq. intros Hid.
      destruct (get_enrollment db (Some (StudentProgress.enrollment p)))
        as [e|] eqn:Hg; [|discriminate].
      apply andb_prop in Hm. destruct Hm as [Hs Hst].
      apply Z.eqb_eq in Hs. apply String.eqb_eq in Hst.
      destruct (Hnone p Hp Hid e Hg); contradiction.
Qed.

Lemma progress_row_lookup_witness :
  StudentProgressViewSet_get_object (campus_with_record "rejected") bob 1
  = Err NotFound.
Proof.
  destruct (progress_row_lookup (campus_with_record "rejected") bob 1)
    as (_ & _ & H).
  apply H; [reflexivity|].
  intros p [<-|[]] _ e He. right. cbn in He. inversion He. discriminate.
Defined.
